(** * TecBlu savings calculator: the calculation engine and the locale
      resolution, embedded from the JavaScript sources.

    The repository holds two implementations side by side:
    - the bundled widget ([dist/tecblu-calc.js], built from
      [src/js/localization.js] and [src/js/calculator.js]): modules
      [Localization] and [Calculator] below, and [CountryLocalization] for
      the later [localization.js] that knows the countries;
    - the class based widget ([src/calculator.js] with [src/locale.js]):
      modules [Locale] and [TecCalculator].

    Numbers.  There are two models of a JavaScript number.  Module
    [Binary64] computes in binary64 itself (the primitive floats of Rocq),
    with every operation rounded as the code rounds it: what is stated
    about the value of a formula, about an example or about a text written
    from a computed value is stated there.  Modules [Calculator] and
    [TecCalculator] compute in exact arithmetic, a number being [NaN] or a
    rational ([Num q]), without rounding, infinities or the sign of zero:
    they carry what does not depend on rounding, the handling of the fields
    ([||], [Math.min], [Math.max], which are exact) and the bounds of the
    figures.

    The document.  Every input element is represented by what [parseFloat]
    (or [parseInt]) returns on its value; what the code writes back is
    collected in a record with one field per element. *)

From Stdlib Require Import QArith Qminmax Qround Qabs ZArith Lia Lra Psatz.
From Stdlib Require Import DecimalString Floats.
From stdpp Require Import base option list strings gmap.
From Stdlib Require Import Ascii.

#[local] Set Warnings "-register-all".
#[local] Set Warnings "-inexact-float".

(* ===================================================================== *)
(** ** The JavaScript runtime the sources rely on                         *)
(* ===================================================================== *)

Module Js.

(** *** Numbers *)

Inductive jsnum : Type :=
  | NaN
  | Num (q : Q).

(** Two numbers denote the same value: both NaN, or equal rationals. *)
Definition same_value (a b : jsnum) : Prop :=
  match a, b with
  | NaN, NaN => True
  | Num x, Num y => (x == y)%Q
  | _, _ => False
  end.

#[export] Instance jsnum_equiv : Equiv jsnum := same_value.

Definition lift2 (f : Q -> Q -> Q) (a b : jsnum) : jsnum :=
  match a, b with
  | Num x, Num y => Num (f x y)
  | _, _ => NaN
  end.

Definition add : jsnum -> jsnum -> jsnum := lift2 Qplus.
Definition sub : jsnum -> jsnum -> jsnum := lift2 Qminus.
Definition mul : jsnum -> jsnum -> jsnum := lift2 Qmult.

(** [a / b].  With [b] zero JavaScript yields an infinity (or NaN for 0/0);
    infinities are not represented, the model yields [NaN]. *)
Definition div (a b : jsnum) : jsnum :=
  match a, b with
  | Num x, Num y => if Qeq_bool y 0 then NaN else Num (x / y)
  | _, _ => NaN
  end.

(** [Math.max], [Math.min]: NaN when an argument is NaN. *)
Definition Math_max : jsnum -> jsnum -> jsnum := lift2 Qmax.
Definition Math_min : jsnum -> jsnum -> jsnum := lift2 Qmin.

(** [Math.round]: the nearest integer, a half rounds towards +infinity. *)
Definition Math_round (a : jsnum) : jsnum :=
  match a with
  | NaN => NaN
  | Num x => Num (inject_Z (Qfloor (x + (1 # 2))))
  end.

(** [a > b]: false when an argument is NaN. *)
Definition gt (a b : jsnum) : bool :=
  match a, b with
  | Num x, Num y => negb (Qle_bool x y)
  | _, _ => false
  end.

(** ToBoolean on a number: NaN and zero are falsy. *)
Definition truthy (a : jsnum) : bool :=
  match a with
  | NaN => false
  | Num x => negb (Qeq_bool x 0)
  end.

(** [a || d] on numbers. *)
Definition or_else (a d : jsnum) : jsnum := if truthy a then a else d.

Declare Scope js_scope.
Delimit Scope js_scope with js.
Bind Scope js_scope with jsnum.
Infix "+" := add : js_scope.
Infix "-" := sub : js_scope.
Infix "*" := mul : js_scope.
Infix "/" := div : js_scope.
Infix "||" := or_else : js_scope.

(** *** Strings *)

(** [s.split(c)] for a one character separator. *)
Fixpoint split (sep : Ascii.ascii) (s : string) : list string :=
  match s with
  | EmptyString => [EmptyString]
  | String c rest =>
      let parts := split sep rest in
      if Ascii.eqb c sep then EmptyString :: parts
      else match parts with
           | p :: ps => String c p :: ps
           | [] => [String c EmptyString]
           end
  end.

(** [s.toLowerCase()] on the ASCII letters (host names are ASCII). *)
Definition lower_ascii (c : Ascii.ascii) : Ascii.ascii :=
  let n := Ascii.nat_of_ascii c in
  if (65 <=? n)%nat && (n <=? 90)%nat then Ascii.ascii_of_nat (n + 32) else c.

Fixpoint toLowerCase (s : string) : string :=
  match s with
  | EmptyString => EmptyString
  | String c rest => String (lower_ascii c) (toLowerCase rest)
  end.

(** The text is made of ASCII characters only (every byte is below 128). *)
Fixpoint ascii_only (s : string) : bool :=
  match s with
  | EmptyString => true
  | String c rest => (Ascii.nat_of_ascii c <? 128)%nat && ascii_only rest
  end.

(** [s.startsWith(p)], [s.endsWith(p)] and [s.includes(p)]. *)
Definition startsWith (p s : string) : bool := String.prefix p s.

Fixpoint includes (p s : string) : bool :=
  String.prefix p s ||
  match s with
  | EmptyString => false
  | String _ rest => includes p rest
  end.

Fixpoint endsWith (p s : string) : bool :=
  String.eqb p s ||
  match s with
  | EmptyString => false
  | String _ rest => endsWith p rest
  end.

(** *** Intl.NumberFormat

    The host supplies the symbols of each locale and the least number of
    digits before the first separator ([minimumGroupingDigits]: 1 for most
    locales, 2 for those that write 1234 but 12.345).  The model groups the
    integer digits in threes and rounds to the requested number of fraction
    digits, a half away from zero (the default rounding mode of
    [Intl.NumberFormat]). *)

Record NumberSymbols : Type := {
  group : string;
  decimal : string;
  minusSign : string;
  minimumGroupingDigits : nat
}.

Definition Host : Type := string -> NumberSymbols.

Definition digits_of_N (n : N) : string := NilZero.string_of_uint (N.to_uint n).

Fixpoint insert_groups (sep ds : string) : string :=
  match ds with
  | EmptyString => EmptyString
  | String c rest =>
      let k := String.length rest in
      String c (if (0 <? k)%nat && (k mod 3 =? 0)%nat
                then sep +:+ insert_groups sep rest
                else insert_groups sep rest)
  end.

Fixpoint pad_zeros (width : nat) (s : string) : string :=
  match width with
  | O => s
  | S w => if (String.length s <? width)%nat then pad_zeros w ("0" +:+ s) else s
  end.

Definition format_fixed (sym : NumberSymbols) (fractionDigits : nat) (x : Q) : string :=
  let scale := (10 ^ Z.of_nat fractionDigits)%Z in
  let r := Z.to_N (Qfloor (Qabs x * inject_Z scale + (1 # 2))) in
  let ip := (r / Z.to_N scale)%N in
  let fp := (r mod Z.to_N scale)%N in
  (if Qle_bool 0 x then "" else minusSign sym)
  +:+ (let digits := digits_of_N ip in
       if (String.length digits <? 3 + minimumGroupingDigits sym)%nat then digits
       else insert_groups (group sym) digits)
  +:+ (match fractionDigits with
       | O => ""
       | S _ => decimal sym +:+ pad_zeros fractionDigits (digits_of_N fp)
       end).

(** [new Intl.NumberFormat(locale, {minimumFractionDigits: d,
    maximumFractionDigits: d}).format(v)]. *)
Definition NumberFormat (host : Host) (locale : string) (d : nat) (v : jsnum) : string :=
  match v with
  | NaN => "NaN"
  | Num x => format_fixed (host locale) d x
  end.

(** The digits JavaScript prints for an integral number below 10^21
    ([Math.round(x)] concatenated to a string). *)
Definition integer_to_string (v : jsnum) : string :=
  match v with
  | NaN => "NaN"
  | Num x => NilZero.string_of_int (Z.to_int (Qfloor x))
  end.

(** *** Values, property reads and exceptions *)

Inductive jsval : Type :=
  | VUndefined
  | VNull
  | VBool (b : bool)
  | VNumber (n : jsnum)
  | VString (s : string)
  | VObject (props : gmap string jsval)
  | VNative (name : string).   (* a function or object of the runtime *)

(** What the runtime adds to the values of a program: [inherited v key] is
    what [v[key]] finds beyond the own properties of an object literal (the
    members of the prototypes; for a string also its own [length] and
    characters), [display v] the text of [v] when it is written to
    [textContent]. *)
Record Runtime : Type := {
  inherited : jsval -> string -> jsval;
  display : jsval -> string
}.

Inductive completion (A : Type) : Type :=
  | Normal (a : A)
  | Throw (error : string).
Arguments Normal {A} a.
Arguments Throw {A} error.

#[export] Instance completion_ret : MRet completion := @Normal.
#[export] Instance completion_bind : MBind completion :=
  fun A B f c => match c with Normal a => f a | Throw e => Throw e end.

Definition ToBoolean (v : jsval) : bool :=
  match v with
  | VUndefined | VNull => false
  | VBool b => b
  | VNumber n => truthy n
  | VString s => negb (String.eqb s "")
  | VObject _ | VNative _ => true
  end.

Definition is_undefined (v : jsval) : bool :=
  match v with VUndefined => true | _ => false end.

(** [v[key]]: a TypeError on [undefined] and [null]. *)
Definition get_property (rt : Runtime) (v : jsval) (key : string) : completion jsval :=
  match v with
  | VUndefined | VNull => Throw "TypeError"
  | VObject props =>
      Normal (match props !! key with Some x => x | None => inherited rt v key end)
  | _ => Normal (inherited rt v key)
  end.

(** ToString for [textContent = v]. *)
Definition ToString (rt : Runtime) (v : jsval) : string :=
  match v with
  | VString s => s
  | _ => display rt v
  end.

(** [v?.key]: [undefined] on [undefined] and [null], where [v.key] throws. *)
Definition optional_get (rt : Runtime) (v : jsval) (key : string) : completion jsval :=
  match v with
  | VUndefined | VNull => Normal VUndefined
  | _ => get_property rt v key
  end.

(** [a || b] on values. *)
Definition or_value (a b : jsval) : jsval := if ToBoolean a then a else b.

(** [x.toFixed(d)] for a number below 10^21 in magnitude: [d] fraction
    digits, a half rounded away from zero, no grouping. *)
Definition toFixed (fractionDigits : nat) (x : jsnum) : string :=
  match x with
  | NaN => "NaN"
  | Num q =>
      format_fixed {| group := ""; decimal := "."; minusSign := "-"; minimumGroupingDigits := 1 |}
        fractionDigits q
  end.

(** [s.replace(/c/g, by)] for a pattern that is the one character [c]. *)
Fixpoint replace_all (c : Ascii.ascii) (by_ : string) (s : string) : string :=
  match s with
  | EmptyString => EmptyString
  | String a rest =>
      if Ascii.eqb a c then by_ +:+ replace_all c by_ rest
      else String a (replace_all c by_ rest)
  end.

End Js.


Import Js.

(* ===================================================================== *)
(** ** [src/js/localization.js], as bundled in [dist/tecblu-calc.js]      *)
(* ===================================================================== *)

Module Localization.

(** A pattern of [URL_PATTERNS] is anchored at both ends and has no
    repetition: it is given by the finite set of host names it matches, and
    [test] is membership. *)
Definition pattern : Type := list string.

Definition test (p : pattern) (hostname : string) : bool :=
  existsb (String.eqb hostname) p.

(** The entries of [URL_PATTERNS] in the order [Object.entries] lists them. *)
Definition URL_PATTERNS : list (string * list pattern) :=
  [ ("de", [ ["tecblu.ch"; "tecblu.at"; "tecblu.de"] ]);
    ("en", [ ["en.tecblu.ch"; "en.tecblu.at"; "en.tecblu.de"; "en.tecblu.fr"; "en.tecblu.it"] ]);
    ("fr", [ ["fr.tecblu.ch"]; ["tecblu.fr"] ]);
    ("it", [ ["it.tecblu.ch"]; ["tecblu.it"] ]) ].

Definition SUPPORTED_LANGS : list string := ["de"; "en"; "fr"; "it"].

Definition supported (lang : string) : bool :=
  existsb (String.eqb lang) SUPPORTED_LANGS.

(** Step 2 of [detectLanguage]: the first entry with a matching pattern. *)
Definition language_of_hostname (hostname : string) : option string :=
  fst <$> find (fun e => existsb (fun p => test p hostname) e.2) URL_PATTERNS.

(** [detectLanguage()]: [langParam] is [urlParams.get('lang')] ([None] for
    null), [hostname] is [window.location.hostname]. *)
Definition detectLanguage (langParam : option string) (hostname : string) : string :=
  let detected := default "de" (language_of_hostname hostname) in
  match langParam with
  | Some l => if negb (String.eqb l "") && supported l then l else detected
  | None => detected
  end.

Section WithRuntime.
Variable rt : Runtime.

(** The callback of the [reduce] in [getNestedValue]:
    [current && current[key] !== undefined ? current[key] : undefined]. *)
Definition nested_step (current : jsval) (key : string) : completion jsval :=
  if ToBoolean current then
    v ← get_property rt current key;
    if negb (is_undefined v) then get_property rt current key
    else Normal VUndefined
  else Normal VUndefined.

Fixpoint reduce (keys : list string) (current : jsval) : completion jsval :=
  match keys with
  | [] => Normal current
  | key :: rest => next ← nested_step current key; reduce rest next
  end.

Definition getNestedValue (obj : jsval) (path : string) : completion jsval :=
  reduce (split "."%char path) obj.

(** An element with a [data-i18n] attribute, as far as [applyTranslations]
    looks at it.  A child is a text node or an element with its classes and
    its text; the span of class [tec-tooltip-text] that [querySelector]
    finds is one of the children, as in the template. *)
Inductive node : Type :=
  | TextNode (text : string)
  | ChildElement (classes : list string) (text : string).

Record element : Type := {
  tagName : string;
  classList : list string;
  data_i18n : string;
  data_i18n_tooltip : option string;
  childNodes : list node
}.

Definition contains (cls : string) (classes : list string) : bool :=
  existsb (String.eqb cls) classes.

Definition is_text (n : node) : bool :=
  match n with TextNode _ => true | ChildElement _ _ => false end.

Definition is_tooltip_span (n : node) : bool :=
  match n with
  | TextNode _ => false
  | ChildElement classes _ => contains "tec-tooltip-text" classes
  end.

(** [el.textContent = text]. *)
Definition set_textContent (el : element) (text : string) : element :=
  {| tagName := tagName el; classList := classList el; data_i18n := data_i18n el;
     data_i18n_tooltip := data_i18n_tooltip el; childNodes := [TextNode text] |}.

Definition with_children (el : element) (children : list node) : element :=
  {| tagName := tagName el; classList := classList el; data_i18n := data_i18n el;
     data_i18n_tooltip := data_i18n_tooltip el; childNodes := children |}.

(** [textNode.textContent = text] on the first text node. *)
Fixpoint set_first_text (text : string) (children : list node) : list node :=
  match children with
  | [] => []
  | TextNode _ :: rest => TextNode text :: rest
  | n :: rest => n :: set_first_text text rest
  end.

(** [el.insertBefore(document.createTextNode(text), tooltipSpan)]. *)
Fixpoint insert_before_span (text : string) (children : list node) : list node :=
  match children with
  | [] => []
  | n :: rest =>
      if is_tooltip_span n then TextNode text :: n :: rest
      else n :: insert_before_span text rest
  end.

(** [tooltipSpan.textContent = text]. *)
Fixpoint set_span_text (text : string) (children : list node) : list node :=
  match children with
  | [] => []
  | ChildElement classes old :: rest =>
      if contains "tec-tooltip-text" classes then ChildElement classes text :: rest
      else ChildElement classes old :: set_span_text text rest
  | n :: rest => n :: set_span_text text rest
  end.

Definition truthy_attribute (a : option string) : bool :=
  match a with
  | Some s => negb (String.eqb s "")
  | None => false
  end.

(** The body of the [forEach] in [applyTranslations]. *)
Definition translate_element (translations : jsval) (el : element) : completion element :=
  translation ← getNestedValue translations (data_i18n el);
  if ToBoolean translation then
    let text := ToString rt translation in
    if String.eqb (tagName el) "OPTION" then Normal (set_textContent el text)
    else if contains "tec-tooltip" (classList el) then
      let hasSpan := existsb is_tooltip_span (childNodes el) in
      let el1 :=
        if existsb is_text (childNodes el)
        then with_children el (set_first_text text (childNodes el))
        else if hasSpan
             then with_children el (insert_before_span text (childNodes el))
             else set_textContent el text in
      if hasSpan && truthy_attribute (data_i18n_tooltip el) then
        tooltipTranslation ← getNestedValue translations (default "" (data_i18n_tooltip el));
        if ToBoolean tooltipTranslation
        then Normal (with_children el1
                       (set_span_text (ToString rt tooltipTranslation) (childNodes el1)))
        else Normal el1
      else Normal el1
    else Normal (set_textContent el text)
  else Normal el.

Fixpoint applyTranslations (elements : list element) (translations : jsval)
  : completion (list element) :=
  match elements with
  | [] => Normal []
  | el :: rest =>
      el' ← translate_element translations el;
      rest' ← applyTranslations rest translations;
      Normal (el' :: rest')
  end.

End WithRuntime.

(** [localeMap[lang] || 'de-CH'] of [formatCurrency] and [formatNumber]. *)
Definition localeMap : gmap string string :=
  list_to_map [("de", "de-CH"); ("en", "en-CH"); ("fr", "fr-CH"); ("it", "it-CH")].

Definition locale_of (lang : string) : string :=
  match localeMap !! lang with
  | Some l => if String.eqb l "" then "de-CH" else l
  | None => "de-CH"
  end.

Definition formatCurrency (host : Host) (value : jsnum) (currency lang : string) : string :=
  let formatted :=
    NumberFormat host (locale_of lang) 0 (Math_round (Math_min value (Num 999999999999))) in
  currency +:+ " " +:+ formatted +:+ ".–".

Definition formatNumber (host : Host) (value : jsnum) (decimals : nat) (lang : string) : string :=
  NumberFormat host (locale_of lang) decimals (Math_min value (Num 999999999999)).

End Localization.

(* ===================================================================== *)
(** ** [src/js/calculator.js], as bundled in [dist/tecblu-calc.js]        *)
(* ===================================================================== *)

Module Calculator.
Import Localization.

Definition TEC_COST : jsnum := Num 0.0463.
Definition CO2_LITER : jsnum := Num 2.65.
Definition MAX_OUT : jsnum := Num 999999999999.

(** [LIMITS.km[0]] is [LIMITS.km.1], [LIMITS.km[1]] is [LIMITS.km.2]. *)
Module LIMITS.
Definition km : jsnum * jsnum := (Num 1000, Num 300000).
Definition cons : jsnum * jsnum := (Num 1, Num 150).
Definition vehicles : jsnum * jsnum := (Num 1, Num 1000).
Definition heating : jsnum * jsnum := (Num 500, Num 500000).
Definition price : jsnum * jsnum := (Num 0.5, Num 5).
Definition savings : jsnum * jsnum := (Num 1, Num 25).
End LIMITS.

(** The module level variables. *)
Record State : Type := {
  currentTab : string;
  vehicles : jsnum;
  currentLang : string
}.

Definition initial : State :=
  {| currentTab := "diesel"; vehicles := Num 5; currentLang := "de" |}.

Definition clamp (v min max : jsnum) : jsnum := Math_min max (Math_max min v).

(** The value of the [tec-consumption] select: ['custom'], or another
    string, given by what [parseFloat] makes of it. *)
Inductive selected : Type :=
  | Custom
  | Preset (parsed : jsnum).

(** The input elements: [parseInt] of [tec-custom-vehicles], [parseFloat]
    of the others. *)
Record Fields : Type := {
  tec_custom_vehicles : jsnum;
  tec_km_input : jsnum;
  tec_diesel_price : jsnum;
  tec_consumption : selected;
  tec_custom_consumption : jsnum;
  tec_savings_slider : jsnum;
  tec_heating_input : jsnum;
  tec_heating_price : jsnum;
  tec_heating_savings_slider : jsnum
}.

Definition with_vehicles (st : State) (n : jsnum) : State :=
  {| currentTab := currentTab st; vehicles := n; currentLang := currentLang st |}.

(** [setVehicles(n)], [calcRawVehicles()] and [clampVehicles()], as far as
    the module state goes; each ends in [calculate()]. *)
Definition setVehicles (st : State) (n : jsnum) : State := with_vehicles st n.

Definition calcRawVehicles (st : State) (f : Fields) : State :=
  with_vehicles st (tec_custom_vehicles f || Num 1)%js.

Definition clampVehicles (st : State) (f : Fields) : State :=
  with_vehicles st
    (clamp (tec_custom_vehicles f || Num 1)%js LIMITS.vehicles.1 LIMITS.vehicles.2).

(** [BUILDING_PRESETS]; [None] stands for [undefined]. *)
Definition BUILDING_PRESETS : gmap string jsnum :=
  list_to_map [("single", Num 3000); ("multi", Num 8000); ("commercial", Num 50000)].

(** The handlers of the number fields.  Each is given what [parseInt] (in
    [clampConsumption], [parseFloat]) returns on the value it reads, and
    yields what it assigns to [value]: [syncKm] and [clampKm] to the field
    and to the slider, [syncKmRaw] to the slider only, and likewise for the
    heating oil; [setBuilding] assigns the preset to both.  Each ends in
    [calculate()].  [adjustPrice], which adds, is in module [Binary64]. *)
Definition clampConsumption (parsed : jsnum) : jsnum :=
  clamp (parsed || Num 1)%js LIMITS.cons.1 LIMITS.cons.2.

Definition syncKm (parsed : jsnum) : jsnum :=
  clamp (parsed || LIMITS.km.1)%js LIMITS.km.1 LIMITS.km.2.

Definition syncKmRaw (parsed : jsnum) : jsnum :=
  clamp (parsed || Num 0)%js LIMITS.km.1 LIMITS.km.2.

Definition clampKm (parsed : jsnum) : jsnum :=
  clamp (parsed || LIMITS.km.1)%js LIMITS.km.1 LIMITS.km.2.

Definition setBuilding (type : string) : option jsnum := BUILDING_PRESETS !! type.

Definition syncHeating (parsed : jsnum) : jsnum :=
  clamp (parsed || LIMITS.heating.1)%js LIMITS.heating.1 LIMITS.heating.2.

Definition syncHeatingRaw (parsed : jsnum) : jsnum :=
  clamp (parsed || Num 0)%js LIMITS.heating.1 LIMITS.heating.2.

Definition clampHeating (parsed : jsnum) : jsnum :=
  clamp (parsed || LIMITS.heating.1)%js LIMITS.heating.1 LIMITS.heating.2.

(** [toggleAdvanced(type)]: the text assigned to the toggle, given the
    translations kept on the wrapper and whether the panel shows after the
    toggle. *)
Definition toggleAdvanced (rt : Runtime) (translations : jsval) (type : string) (show : bool)
  : completion jsval :=
  if ToBoolean translations then
    let key := if String.eqb type "diesel" then "diesel" else "heating" in
    section ← get_property rt translations key;
    get_property rt section (if show then "advancedToggleClose" else "advancedToggle")
  else
    Normal (VString (if show then "− Weniger anzeigen" else "+ Erweiterte Einstellungen")).

(** [el.value = v] for a number [v], as the three fields are read by
    [calculate()] afterwards: [parseFloat] gives [v] back. *)
Definition set_km_input (f : Fields) (v : jsnum) : Fields :=
  {| tec_custom_vehicles := tec_custom_vehicles f;
     tec_km_input := v;
     tec_diesel_price := tec_diesel_price f;
     tec_consumption := tec_consumption f;
     tec_custom_consumption := tec_custom_consumption f;
     tec_savings_slider := tec_savings_slider f;
     tec_heating_input := tec_heating_input f;
     tec_heating_price := tec_heating_price f;
     tec_heating_savings_slider := tec_heating_savings_slider f |}.

Definition set_custom_consumption (f : Fields) (v : jsnum) : Fields :=
  {| tec_custom_vehicles := tec_custom_vehicles f;
     tec_km_input := tec_km_input f;
     tec_diesel_price := tec_diesel_price f;
     tec_consumption := tec_consumption f;
     tec_custom_consumption := v;
     tec_savings_slider := tec_savings_slider f;
     tec_heating_input := tec_heating_input f;
     tec_heating_price := tec_heating_price f;
     tec_heating_savings_slider := tec_heating_savings_slider f |}.

Definition set_heating_input (f : Fields) (v : jsnum) : Fields :=
  {| tec_custom_vehicles := tec_custom_vehicles f;
     tec_km_input := tec_km_input f;
     tec_diesel_price := tec_diesel_price f;
     tec_consumption := tec_consumption f;
     tec_custom_consumption := tec_custom_consumption f;
     tec_savings_slider := tec_savings_slider f;
     tec_heating_input := v;
     tec_heating_price := tec_heating_price f;
     tec_heating_savings_slider := tec_heating_savings_slider f |}.

Module Diesel.
Record figures : Type := {
  litersPerVehicle : jsnum;
  totalLiters : jsnum;
  litersSaved : jsnum;
  gross : jsnum;
  tecCost : jsnum;
  net : jsnum;
  co2 : jsnum;
  perVehicle : jsnum;
  costWithout : jsnum;
  costWith : jsnum
}.

(** What [calculateDiesel] writes: the text of each element, the width of
    the bar in percent (as a number) and the link of the call to action. *)
Record output : Type := {
  tec_primary_result : string;
  tec_r_diesel : string;
  tec_r_co2 : string;
  tec_r_vehicle : string;
  tec_r_invest : string;
  tec_c_without : string;
  tec_c_with : string;
  tec_bar_with : jsnum;
  tec_cta_val : string;
  tec_cta_link : string
}.
End Diesel.

Module Heating.
Record figures : Type := {
  liters : jsnum;
  litersSaved : jsnum;
  gross : jsnum;
  tecCost : jsnum;
  net : jsnum;
  co2 : jsnum;
  costWithout : jsnum;
  costWith : jsnum
}.

Record output : Type := {
  tec_primary_result : string;
  tec_rh_oil : string;
  tec_rh_co2 : string;
  tec_rh_invest : string;
  tec_ch_without : string;
  tec_ch_with : string;
  tec_bar_h_with : jsnum;
  tec_cta_val : string;
  tec_cta_link : string
}.
End Heating.

(** The first lines of [calculateDiesel]: what the formulas are fed. *)
Definition diesel_km (f : Fields) : jsnum :=
  clamp (tec_km_input f || Num 80000)%js LIMITS.km.1 LIMITS.km.2.

Definition diesel_price (f : Fields) : jsnum :=
  clamp (tec_diesel_price f || Num 1.95)%js LIMITS.price.1 LIMITS.price.2.

Definition diesel_cons (f : Fields) : jsnum :=
  let cons :=
    match tec_consumption f with
    | Custom => (tec_custom_consumption f || Num 32)%js
    | Preset parsed => parsed
    end in
  clamp cons LIMITS.cons.1 LIMITS.cons.2.

Definition diesel_savePct (f : Fields) : jsnum :=
  clamp (tec_savings_slider f || Num 7)%js LIMITS.savings.1 LIMITS.savings.2.

(** The block under [// Calculations] of [calculateDiesel]. *)
Definition dieselCalculations (km price cons savePct vehicles : jsnum) : Diesel.figures :=
  let litersPerVehicle := ((km / Num 100) * cons)%js in
  let totalLiters := (litersPerVehicle * vehicles)%js in
  let litersSaved := (totalLiters * (savePct / Num 100))%js in
  let gross := (litersSaved * price)%js in
  let tecCost := (totalLiters * TEC_COST)%js in
  let net := Math_max (Num 0) (gross - tecCost)%js in
  let co2 := (litersSaved * (CO2_LITER / Num 1000))%js in
  let perVehicle := Math_max (Num 0) (net / vehicles)%js in
  let costWithout := (totalLiters * price)%js in
  let costWith := (costWithout - net)%js in
  {| Diesel.litersPerVehicle := litersPerVehicle; Diesel.totalLiters := totalLiters;
     Diesel.litersSaved := litersSaved; Diesel.gross := gross; Diesel.tecCost := tecCost;
     Diesel.net := net; Diesel.co2 := co2; Diesel.perVehicle := perVehicle;
     Diesel.costWithout := costWithout; Diesel.costWith := costWith |}.

Definition dieselFigures (st : State) (f : Fields) : Diesel.figures :=
  dieselCalculations (diesel_km f) (diesel_price f) (diesel_cons f) (diesel_savePct f)
    (vehicles st).

(** The block under [// Update UI] of [calculateDiesel]. *)
Definition dieselUpdateUI (host : Host) (lang : string) (r : Diesel.figures) : Diesel.output :=
  {| Diesel.tec_primary_result := formatCurrency host (Diesel.net r) "CHF" lang;
     Diesel.tec_r_diesel := formatNumber host (Diesel.litersSaved r) 0 lang +:+ " L";
     Diesel.tec_r_co2 := formatNumber host (Diesel.co2 r) 1 lang +:+ " t";
     Diesel.tec_r_vehicle := formatCurrency host (Diesel.perVehicle r) "CHF" lang;
     Diesel.tec_r_invest := formatCurrency host (Diesel.tecCost r) "CHF" lang;
     Diesel.tec_c_without := formatCurrency host (Diesel.costWithout r) "CHF" lang;
     Diesel.tec_c_with := formatCurrency host (Diesel.costWith r) "CHF" lang;
     Diesel.tec_bar_with :=
       (if gt (Diesel.costWithout r) (Num 0)
        then (Diesel.costWith r / Diesel.costWithout r) * Num 100
        else Num 100)%js;
     Diesel.tec_cta_val := formatCurrency host (Diesel.net r) "CHF" lang;
     Diesel.tec_cta_link :=
       "/offerte-einholen?type=diesel&savings="
       +:+ integer_to_string (Math_round (Diesel.net r))
       +:+ "&liters=" +:+ integer_to_string (Math_round (Diesel.totalLiters r)) |}.

Definition calculateDiesel (host : Host) (st : State) (f : Fields) : Diesel.output :=
  dieselUpdateUI host (currentLang st) (dieselFigures st f).

(** [calculateHeating], in the same three parts. *)
Definition heating_liters (f : Fields) : jsnum :=
  clamp (tec_heating_input f || Num 8000)%js LIMITS.heating.1 LIMITS.heating.2.

Definition heating_price (f : Fields) : jsnum :=
  clamp (tec_heating_price f || Num 1.35)%js LIMITS.price.1 LIMITS.price.2.

Definition heating_savePct (f : Fields) : jsnum :=
  clamp (tec_heating_savings_slider f || Num 7)%js LIMITS.savings.1 LIMITS.savings.2.

Definition heatingCalculations (liters price savePct : jsnum) : Heating.figures :=
  let litersSaved := (liters * (savePct / Num 100))%js in
  let gross := (litersSaved * price)%js in
  let tecCost := (liters * TEC_COST)%js in
  let net := Math_max (Num 0) (gross - tecCost)%js in
  let co2 := (litersSaved * (CO2_LITER / Num 1000))%js in
  let costWithout := (liters * price)%js in
  let costWith := (costWithout - net)%js in
  {| Heating.liters := liters; Heating.litersSaved := litersSaved; Heating.gross := gross;
     Heating.tecCost := tecCost; Heating.net := net; Heating.co2 := co2;
     Heating.costWithout := costWithout; Heating.costWith := costWith |}.

Definition heatingFigures (f : Fields) : Heating.figures :=
  heatingCalculations (heating_liters f) (heating_price f) (heating_savePct f).

Definition heatingUpdateUI (host : Host) (lang : string) (r : Heating.figures) : Heating.output :=
  {| Heating.tec_primary_result := formatCurrency host (Heating.net r) "CHF" lang;
     Heating.tec_rh_oil := formatNumber host (Heating.litersSaved r) 0 lang +:+ " L";
     Heating.tec_rh_co2 := formatNumber host (Heating.co2 r) 2 lang +:+ " t";
     Heating.tec_rh_invest := formatCurrency host (Heating.tecCost r) "CHF" lang;
     Heating.tec_ch_without := formatCurrency host (Heating.costWithout r) "CHF" lang;
     Heating.tec_ch_with := formatCurrency host (Heating.costWith r) "CHF" lang;
     Heating.tec_bar_h_with :=
       (if gt (Heating.costWithout r) (Num 0)
        then (Heating.costWith r / Heating.costWithout r) * Num 100
        else Num 100)%js;
     Heating.tec_cta_val := formatCurrency host (Heating.net r) "CHF" lang;
     Heating.tec_cta_link :=
       "/offerte-einholen?type=heating&savings="
       +:+ integer_to_string (Math_round (Heating.net r))
       +:+ "&liters=" +:+ integer_to_string (Math_round (Heating.liters r)) |}.

Definition calculateHeating (host : Host) (st : State) (f : Fields) : Heating.output :=
  heatingUpdateUI host (currentLang st) (heatingFigures f).

(** [calculate()]. *)
Definition calculate (host : Host) (st : State) (f : Fields)
  : Diesel.output + Heating.output :=
  if String.eqb (currentTab st) "diesel"
  then inl (calculateDiesel host st f)
  else inr (calculateHeating host st f).

End Calculator.

(* ===================================================================== *)
(** ** [src/js/localization.js] with the country table                    *)
(* ===================================================================== *)

(** The later [localization.js] adds [COUNTRY_CONFIG], [detectCountry] and a
    [formatCurrency] that knows the euro. *)
Module CountryLocalization.

Record config : Type := {
  currency : string;
  tecCost : jsnum;
  dieselPrice : jsnum;
  heatingPrice : jsnum;
  locale : string
}.

Definition COUNTRY_CONFIG : gmap string config :=
  list_to_map
    [ ("CH", {| currency := "CHF"; tecCost := Num 0.0463; dieselPrice := Num 1.95;
                heatingPrice := Num 1.35; locale := "de-CH" |});
      ("DE", {| currency := "EUR"; tecCost := Num 0.049; dieselPrice := Num 1.60;
                heatingPrice := Num 1.30; locale := "de-DE" |});
      ("AT", {| currency := "EUR"; tecCost := Num 0.049; dieselPrice := Num 1.60;
                heatingPrice := Num 1.30; locale := "de-AT" |});
      ("FR", {| currency := "EUR"; tecCost := Num 0.049; dieselPrice := Num 1.60;
                heatingPrice := Num 1.30; locale := "fr-FR" |});
      ("IT", {| currency := "EUR"; tecCost := Num 0.058; dieselPrice := Num 1.60;
                heatingPrice := Num 1.30; locale := "it-IT" |}) ].

(** [s.toUpperCase()] on a text of ASCII characters.  The capitals of other
    letters (JavaScript turns a dotless i into I) are not modelled: what is
    stated about a country parameter as a text is stated for [ascii_only]
    parameters. *)
Definition upper_ascii (c : ascii) : ascii :=
  let n := nat_of_ascii c in
  if (97 <=? n)%nat && (n <=? 122)%nat then ascii_of_nat (n - 32) else c.

Fixpoint toUpperCase (s : string) : string :=
  match s with
  | EmptyString => EmptyString
  | String c rest => String (upper_ascii c) (toUpperCase rest)
  end.

(** [detectCountry()]: [countryParam] is [urlParams.get('country')]. *)
Definition detectCountry (countryParam : option string) (hostname : string) : string :=
  let byHost :=
    if includes "tecblu.de" hostname then "DE"
    else if includes "tecblu.at" hostname then "AT"
    else if includes "tecblu.fr" hostname then "FR"
    else if includes "tecblu.it" hostname then "IT"
    else "CH" in
  match countryParam with
  | Some c =>
      if negb (String.eqb c "") && bool_decide (is_Some (COUNTRY_CONFIG !! toUpperCase c))
      then toUpperCase c
      else byHost
  | None => byHost
  end.

Definition formatCurrency (host : Host) (value : jsnum) (currency lang : string) : string :=
  let rounded := Math_round (Math_min value (Num 999999999999)) in
  if String.eqb currency "EUR"
  then NumberFormat host "de-DE" 0 rounded +:+ " €"
  else "CHF " +:+ NumberFormat host "de-CH" 0 rounded +:+ ".–".

(** [translations?.[lang]?.cta?.quoteUrl || fallback]. *)
Definition quoteUrl (rt : Runtime) (translations : jsval) (lang fallback : string)
  : completion jsval :=
  byLang ← optional_get rt translations lang;
  cta ← optional_get rt byLang "cta";
  url ← optional_get rt cta "quoteUrl";
  Normal (or_value url (VString fallback)).

(** [getQuoteUrl(translations)], with [window.location.hostname] as an
    argument. *)
Definition getQuoteUrl (rt : Runtime) (hostname : string) (translations : jsval)
  : completion jsval :=
  if existsb (String.eqb hostname) ["en.tecblu.de"; "en.tecblu.fr"; "en.tecblu.it"; "en.tecblu.at"]
  then quoteUrl rt translations "en" "/get-a-quote"
  else if String.eqb hostname "tecblu.fr"
  then quoteUrl rt translations "fr" "/demande-de-devis"
  else if String.eqb hostname "tecblu.it"
  then quoteUrl rt translations "it" "/richiedi-preventivo"
  else quoteUrl rt translations "de" "/offerte-einholen".

End CountryLocalization.

(* ===================================================================== *)
(** ** [src/locale.js]                                                    *)
(* ===================================================================== *)

Module Locale.

Record Prices : Type := {
  diesel : jsnum;
  heating : jsnum
}.

Definition defaultPrices : gmap string Prices :=
  list_to_map
    [ ("CH", {| diesel := Num 1.95; heating := Num 1.35 |});
      ("AT", {| diesel := Num 1.55; heating := Num 1.10 |});
      ("DE", {| diesel := Num 1.65; heating := Num 1.05 |});
      ("FR", {| diesel := Num 1.75; heating := Num 1.15 |});
      ("IT", {| diesel := Num 1.80; heating := Num 1.20 |}) ].

Definition defaultPrices_CH : Prices := {| diesel := Num 1.95; heating := Num 1.35 |}.

Record LocaleInfo : Type := {
  lang : string;
  country : string;
  currency : string;
  prices : Prices
}.

(** [detectLocale()], with [window.location.hostname] as its argument. *)
Definition detectLocale (hostname : string) : LocaleInfo :=
  let host := toLowerCase hostname in
  let parts := split "." host in
  let subdomain := if (2 <? length parts)%nat then head parts else None in
  let tld := List.last parts "" in
  let lang :=
    match subdomain with
    | Some sub =>
        if existsb (String.eqb sub) ["en"; "fr"; "it"] then sub
        else if String.eqb tld "fr" then "fr"
        else if String.eqb tld "it" then "it"
        else "de"
    | None =>
        if String.eqb tld "fr" then "fr"
        else if String.eqb tld "it" then "it"
        else "de"
    end in
  let country :=
    if String.eqb tld "at" then "AT"
    else if String.eqb tld "de" then "DE"
    else if String.eqb tld "fr" then "FR"
    else if String.eqb tld "it" then "IT"
    else "CH" in
  let currency := if String.eqb country "CH" then "CHF" else "EUR" in
  let prices := default defaultPrices_CH (defaultPrices !! country) in
  {| lang := lang; country := country; currency := currency; prices := prices |}.

(** The locale [getFormatter(lang, country)] formats with:
    [localeMap[`${lang}-${country}`] || 'de-CH']. *)
Definition localeMap : gmap string string :=
  list_to_map
    [ ("de-CH", "de-CH"); ("de-AT", "de-AT"); ("de-DE", "de-DE");
      ("en-CH", "en-CH"); ("en-AT", "en-AT"); ("en-DE", "en-DE");
      ("en-FR", "en-FR"); ("en-IT", "en-IT");
      ("fr-CH", "fr-CH"); ("fr-FR", "fr-FR");
      ("it-CH", "it-CH"); ("it-IT", "it-IT") ].

Definition getFormatter_locale (lang country : string) : string :=
  match localeMap !! (lang +:+ "-" +:+ country) with
  | Some l => if String.eqb l "" then "de-CH" else l
  | None => "de-CH"
  end.

(** What [Intl.NumberFormat(locale, {style: 'currency', currency: 'EUR',
    ...}).format(n)] returns is the host's: the locale decides where the
    euro sign stands and how the digits are separated. *)
Definition CurrencyStyle : Type := string -> jsnum -> string.

(** [getFormatter(lang, country).number(n, decimals)]. *)
Definition getFormatter_number (host : Host) (lang country : string) (n : jsnum) (decimals : nat)
  : string :=
  NumberFormat host (getFormatter_locale lang country) decimals n.

(** [getFormatter(lang, country).currency(n, currency)].  The number given
    to the de-CH format is [Math.round(n)], an integer, which the default
    options write without fraction digits. *)
Definition getFormatter_currency
  (host : Host) (euro : CurrencyStyle) (lang country : string) (n : jsnum) (currency : string)
  : string :=
  if String.eqb currency "CHF"
  then "CHF " +:+ NumberFormat host "de-CH" 0 (Math_round n) +:+ ".–"
  else euro (getFormatter_locale lang country) n.

End Locale.

(* ===================================================================== *)
(** ** [src/calculator.js]: the class [TecCalculator]                     *)
(* ===================================================================== *)

Module TecCalculator.
Import Calculator.

(** The [options] argument and the [data-*] attributes of the container;
    [None] stands for an absent entry. *)
Record Options : Type := {
  opt_lang : option string;
  opt_country : option string;
  opt_currency : option string;
  opt_prices : option Locale.Prices
}.

Record Dataset : Type := {
  data_lang : option string;
  data_country : option string;
  data_currency : option string
}.

Definition no_options : Options :=
  {| opt_lang := None; opt_country := None; opt_currency := None; opt_prices := None |}.

Definition no_dataset : Dataset :=
  {| data_lang := None; data_country := None; data_currency := None |}.

(** [a || b] on strings that may be absent. *)
Definition or_string (a : option string) (b : string) : string :=
  match a with
  | Some s => if String.eqb s "" then b else s
  | None => b
  end.

(** The fields of [this]. *)
Record instance : Type := {
  lang : string;
  country : string;
  currency : string;
  defaultPrices : Locale.Prices;
  tab : string;
  vehicles : jsnum
}.

Definition constructor (hostname : string) (options : Options) (dataset : Dataset) : instance :=
  let detected := Locale.detectLocale hostname in
  {| lang := or_string (opt_lang options) (or_string (data_lang dataset) (Locale.lang detected));
     country :=
       or_string (opt_country options)
         (or_string (data_country dataset) (Locale.country detected));
     currency :=
       or_string (opt_currency options)
         (or_string (data_currency dataset) (Locale.currency detected));
     defaultPrices := default (Locale.prices detected) (opt_prices options);
     tab := "diesel";
     vehicles := Num 5 |}.

Definition fmtNum (host : Host) (this : instance) (n : jsnum) (d : nat) : string :=
  NumberFormat host (if String.eqb (lang this) "de" then "de-CH" else lang this) d
    (Math_min n MAX_OUT).

Definition fmtCurrency (host : Host) (this : instance) (n : jsnum) : string :=
  let val := fmtNum host this (Math_round (Math_min n MAX_OUT)) 0 in
  if String.eqb (currency this) "CHF"
  then "CHF " +:+ val +:+ ".–"
  else "€ " +:+ val.

Definition with_vehicles (this : instance) (n : jsnum) : instance :=
  {| lang := lang this; country := country this; currency := currency this;
     defaultPrices := defaultPrices this; tab := tab this; vehicles := n |}.

(** [setVehicles(n)], [clampVehicles()] and [calculateRaw()], as far as
    [this.vehicles] goes; [shown] tells whether the custom field is there
    and not hidden. *)
Definition setVehicles (this : instance) (n : jsnum) : instance := with_vehicles this n.

Definition clampVehicles (this : instance) (f : Fields) : instance :=
  with_vehicles this
    (clamp (tec_custom_vehicles f || Num 1)%js LIMITS.vehicles.1 LIMITS.vehicles.2).

Definition calculateRaw (this : instance) (shown : bool) (f : Fields) : instance :=
  if shown then with_vehicles this (tec_custom_vehicles f || Num 1)%js else this.

(** [BLDG]. *)
Definition BLDG : gmap string jsnum :=
  list_to_map [("single", Num 3000); ("multi", Num 8000); ("commercial", Num 50000)].

(** The handlers of the number fields, each given what [parseInt] returns
    on the value it reads (also [clampConsumption], which the bundle reads
    with [parseFloat]) and yielding what it assigns to [value].  [LIM] has
    the entries of [LIMITS].  [syncKm] is left out: it copies the text of
    one field to the other; [adjustPrice], which adds, is in module
    [Binary64]. *)
Definition syncKmRaw (parsed : jsnum) : jsnum :=
  clamp (parsed || LIMITS.km.1)%js LIMITS.km.1 LIMITS.km.2.

Definition clampKm (parsed : jsnum) : jsnum :=
  clamp (parsed || LIMITS.km.1)%js LIMITS.km.1 LIMITS.km.2.

Definition clampConsumption (parsed : jsnum) : jsnum :=
  clamp (parsed || Num 32)%js LIMITS.cons.1 LIMITS.cons.2.

Definition setBuilding (type : string) : option jsnum := BLDG !! type.

Definition syncHeating (parsed : jsnum) : jsnum :=
  clamp (parsed || LIMITS.heating.1)%js LIMITS.heating.1 LIMITS.heating.2.

Definition syncHeatingRaw (parsed : jsnum) : jsnum :=
  clamp (parsed || Num 0)%js LIMITS.heating.1 LIMITS.heating.2.

Definition clampHeating (parsed : jsnum) : jsnum :=
  clamp (parsed || LIMITS.heating.1)%js LIMITS.heating.1 LIMITS.heating.2.

(** The first lines of [calcDiesel]; km, consumption and savings are read as
    in [calculateDiesel]. *)
Definition calcDiesel_price (this : instance) (f : Fields) : jsnum :=
  clamp (tec_diesel_price f || Locale.diesel (defaultPrices this))%js
    LIMITS.price.1 LIMITS.price.2.

(** The formulas of [calcDiesel] are those of [calculateDiesel], line by
    line. *)
Definition calcDieselFigures (this : instance) (f : Fields) : Diesel.figures :=
  dieselCalculations (diesel_km f) (calcDiesel_price this f) (diesel_cons f)
    (diesel_savePct f) (vehicles this).

(** What [calcDiesel] writes.  The elements are those of [calculateDiesel],
    but [tec-cta-val] is written only when the container holds an element
    of that id ([if (ctaVal)]); [None] stands for nothing written. *)
Module DieselElements.
Record output : Type := {
  tec_primary_result : string;
  tec_r_diesel : string;
  tec_r_co2 : string;
  tec_r_vehicle : string;
  tec_r_invest : string;
  tec_c_without : string;
  tec_c_with : string;
  tec_bar_with : jsnum;
  tec_cta_val : option string;
  tec_cta_link : string
}.
End DieselElements.

Module HeatingElements.
Record output : Type := {
  tec_primary_result : string;
  tec_rh_oil : string;
  tec_rh_co2 : string;
  tec_rh_invest : string;
  tec_ch_without : string;
  tec_ch_with : string;
  tec_bar_h_with : jsnum;
  tec_cta_val : option string;
  tec_cta_link : string
}.
End HeatingElements.

(** [calcDiesel()]; [ctaVal] tells whether
    [this.container.querySelector('#tec-cta-val')] finds an element. *)
Definition calcDiesel (host : Host) (this : instance) (ctaVal : bool) (f : Fields)
  : DieselElements.output :=
  let r := calcDieselFigures this f in
  {| DieselElements.tec_primary_result := fmtCurrency host this (Diesel.net r);
     DieselElements.tec_r_diesel := fmtNum host this (Diesel.litersSaved r) 0 +:+ " L";
     DieselElements.tec_r_co2 := fmtNum host this (Diesel.co2 r) 1 +:+ " t";
     DieselElements.tec_r_vehicle := fmtCurrency host this (Diesel.perVehicle r);
     DieselElements.tec_r_invest := fmtCurrency host this (Diesel.tecCost r);
     DieselElements.tec_c_without := fmtCurrency host this (Diesel.costWithout r);
     DieselElements.tec_c_with := fmtCurrency host this (Diesel.costWith r);
     DieselElements.tec_bar_with :=
       (if gt (Diesel.costWithout r) (Num 0)
        then (Diesel.costWith r / Diesel.costWithout r) * Num 100
        else Num 100)%js;
     DieselElements.tec_cta_val :=
       if ctaVal then Some (fmtCurrency host this (Diesel.net r)) else None;
     DieselElements.tec_cta_link :=
       "/offerte-einholen?type=diesel&savings="
       +:+ integer_to_string (Math_round (Diesel.net r))
       +:+ "&liters=" +:+ integer_to_string (Math_round (Diesel.totalLiters r)) |}.

Definition calcHeating_price (this : instance) (f : Fields) : jsnum :=
  clamp (tec_heating_price f || Locale.heating (defaultPrices this))%js
    LIMITS.price.1 LIMITS.price.2.

Definition calcHeatingFigures (this : instance) (f : Fields) : Heating.figures :=
  heatingCalculations (heating_liters f) (calcHeating_price this f) (heating_savePct f).

Definition calcHeating (host : Host) (this : instance) (ctaVal : bool) (f : Fields)
  : HeatingElements.output :=
  let r := calcHeatingFigures this f in
  {| HeatingElements.tec_primary_result := fmtCurrency host this (Heating.net r);
     HeatingElements.tec_rh_oil := fmtNum host this (Heating.litersSaved r) 0 +:+ " L";
     HeatingElements.tec_rh_co2 := fmtNum host this (Heating.co2 r) 2 +:+ " t";
     HeatingElements.tec_rh_invest := fmtCurrency host this (Heating.tecCost r);
     HeatingElements.tec_ch_without := fmtCurrency host this (Heating.costWithout r);
     HeatingElements.tec_ch_with := fmtCurrency host this (Heating.costWith r);
     HeatingElements.tec_bar_h_with :=
       (if gt (Heating.costWithout r) (Num 0)
        then (Heating.costWith r / Heating.costWithout r) * Num 100
        else Num 100)%js;
     HeatingElements.tec_cta_val :=
       if ctaVal then Some (fmtCurrency host this (Heating.net r)) else None;
     HeatingElements.tec_cta_link :=
       "/offerte-einholen?type=heating&savings="
       +:+ integer_to_string (Math_round (Heating.net r))
       +:+ "&liters=" +:+ integer_to_string (Math_round (Heating.liters r)) |}.

End TecCalculator.

(* ===================================================================== *)
(** ** [build.js]                                                         *)
(* ===================================================================== *)

Module Build.

Definition backslash : ascii := "\"%char.
Definition quote : ascii := "'"%char.
Definition doublequote : ascii := "034"%char.
Definition LF : ascii := "010"%char.
Definition CR : ascii := "013"%char.

(** [escapeJS(str)]: five global replacements, one after the other.  The
    characters replaced are ASCII, so replacing them byte by byte in the
    UTF-8 text is replacing them in the string. *)
Definition escapeJS (str : string) : string :=
  replace_all CR "\r"
    (replace_all LF "\n"
       (replace_all doublequote (String backslash (String doublequote EmptyString))
          (replace_all quote "\'"
             (replace_all backslash "\\" str)))).

(** What an escape sequence of two characters stands for, for the five
    sequences [escapeJS] writes. *)
Definition escaped (e : ascii) : option ascii :=
  if Ascii.eqb e backslash then Some backslash
  else if Ascii.eqb e quote then Some quote
  else if Ascii.eqb e doublequote then Some doublequote
  else if Ascii.eqb e "n" then Some LF
  else if Ascii.eqb e "r" then Some CR
  else None.

(** The value of the JavaScript string literal with the text [body] between
    two quote characters [q], when [body] is made of characters that stand
    for themselves and of the five escape sequences; [None] otherwise: for
    a line break or the quote itself, which end the literal, and for the
    escape sequences left out here. *)
Fixpoint literal_value (q : ascii) (body : string) : option string :=
  match body with
  | EmptyString => Some EmptyString
  | String c rest =>
      if Ascii.eqb c backslash then
        match rest with
        | EmptyString => None
        | String e rest' =>
            match escaped e, literal_value q rest' with
            | Some c', Some v => Some (String c' v)
            | _, _ => None
            end
        end
      else if Ascii.eqb c q || Ascii.eqb c LF || Ascii.eqb c CR then None
      else
        match literal_value q rest with
        | Some v => Some (String c v)
        | None => None
        end
  end.

End Build.

(* ===================================================================== *)
(** ** The assets of [dist/tecblu-calc.js]                                *)
(* ===================================================================== *)

Module Assets.
Import Localization.

(** An element whose only child is a text. *)
Definition text_element (tag : string) (classes : list string) (key text : string) : element :=
  {| tagName := tag; classList := classes; data_i18n := key; data_i18n_tooltip := None;
     childNodes := [TextNode text] |}.

(** [TRANSLATIONS]. *)
Definition de : jsval :=
  VObject (list_to_map
    [ ("header", VObject (list_to_map
        [ ("title", VString "Ersparnis-Rechner");
          ("subtitle", VString "Berechnen Sie, wie viel Sie mit TecBlu sparen können") ]));
      ("tabs", VObject (list_to_map
        [ ("fuel", VString "Treibstoff");
          ("fuelTooltip", VString "Diesel, Benzin, Biodiesel oder HVO");
          ("heating", VString "Heizöl") ]));
      ("mobileHint", VString "Treibstoff: Diesel, Benzin, Biodiesel oder HVO");
      ("diesel", VObject (list_to_map
        [ ("vehiclesLabel", VString "Anzahl Fahrzeuge");
          ("vehiclesOther", VString "Andere");
          ("kmLabel", VString "Ø km pro Fahrzeug / Jahr");
          ("kmUnit", VString "km");
          ("priceLabel", VString "Treibstoffpreis");
          ("priceTooltip", VString "Diesel, Benzin, Biodiesel oder HVO");
          ("pricePerLiter", VString "pro Liter");
          ("priceHint", VString "Durchschnitt Stand Januar 2026");
          ("consumptionLabel", VString "Durchschnittlicher Verbrauch");
          ("consumptionOptions", VObject (list_to_map
            [ ("truck", VString "LKW (32 L/100km)");
              ("van", VString "Lieferwagen (12 L/100km)");
              ("transporter", VString "Transporter (9 L/100km)");
              ("car", VString "PKW (7 L/100km)");
              ("custom", VString "Andere") ]));
          ("consumptionUnit", VString "L/100km");
          ("advancedToggle", VString "+ Erweiterte Einstellungen");
          ("advancedToggleClose", VString "− Weniger anzeigen");
          ("savingsLabel", VString "Erwartete Treibstoffeinsparung");
          ("tecbluCost", VString "TecBlu®: CHF 0.0463 pro Liter") ]));
      ("heating", VObject (list_to_map
        [ ("buildingLabel", VString "Gebäudetyp");
          ("buildingTypes", VObject (list_to_map
            [ ("single", VString "Einfamilienhaus");
              ("multi", VString "Mehrfamilienhaus");
              ("commercial", VString "Gewerbe") ]));
          ("consumptionLabel", VString "Jährlicher Heizölverbrauch");
          ("consumptionUnit", VString "L");
          ("priceLabel", VString "Heizölpreis pro Liter");
          ("priceHint", VString "Durchschnitt Stand Januar 2026");
          ("advancedToggle", VString "+ Erweiterte Einstellungen");
          ("advancedToggleClose", VString "− Weniger anzeigen");
          ("savingsLabel", VString "Erwartete Heizöleinsparung") ]));
      ("results", VObject (list_to_map
        [ ("primaryLabel", VString "Jährliche Nettoersparnis");
          ("fuelSaved", VString "Treibstoff gespart");
          ("fuelSavedTooltip", VString "Diesel, Benzin, Biodiesel oder HVO");
          ("oilSaved", VString "Heizöl gespart");
          ("co2Reduced", VString "CO₂ reduziert");
          ("perVehicle", VString "Pro Fahrzeug");
          ("investment", VString "TecBlu-Investition");
          ("fuelCompareTitle", VString "Jährliche Treibstoffkosten im Vergleich");
          ("heatingCompareTitle", VString "Jährliche Heizölkosten im Vergleich");
          ("withoutTecblu", VString "Ohne TecBlu");
          ("withTecblu", VString "Mit TecBlu") ]));
      ("cta", VObject (list_to_map
        [ ("textBefore", VString "Jetzt ");
          ("textAfter", VString " pro Jahr sparen und gleichzeitig die Umwelt schonen.");
          ("button", VString "Gratis Offerte einholen");
          ("phone", VString "Noch Fragen?");
          ("phoneNumber", VString "+41 43 888 00 12") ]));
      ("currency", VString "CHF");
      ("units", VObject (list_to_map
        [ ("liters", VString "L");
          ("tons", VString "t");
          ("percent", VString "%") ])) ]).

Definition en : jsval :=
  VObject (list_to_map
    [ ("header", VObject (list_to_map
        [ ("title", VString "Savings Calculator");
          ("subtitle", VString "Discover how much you can save with TecBlu") ]));
      ("tabs", VObject (list_to_map
        [ ("fuel", VString "Fuel");
          ("fuelTooltip", VString "Diesel, Petrol, Biodiesel or HVO");
          ("heating", VString "Heating Oil") ]));
      ("mobileHint", VString "Fuel: Diesel, Petrol, Biodiesel or HVO");
      ("diesel", VObject (list_to_map
        [ ("vehiclesLabel", VString "Number of Vehicles");
          ("vehiclesOther", VString "Other");
          ("kmLabel", VString "Avg. km per Vehicle / Year");
          ("kmUnit", VString "km");
          ("priceLabel", VString "Fuel Price");
          ("priceTooltip", VString "Diesel, Petrol, Biodiesel or HVO");
          ("pricePerLiter", VString "per Liter");
          ("priceHint", VString "Average as of January 2026");
          ("consumptionLabel", VString "Average Consumption");
          ("consumptionOptions", VObject (list_to_map
            [ ("truck", VString "Truck (32 L/100km)");
              ("van", VString "Delivery Van (12 L/100km)");
              ("transporter", VString "Transporter (9 L/100km)");
              ("car", VString "Car (7 L/100km)");
              ("custom", VString "Other") ]));
          ("consumptionUnit", VString "L/100km");
          ("advancedToggle", VString "+ Advanced Settings");
          ("advancedToggleClose", VString "− Show Less");
          ("savingsLabel", VString "Expected Fuel Savings");
          ("tecbluCost", VString "TecBlu®: CHF 0.0463 per Liter") ]));
      ("heating", VObject (list_to_map
        [ ("buildingLabel", VString "Building Type");
          ("buildingTypes", VObject (list_to_map
            [ ("single", VString "Single-family House");
              ("multi", VString "Multi-family House");
              ("commercial", VString "Commercial") ]));
          ("consumptionLabel", VString "Annual Heating Oil Consumption");
          ("consumptionUnit", VString "L");
          ("priceLabel", VString "Heating Oil Price per Liter");
          ("priceHint", VString "Average as of January 2026");
          ("advancedToggle", VString "+ Advanced Settings");
          ("advancedToggleClose", VString "− Show Less");
          ("savingsLabel", VString "Expected Heating Oil Savings") ]));
      ("results", VObject (list_to_map
        [ ("primaryLabel", VString "Annual Net Savings");
          ("fuelSaved", VString "Fuel Saved");
          ("fuelSavedTooltip", VString "Diesel, Petrol, Biodiesel or HVO");
          ("oilSaved", VString "Heating Oil Saved");
          ("co2Reduced", VString "CO₂ Reduced");
          ("perVehicle", VString "Per Vehicle");
          ("investment", VString "TecBlu Investment");
          ("fuelCompareTitle", VString "Annual Fuel Costs Comparison");
          ("heatingCompareTitle", VString "Annual Heating Oil Costs Comparison");
          ("withoutTecblu", VString "Without TecBlu");
          ("withTecblu", VString "With TecBlu") ]));
      ("cta", VObject (list_to_map
        [ ("textBefore", VString "Save ");
          ("textAfter", VString " per year while protecting the environment.");
          ("button", VString "Get a Free Quote");
          ("phone", VString "Questions?");
          ("phoneNumber", VString "+41 43 888 00 12") ]));
      ("currency", VString "CHF");
      ("units", VObject (list_to_map
        [ ("liters", VString "L");
          ("tons", VString "t");
          ("percent", VString "%") ])) ]).

Definition fr : jsval :=
  VObject (list_to_map
    [ ("header", VObject (list_to_map
        [ ("title", VString "Calculateur d'économies");
          ("subtitle", VString "Calculez combien vous pouvez économiser avec TecBlu") ]));
      ("tabs", VObject (list_to_map
        [ ("fuel", VString "Carburant");
          ("fuelTooltip", VString "Diesel, Essence, Biodiesel ou HVO");
          ("heating", VString "Mazout") ]));
      ("mobileHint", VString "Carburant: Diesel, Essence, Biodiesel ou HVO");
      ("diesel", VObject (list_to_map
        [ ("vehiclesLabel", VString "Nombre de véhicules");
          ("vehiclesOther", VString "Autre");
          ("kmLabel", VString "Km moyen par véhicule / an");
          ("kmUnit", VString "km");
          ("priceLabel", VString "Prix du carburant");
          ("priceTooltip", VString "Diesel, Essence, Biodiesel ou HVO");
          ("pricePerLiter", VString "par litre");
          ("priceHint", VString "Moyenne en janvier 2026");
          ("consumptionLabel", VString "Consommation moyenne");
          ("consumptionOptions", VObject (list_to_map
            [ ("truck", VString "Camion (32 L/100km)");
              ("van", VString "Camionnette (12 L/100km)");
              ("transporter", VString "Utilitaire (9 L/100km)");
              ("car", VString "Voiture (7 L/100km)");
              ("custom", VString "Autre") ]));
          ("consumptionUnit", VString "L/100km");
          ("advancedToggle", VString "+ Paramètres avancés");
          ("advancedToggleClose", VString "− Moins d'options");
          ("savingsLabel", VString "Économie de carburant attendue");
          ("tecbluCost", VString "TecBlu®: CHF 0.0463 par litre") ]));
      ("heating", VObject (list_to_map
        [ ("buildingLabel", VString "Type de bâtiment");
          ("buildingTypes", VObject (list_to_map
            [ ("single", VString "Maison individuelle");
              ("multi", VString "Immeuble résidentiel");
              ("commercial", VString "Commercial") ]));
          ("consumptionLabel", VString "Consommation annuelle de mazout");
          ("consumptionUnit", VString "L");
          ("priceLabel", VString "Prix du mazout par litre");
          ("priceHint", VString "Moyenne en janvier 2026");
          ("advancedToggle", VString "+ Paramètres avancés");
          ("advancedToggleClose", VString "− Moins d'options");
          ("savingsLabel", VString "Économie de mazout attendue") ]));
      ("results", VObject (list_to_map
        [ ("primaryLabel", VString "Économie nette annuelle");
          ("fuelSaved", VString "Carburant économisé");
          ("fuelSavedTooltip", VString "Diesel, Essence, Biodiesel ou HVO");
          ("oilSaved", VString "Mazout économisé");
          ("co2Reduced", VString "CO₂ réduit");
          ("perVehicle", VString "Par véhicule");
          ("investment", VString "Investissement TecBlu");
          ("fuelCompareTitle", VString "Comparaison des coûts de carburant annuels");
          ("heatingCompareTitle", VString "Comparaison des coûts de mazout annuels");
          ("withoutTecblu", VString "Sans TecBlu");
          ("withTecblu", VString "Avec TecBlu") ]));
      ("cta", VObject (list_to_map
        [ ("textBefore", VString "Économisez ");
          ("textAfter", VString " par an tout en préservant l'environnement.");
          ("button", VString "Obtenez un devis gratuit");
          ("phone", VString "Des questions?");
          ("phoneNumber", VString "+41 43 888 00 12") ]));
      ("currency", VString "CHF");
      ("units", VObject (list_to_map
        [ ("liters", VString "L");
          ("tons", VString "t");
          ("percent", VString "%") ])) ]).

Definition it : jsval :=
  VObject (list_to_map
    [ ("header", VObject (list_to_map
        [ ("title", VString "Calcolatore di risparmio");
          ("subtitle", VString "Calcola quanto puoi risparmiare con TecBlu") ]));
      ("tabs", VObject (list_to_map
        [ ("fuel", VString "Carburante");
          ("fuelTooltip", VString "Diesel, Benzina, Biodiesel o HVO");
          ("heating", VString "Gasolio da riscaldamento") ]));
      ("mobileHint", VString "Carburante: Diesel, Benzina, Biodiesel o HVO");
      ("diesel", VObject (list_to_map
        [ ("vehiclesLabel", VString "Numero di veicoli");
          ("vehiclesOther", VString "Altro");
          ("kmLabel", VString "Media km per veicolo / anno");
          ("kmUnit", VString "km");
          ("priceLabel", VString "Prezzo carburante");
          ("priceTooltip", VString "Diesel, Benzina, Biodiesel o HVO");
          ("pricePerLiter", VString "per litro");
          ("priceHint", VString "Media a gennaio 2026");
          ("consumptionLabel", VString "Consumo medio");
          ("consumptionOptions", VObject (list_to_map
            [ ("truck", VString "Camion (32 L/100km)");
              ("van", VString "Furgone (12 L/100km)");
              ("transporter", VString "Furgone (9 L/100km)");
              ("car", VString "Auto (7 L/100km)");
              ("custom", VString "Altro") ]));
          ("consumptionUnit", VString "L/100km");
          ("advancedToggle", VString "+ Impostazioni avanzate");
          ("advancedToggleClose", VString "− Mostra meno");
          ("savingsLabel", VString "Risparmio carburante previsto");
          ("tecbluCost", VString "TecBlu®: CHF 0.0463 per litro") ]));
      ("heating", VObject (list_to_map
        [ ("buildingLabel", VString "Tipo di edificio");
          ("buildingTypes", VObject (list_to_map
            [ ("single", VString "Casa unifamiliare");
              ("multi", VString "Condominio");
              ("commercial", VString "Commerciale") ]));
          ("consumptionLabel", VString "Consumo annuale gasolio");
          ("consumptionUnit", VString "L");
          ("priceLabel", VString "Prezzo gasolio per litro");
          ("priceHint", VString "Media a gennaio 2026");
          ("advancedToggle", VString "+ Impostazioni avanzate");
          ("advancedToggleClose", VString "− Mostra meno");
          ("savingsLabel", VString "Risparmio gasolio previsto") ]));
      ("results", VObject (list_to_map
        [ ("primaryLabel", VString "Risparmio netto annuale");
          ("fuelSaved", VString "Carburante risparmiato");
          ("fuelSavedTooltip", VString "Diesel, Benzina, Biodiesel o HVO");
          ("oilSaved", VString "Gasolio risparmiato");
          ("co2Reduced", VString "CO₂ ridotto");
          ("perVehicle", VString "Per veicolo");
          ("investment", VString "Investimento TecBlu");
          ("fuelCompareTitle", VString "Confronto costi carburante annuali");
          ("heatingCompareTitle", VString "Confronto costi gasolio annuali");
          ("withoutTecblu", VString "Senza TecBlu");
          ("withTecblu", VString "Con TecBlu") ]));
      ("cta", VObject (list_to_map
        [ ("textBefore", VString "Risparmia ");
          ("textAfter", VString " all'anno proteggendo l'ambiente.");
          ("button", VString "Richiedi un preventivo gratuito");
          ("phone", VString "Domande?");
          ("phoneNumber", VString "+41 43 888 00 12") ]));
      ("currency", VString "CHF");
      ("units", VObject (list_to_map
        [ ("liters", VString "L");
          ("tons", VString "t");
          ("percent", VString "%") ])) ]).

Definition TRANSLATIONS : gmap string jsval :=
  list_to_map [("de", de); ("en", en); ("fr", fr); ("it", it)].

(** The elements of [HTML_CONTENT] that carry a [data-i18n] attribute, in
    the order of the document: what
    [container.querySelectorAll('[data-i18n]')] lists for [applyTranslations]. *)
Definition translatable : list element :=
  [ text_element "SPAN" [] "tabs.fuel" "Treibstoff";
    text_element "DIV" ["tec-mobile-hint"] "mobileHint" "Treibstoff: Diesel, Benzin, Biodiesel oder HVO";
    text_element "SPAN" [] "tabs.heating" "Heizöl";
    text_element "SPAN" [] "diesel.vehiclesLabel" "Anzahl Fahrzeuge";
    text_element "BUTTON" ["tec-btn-opt"] "diesel.vehiclesOther" "Andere";
    text_element "SPAN" [] "diesel.kmLabel" "Ø km pro Fahrzeug / Jahr";
    text_element "SPAN" ["tec-slider-unit"] "diesel.kmUnit" "km";
    {| tagName := "SPAN"; classList := ["tec-tooltip"]; data_i18n := "diesel.priceLabel";
       data_i18n_tooltip := Some "diesel.priceTooltip";
       childNodes := [TextNode "Treibstoffpreis"; ChildElement ["tec-tooltip-text"] "Diesel, Benzin, Biodiesel oder HVO"] |};
    text_element "SPAN" [] "diesel.pricePerLiter" "pro Liter";
    text_element "SPAN" ["tec-price-currency"] "currency" "CHF";
    text_element "SPAN" [] "diesel.consumptionLabel" "Durchschnittlicher Verbrauch";
    text_element "OPTION" [] "diesel.consumptionOptions.truck" "LKW (32 L/100km)";
    text_element "OPTION" [] "diesel.consumptionOptions.van" "Lieferwagen (12 L/100km)";
    text_element "OPTION" [] "diesel.consumptionOptions.transporter" "Transporter (9 L/100km)";
    text_element "OPTION" [] "diesel.consumptionOptions.car" "PKW (7 L/100km)";
    text_element "OPTION" [] "diesel.consumptionOptions.custom" "Andere";
    text_element "SPAN" ["tec-slider-unit"] "diesel.consumptionUnit" "L/100km";
    text_element "BUTTON" ["tec-advanced-toggle"] "diesel.advancedToggle" "+ Erweiterte Einstellungen";
    text_element "SPAN" [] "diesel.savingsLabel" "Erwartete Treibstoffeinsparung";
    text_element "SPAN" ["tec-slider-unit"] "units.percent" "%";
    text_element "P" ["tec-hint"] "diesel.tecbluCost" "TecBlu®: CHF 0.0463 pro Liter";
    text_element "LABEL" ["tec-label"] "heating.buildingLabel" "Gebäudetyp";
    text_element "DIV" ["tec-building-label"] "heating.buildingTypes.single" "Einfamilienhaus";
    text_element "DIV" ["tec-building-label"] "heating.buildingTypes.multi" "Mehrfamilienhaus";
    text_element "DIV" ["tec-building-label"] "heating.buildingTypes.commercial" "Gewerbe";
    text_element "SPAN" [] "heating.consumptionLabel" "Jährlicher Heizölverbrauch";
    text_element "SPAN" ["tec-slider-unit"] "heating.consumptionUnit" "L";
    text_element "SPAN" [] "heating.priceLabel" "Heizölpreis pro Liter";
    text_element "SPAN" ["tec-price-currency"] "currency" "CHF";
    text_element "BUTTON" ["tec-advanced-toggle"] "heating.advancedToggle" "+ Erweiterte Einstellungen";
    text_element "SPAN" [] "heating.savingsLabel" "Erwartete Heizöleinsparung";
    text_element "SPAN" ["tec-slider-unit"] "units.percent" "%";
    text_element "DIV" ["tec-fuel-type-label"] "tabs.fuelTooltip" "Diesel, Benzin, Biodiesel oder HVO";
    text_element "DIV" ["tec-fuel-type-label"; "tec-hidden"] "tabs.heating" "Heizöl";
    text_element "DIV" ["tec-primary-label"] "results.primaryLabel" "Jährliche Nettoersparnis";
    text_element "SPAN" [] "results.fuelSaved" "Treibstoff gespart";
    text_element "SPAN" [] "results.co2Reduced" "CO₂ reduziert";
    text_element "SPAN" [] "results.perVehicle" "Pro Fahrzeug";
    text_element "SPAN" [] "results.investment" "TecBlu-Investition";
    text_element "SPAN" [] "results.oilSaved" "Heizöl gespart";
    text_element "SPAN" [] "results.co2Reduced" "CO₂ reduziert";
    text_element "SPAN" [] "results.investment" "TecBlu-Investition";
    text_element "DIV" ["tec-compare-title"] "results.heatingCompareTitle" "Jährliche Heizölkosten im Vergleich";
    text_element "SPAN" ["tec-compare-label"] "results.withoutTecblu" "Ohne TecBlu";
    text_element "SPAN" ["tec-compare-label"; "green"] "results.withTecblu" "Mit TecBlu";
    text_element "DIV" ["tec-compare-title"] "results.fuelCompareTitle" "Jährliche Treibstoffkosten im Vergleich";
    text_element "SPAN" ["tec-compare-label"] "results.withoutTecblu" "Ohne TecBlu";
    text_element "SPAN" ["tec-compare-label"; "green"] "results.withTecblu" "Mit TecBlu";
    text_element "SPAN" [] "cta.textBefore" "Jetzt ";
    text_element "SPAN" [] "cta.textAfter" " pro Jahr sparen und gleichzeitig die Umwelt schonen.";
    text_element "SPAN" [] "cta.button" "Kostenlose Offerte anfragen";
    text_element "SPAN" [] "cta.phone" "Noch Fragen?";
    text_element "A" [] "cta.phoneNumber" "+41 43 888 00 12" ].

End Assets.

(* ===================================================================== *)
(** ** The calculation in binary64                                        *)
(* ===================================================================== *)

(** [calculateDiesel], [calculateHeating], [calcDiesel], [calcHeating] and
    [adjustPrice] in the arithmetic the JavaScript engine runs them in:
    IEEE 754 binary64, every operation rounded to nearest.  A decimal
    literal of the sources is the double nearest to it, which is how Rocq
    reads a literal in [%float] too. *)
Module Binary64.

(** *** Numbers *)

Definition TEC_COST : float := 0.0463%float.
Definition CO2_LITER : float := 2.65%float.
Definition MAX_OUT : float := 999999999999%float.

(** [Math.max(a, b)] and [Math.min(a, b)]: NaN when an argument is NaN.  Of
    two zeros the first argument is returned; in the sources the first
    argument of [Math.max] is the literal 0 or a lower bound, and [Math.min]
    is never given two zeros, so that this is what JavaScript returns. *)
Definition Math_max (a b : float) : float :=
  if is_nan a || is_nan b then nan
  else if (a <? b)%float then b else a.

Definition Math_min (a b : float) : float :=
  if is_nan a || is_nan b then nan
  else if (b <? a)%float then b else a.

(** ToBoolean on a number: NaN and the two zeros are falsy. *)
Definition truthy (a : float) : bool := negb (is_nan a || is_zero a).

(** [a || d] on numbers. *)
Definition or_else (a d : float) : float := if truthy a then a else d.

Definition clamp (v min max : float) : float := Math_min max (Math_max min v).

(** The rational a finite double stands for; NaN and the infinities have
    none. *)
Definition exact (x : float) : jsnum :=
  match Prim2SF x with
  | S754_zero _ => Num 0
  | S754_finite s m e =>
      let magnitude :=
        if (0 <=? e)%Z then inject_Z (Zpos m * 2 ^ e)
        else Qmake (Zpos m) (2 ^ Z.to_pos (- e)) in
      Num (if s then Qopp magnitude else magnitude)
  | S754_infinity _ | S754_nan => NaN
  end.

(** [Math.round]: NaN and the infinities are left; a double of magnitude
    2^52 or more is an integer already; otherwise the nearest integer, a
    half towards +infinity, with the sign of the argument when it is zero
    ([Math.round(-0.2)] is [-0]). *)
Definition Math_round (x : float) : float :=
  if is_nan x || is_infinity x then x
  else if (abs x <? 4503599627370496)%float then
    match exact x with
    | Num q =>
        let z := Qfloor (q + (1 # 2)) in
        if (z =? 0)%Z then (if get_sign x then PrimFloat.neg_zero else PrimFloat.zero)
        else if (0 <? z)%Z then of_uint63 (Uint63.of_Z z)
        else (- of_uint63 (Uint63.of_Z (- z)))%float
    | NaN => x
    end
  else x.

(** [new Intl.NumberFormat(locale, {minimumFractionDigits: d,
    maximumFractionDigits: d}).format(v)] for a double: the digits of the
    value it stands for; the sign also of a negative zero; the sign and the
    symbol of infinity. *)
Definition NumberFormat (host : Host) (locale : string) (d : nat) (v : float) : string :=
  if is_nan v then "NaN"
  else if is_infinity v then (if get_sign v then minusSign (host locale) else "") +:+ "∞"
  else if is_zero v && get_sign v
       then minusSign (host locale) +:+ Js.NumberFormat host locale d (Num 0)
       else Js.NumberFormat host locale d (exact v).

(** [x.toFixed(d)] for a double below 10^21 in magnitude that is not a
    negative zero. *)
Definition toFixed (fractionDigits : nat) (x : float) : string :=
  Js.toFixed fractionDigits (exact x).

(** [formatCurrency] and [formatNumber] of the bundled [localization.js]. *)
Definition formatCurrency (host : Host) (value : float) (currency lang : string) : string :=
  let formatted :=
    NumberFormat host (Localization.locale_of lang) 0
      (Math_round (Math_min value 999999999999%float)) in
  currency +:+ " " +:+ formatted +:+ ".–".

Definition formatNumber (host : Host) (value : float) (decimals : nat) (lang : string) : string :=
  NumberFormat host (Localization.locale_of lang) decimals (Math_min value 999999999999%float).

(** *** The bundled [calculator.js] *)

(** The module level variables. *)
Record State : Type := {
  currentTab : string;
  vehicles : float;
  currentLang : string
}.

Definition initial : State :=
  {| currentTab := "diesel"; vehicles := 5%float; currentLang := "de" |}.

(** The value of the [tec-consumption] select: ['custom'], or another
    string, given by what [parseFloat] makes of it. *)
Inductive selected : Type :=
  | Custom
  | Preset (parsed : float).

(** The input elements, each given by what [parseFloat] returns on its
    value. *)
Record Fields : Type := {
  tec_km_input : float;
  tec_diesel_price : float;
  tec_consumption : selected;
  tec_custom_consumption : float;
  tec_savings_slider : float;
  tec_heating_input : float;
  tec_heating_price : float;
  tec_heating_savings_slider : float
}.

Module Diesel.
Record figures : Type := {
  litersPerVehicle : float;
  totalLiters : float;
  litersSaved : float;
  gross : float;
  tecCost : float;
  net : float;
  co2 : float;
  perVehicle : float;
  costWithout : float;
  costWith : float
}.

(** What [calculateDiesel] writes: the text of each element and the width
    of the bar in percent (as a number).  The link, which holds the digits
    JavaScript prints for a number, is in module [Calculator] only. *)
Record output : Type := {
  tec_primary_result : string;
  tec_r_diesel : string;
  tec_r_co2 : string;
  tec_r_vehicle : string;
  tec_r_invest : string;
  tec_c_without : string;
  tec_c_with : string;
  tec_bar_with : float;
  tec_cta_val : string
}.
End Diesel.

Module Heating.
Record figures : Type := {
  liters : float;
  litersSaved : float;
  gross : float;
  tecCost : float;
  net : float;
  co2 : float;
  costWithout : float;
  costWith : float
}.

Record output : Type := {
  tec_primary_result : string;
  tec_rh_oil : string;
  tec_rh_co2 : string;
  tec_rh_invest : string;
  tec_ch_without : string;
  tec_ch_with : string;
  tec_bar_h_with : float;
  tec_cta_val : string
}.
End Heating.

(** The first lines of [calculateDiesel]: what the formulas are fed. *)
Definition diesel_km (f : Fields) : float :=
  clamp (or_else (tec_km_input f) 80000) 1000 300000.

Definition diesel_price (f : Fields) : float :=
  clamp (or_else (tec_diesel_price f) 1.95) 0.5 5.

Definition diesel_cons (f : Fields) : float :=
  let cons :=
    match tec_consumption f with
    | Custom => or_else (tec_custom_consumption f) 32
    | Preset parsed => parsed
    end in
  clamp cons 1 150.

Definition diesel_savePct (f : Fields) : float :=
  clamp (or_else (tec_savings_slider f) 7) 1 25.

(** The block under [// Calculations] of [calculateDiesel]. *)
Definition dieselCalculations (km price cons savePct vehicles : float) : Diesel.figures :=
  let litersPerVehicle := ((km / 100) * cons)%float in
  let totalLiters := (litersPerVehicle * vehicles)%float in
  let litersSaved := (totalLiters * (savePct / 100))%float in
  let gross := (litersSaved * price)%float in
  let tecCost := (totalLiters * TEC_COST)%float in
  let net := Math_max 0 (gross - tecCost)%float in
  let co2 := (litersSaved * (CO2_LITER / 1000))%float in
  let perVehicle := Math_max 0 (net / vehicles)%float in
  let costWithout := (totalLiters * price)%float in
  let costWith := (costWithout - net)%float in
  {| Diesel.litersPerVehicle := litersPerVehicle; Diesel.totalLiters := totalLiters;
     Diesel.litersSaved := litersSaved; Diesel.gross := gross; Diesel.tecCost := tecCost;
     Diesel.net := net; Diesel.co2 := co2; Diesel.perVehicle := perVehicle;
     Diesel.costWithout := costWithout; Diesel.costWith := costWith |}.

Definition dieselFigures (st : State) (f : Fields) : Diesel.figures :=
  dieselCalculations (diesel_km f) (diesel_price f) (diesel_cons f) (diesel_savePct f)
    (vehicles st).

(** The block under [// Update UI] of [calculateDiesel], without the
    link. *)
Definition dieselUpdateUI (host : Host) (lang : string) (r : Diesel.figures) : Diesel.output :=
  {| Diesel.tec_primary_result := formatCurrency host (Diesel.net r) "CHF" lang;
     Diesel.tec_r_diesel := formatNumber host (Diesel.litersSaved r) 0 lang +:+ " L";
     Diesel.tec_r_co2 := formatNumber host (Diesel.co2 r) 1 lang +:+ " t";
     Diesel.tec_r_vehicle := formatCurrency host (Diesel.perVehicle r) "CHF" lang;
     Diesel.tec_r_invest := formatCurrency host (Diesel.tecCost r) "CHF" lang;
     Diesel.tec_c_without := formatCurrency host (Diesel.costWithout r) "CHF" lang;
     Diesel.tec_c_with := formatCurrency host (Diesel.costWith r) "CHF" lang;
     Diesel.tec_bar_with :=
       (if (0 <? Diesel.costWithout r)%float
        then (Diesel.costWith r / Diesel.costWithout r) * 100
        else 100)%float;
     Diesel.tec_cta_val := formatCurrency host (Diesel.net r) "CHF" lang |}.

Definition calculateDiesel (host : Host) (st : State) (f : Fields) : Diesel.output :=
  dieselUpdateUI host (currentLang st) (dieselFigures st f).

(** [calculateHeating], in the same three parts. *)
Definition heating_liters (f : Fields) : float :=
  clamp (or_else (tec_heating_input f) 8000) 500 500000.

Definition heating_price (f : Fields) : float :=
  clamp (or_else (tec_heating_price f) 1.35) 0.5 5.

Definition heating_savePct (f : Fields) : float :=
  clamp (or_else (tec_heating_savings_slider f) 7) 1 25.

Definition heatingCalculations (liters price savePct : float) : Heating.figures :=
  let litersSaved := (liters * (savePct / 100))%float in
  let gross := (litersSaved * price)%float in
  let tecCost := (liters * TEC_COST)%float in
  let net := Math_max 0 (gross - tecCost)%float in
  let co2 := (litersSaved * (CO2_LITER / 1000))%float in
  let costWithout := (liters * price)%float in
  let costWith := (costWithout - net)%float in
  {| Heating.liters := liters; Heating.litersSaved := litersSaved; Heating.gross := gross;
     Heating.tecCost := tecCost; Heating.net := net; Heating.co2 := co2;
     Heating.costWithout := costWithout; Heating.costWith := costWith |}.

Definition heatingFigures (f : Fields) : Heating.figures :=
  heatingCalculations (heating_liters f) (heating_price f) (heating_savePct f).

Definition heatingUpdateUI (host : Host) (lang : string) (r : Heating.figures) : Heating.output :=
  {| Heating.tec_primary_result := formatCurrency host (Heating.net r) "CHF" lang;
     Heating.tec_rh_oil := formatNumber host (Heating.litersSaved r) 0 lang +:+ " L";
     Heating.tec_rh_co2 := formatNumber host (Heating.co2 r) 2 lang +:+ " t";
     Heating.tec_rh_invest := formatCurrency host (Heating.tecCost r) "CHF" lang;
     Heating.tec_ch_without := formatCurrency host (Heating.costWithout r) "CHF" lang;
     Heating.tec_ch_with := formatCurrency host (Heating.costWith r) "CHF" lang;
     Heating.tec_bar_h_with :=
       (if (0 <? Heating.costWithout r)%float
        then (Heating.costWith r / Heating.costWithout r) * 100
        else 100)%float;
     Heating.tec_cta_val := formatCurrency host (Heating.net r) "CHF" lang |}.

Definition calculateHeating (host : Host) (st : State) (f : Fields) : Heating.output :=
  heatingUpdateUI host (currentLang st) (heatingFigures f).

(** [adjustPrice(type, delta)]: what is assigned to the price field, given
    what [parseFloat] returns on it. *)
Definition adjustPrice (parsed delta : float) : string :=
  toFixed 2 (clamp (parsed + delta)%float 0.5 5).

(** *** The class [TecCalculator] *)

(** The first lines of [calcDiesel] and of [calcHeating]: the price falls
    back to [this.defaultPrices]; km, consumption, savings and litres are
    read as in the bundle. *)
Definition calcDiesel_price (defaultDiesel : float) (f : Fields) : float :=
  clamp (or_else (tec_diesel_price f) defaultDiesel) 0.5 5.

Definition calcHeating_price (defaultHeating : float) (f : Fields) : float :=
  clamp (or_else (tec_heating_price f) defaultHeating) 0.5 5.

(** The formulas of [calcDiesel] and [calcHeating] are those of the bundle,
    line by line, with [this.vehicles]. *)
Definition calcDieselFigures (vehicles defaultDiesel : float) (f : Fields) : Diesel.figures :=
  dieselCalculations (diesel_km f) (calcDiesel_price defaultDiesel f) (diesel_cons f)
    (diesel_savePct f) vehicles.

Definition calcHeatingFigures (defaultHeating : float) (f : Fields) : Heating.figures :=
  heatingCalculations (heating_liters f) (calcHeating_price defaultHeating f)
    (heating_savePct f).


(** *** Comparing with exact arithmetic *)

(** [x] is a number within [lo, hi]. *)
Definition within (lo hi x : float) : bool := (lo <=? x)%float && (x <=? hi)%float.

(** Two figures differ by less than 10^-9. *)
Definition close (a b : jsnum) : Prop :=
  match a, b with
  | Num x, Num y => (Qabs (x - y) < 1 # 1000000000)%Q
  | _, _ => False
  end.

End Binary64.

(* ===================================================================== *)
(** ** The documented bounds and the worked examples                      *)
(* ===================================================================== *)

Module Spec.
Import Calculator.
Local Open Scope Q_scope.

(** The bounds of the data model: vehicle count in [1, 1000], distance in
    [1000, 300000], price in [0.5, 5], consumption in [1, 150], expected
    savings in [1, 25], heating oil in [500, 500000]. *)
Definition vehicle_bounds (v km price cons pct : Q) : Prop :=
  1 <= v <= 1000 /\ 1000 <= km <= 300000 /\ 0.5 <= price <= 5 /\
  1 <= cons <= 150 /\ 1 <= pct <= 25.

Definition heating_bounds (liters price pct : Q) : Prop :=
  500 <= liters <= 500000 /\ 0.5 <= price <= 5 /\ 1 <= pct <= 25.

(** The vehicle form holds these numbers: [v] vehicles in the module state,
    and fields that parse to [km], [price], [cons] (chosen in the select or
    typed in the custom field) and [pct]. *)
Definition vehicle_form (vehicles : jsnum) (f : Fields) (v km price cons pct : Q) : Prop :=
  vehicles = Num v /\
  tec_km_input f = Num km /\
  tec_diesel_price f = Num price /\
  (tec_consumption f = Preset (Num cons) \/
   tec_consumption f = Custom /\ tec_custom_consumption f = Num cons) /\
  tec_savings_slider f = Num pct.

Definition heating_form (f : Fields) (liters price pct : Q) : Prop :=
  tec_heating_input f = Num liters /\
  tec_heating_price f = Num price /\
  tec_heating_savings_slider f = Num pct.

(** A figure the ceiling of the formatting helpers leaves alone: a number
    below 999,999,999,999, so that [Math.min(x, 999999999999)] is [x], in
    [formatCurrency] and [formatNumber] as in [fmtNum]. *)
Definition below_ceiling (x : jsnum) : Prop :=
  match x with
  | NaN => False
  | Num q => q < 999999999999
  end.

(** The engine takes the nearest bound of [lo, hi] for the field read as
    [raw]: [used] is [hi] when the field holds a number above [hi] and [lo]
    when it holds a number, other than zero, below [lo]. *)
Definition clamped_to_nearest (raw used : jsnum) (lo hi : Q) : Prop :=
  forall q : Q, raw = Num q -> ~ q == 0 ->
    (hi < q -> used ≡ Num hi) /\ (q < lo -> used ≡ Num lo).

Definition untouched_by_ceiling (x : jsnum) : Prop :=
  below_ceiling x /\
  Math_min x (Num 999999999999) ≡ x /\
  Math_min x MAX_OUT ≡ x.

End Spec.

(** What the page guarantees about a form, and what is asked of a figure. *)
Module Page.
Import Calculator.
Local Open Scope Q_scope.

(** The select [tec-consumption] holds one of the options of the template:
    a number (32, 12, 9 or 7), or [custom]. *)
Definition consumption_chosen (f : Fields) : Prop :=
  match tec_consumption f with
  | Custom => True
  | Preset (Num _) => True
  | Preset NaN => False
  end.


(** [x] is a number within [lo, hi]. *)
Definition is_between (lo hi : Q) (x : jsnum) : Prop :=
  match x with
  | NaN => False
  | Num q => lo <= q <= hi
  end.

(** The host names [URL_PATTERNS] matches, each with its language. *)
Definition documented_hosts : list (string * string) :=
  [ ("tecblu.ch", "de"); ("tecblu.at", "de"); ("tecblu.de", "de");
    ("en.tecblu.ch", "en"); ("en.tecblu.at", "en"); ("en.tecblu.de", "en");
    ("en.tecblu.fr", "en"); ("en.tecblu.it", "en");
    ("fr.tecblu.ch", "fr"); ("tecblu.fr", "fr");
    ("it.tecblu.ch", "it"); ("tecblu.it", "it") ].

(** The lookup of [key] finds a text that is not empty. *)
Definition has_text (rt : Runtime) (translations : jsval) (key : string) : Prop :=
  exists text : string,
    Localization.getNestedValue rt translations key = Normal (VString text) /\ text <> "".

(** [applyTranslations] finds a text for the element, and one for its
    tooltip when it names a tooltip key. *)
Definition is_translated (rt : Runtime) (translations : jsval) (el : Localization.element)
  : Prop :=
  has_text rt translations (Localization.data_i18n el) /\
  forall key, Localization.data_i18n_tooltip el = Some key -> has_text rt translations key.

(** [result] is the quote page of [lang]: the [cta.quoteUrl] of that
    language when [translations] holds one that is not falsy, and [path]
    otherwise; never an exception, never an absent value. *)
Definition quote_page
  (rt : Runtime) (translations : jsval) (lang path : string) (result : completion jsval)
  : Prop :=
  exists url : jsval,
    result = Normal url /\ ToBoolean url = true /\
    forall configured : jsval,
      optional_get rt translations lang ≫= (fun byLang =>
      optional_get rt byLang "cta" ≫= (fun cta =>
      optional_get rt cta "quoteUrl")) = Normal configured ->
      url = if ToBoolean configured then configured else VString path.

(** [toggleAdvanced] finds a text for the open and for the closed panel,
    and the text for the closed panel is the one [applyTranslations] writes
    on the toggle. *)
Definition toggle_labels (rt : Runtime) (translations : jsval) (type : string) : Prop :=
  (exists close,
     toggleAdvanced rt translations type true = Normal (VString close) /\ close <> "") /\
  (exists open,
     toggleAdvanced rt translations type false = Normal (VString open) /\ open <> "" /\
     Localization.getNestedValue rt translations (type +:+ ".advancedToggle")
     = Normal (VString open)).

(** The walk of [getNestedValue] through own properties, which needs no
    runtime; it decides the three properties above on a given table. *)
Fixpoint own_lookup (keys : list string) (current : jsval) : option jsval :=
  match keys with
  | [] => Some current
  | key :: rest =>
      match current with
      | VObject props =>
          match props !! key with
          | Some v => if is_undefined v then None else own_lookup rest v
          | None => None
          end
      | _ => None
      end
  end.

Definition own_text (translations : jsval) (key : string) : bool :=
  match own_lookup (split "." key) translations with
  | Some (VString text) => negb (String.eqb text "")
  | _ => false
  end.

Definition own_translation (translations : jsval) (el : Localization.element) : bool :=
  own_text translations (Localization.data_i18n el) &&
  match Localization.data_i18n_tooltip el with
  | Some key => own_text translations key
  | None => true
  end.

Definition own_toggle_labels (translations : jsval) (type : string) : bool :=
  match own_lookup [type; "advancedToggleClose"] translations,
        own_lookup [type; "advancedToggle"] translations with
  | Some (VString close), Some (VString open) =>
      negb (String.eqb close "") && negb (String.eqb open "")
  | _, _ => false
  end.

(** The children of a tooltip element once [applyTranslations] has set its
    main text: the first text node is rewritten; without one, the text is
    inserted before the tooltip span; without a span, it replaces the
    children. *)
Definition with_main_text (text : string) (children : list Localization.node)
  : list Localization.node :=
  if existsb Localization.is_text children
  then Localization.set_first_text text children
  else if existsb Localization.is_tooltip_span children
       then Localization.insert_before_span text children
       else [Localization.TextNode text].

End Page.

Module Examples.
Import Calculator.

(** The symbols of de-CH as the comments of the sources show them
    ([CHF 1'234.–]). *)
Definition de_CH : NumberSymbols :=
  {| group := "'"; decimal := "."; minusSign := "-"; minimumGroupingDigits := 1 |}.

Definition swiss_host : Host := fun _ => de_CH.

(** Example 1 of the specification is the state of the template as it
    loads: 5 vehicles, 80000 km, 1.95 per litre, 32 l/100 km, 7 percent;
    example 2 its heating form: 8000 l, 1.35 per litre, 7 percent. *)
Definition template : Fields :=
  {| tec_custom_vehicles := Num 5;
     tec_km_input := Num 80000;
     tec_diesel_price := Num 1.95;
     tec_consumption := Preset (Num 32);
     tec_custom_consumption := Num 32;
     tec_savings_slider := Num 7;
     tec_heating_input := Num 8000;
     tec_heating_price := Num 1.35;
     tec_heating_savings_slider := Num 7 |}.

Definition with_diesel_price (f : Fields) (p : jsnum) : Fields :=
  {| tec_custom_vehicles := tec_custom_vehicles f;
     tec_km_input := tec_km_input f;
     tec_diesel_price := p;
     tec_consumption := tec_consumption f;
     tec_custom_consumption := tec_custom_consumption f;
     tec_savings_slider := tec_savings_slider f;
     tec_heating_input := tec_heating_input f;
     tec_heating_price := tec_heating_price f;
     tec_heating_savings_slider := tec_heating_savings_slider f |}.

Definition with_savings (f : Fields) (p : jsnum) : Fields :=
  {| tec_custom_vehicles := tec_custom_vehicles f;
     tec_km_input := tec_km_input f;
     tec_diesel_price := tec_diesel_price f;
     tec_consumption := tec_consumption f;
     tec_custom_consumption := tec_custom_consumption f;
     tec_savings_slider := p;
     tec_heating_input := tec_heating_input f;
     tec_heating_price := tec_heating_price f;
     tec_heating_savings_slider := tec_heating_savings_slider f |}.

Definition with_custom_vehicles (f : Fields) (n : jsnum) : Fields :=
  {| tec_custom_vehicles := n;
     tec_km_input := tec_km_input f;
     tec_diesel_price := tec_diesel_price f;
     tec_consumption := tec_consumption f;
     tec_custom_consumption := tec_custom_consumption f;
     tec_savings_slider := tec_savings_slider f;
     tec_heating_input := tec_heating_input f;
     tec_heating_price := tec_heating_price f;
     tec_heating_savings_slider := tec_heating_savings_slider f |}.

Definition with_km (f : Fields) (n : jsnum) : Fields :=
  {| tec_custom_vehicles := tec_custom_vehicles f;
     tec_km_input := n;
     tec_diesel_price := tec_diesel_price f;
     tec_consumption := tec_consumption f;
     tec_custom_consumption := tec_custom_consumption f;
     tec_savings_slider := tec_savings_slider f;
     tec_heating_input := tec_heating_input f;
     tec_heating_price := tec_heating_price f;
     tec_heating_savings_slider := tec_heating_savings_slider f |}.

(** The same state as doubles. *)
Definition template64 : Binary64.Fields :=
  {| Binary64.tec_km_input := 80000%float;
     Binary64.tec_diesel_price := 1.95%float;
     Binary64.tec_consumption := Binary64.Preset 32%float;
     Binary64.tec_custom_consumption := 32%float;
     Binary64.tec_savings_slider := 7%float;
     Binary64.tec_heating_input := 8000%float;
     Binary64.tec_heating_price := 1.35%float;
     Binary64.tec_heating_savings_slider := 7%float |}.


(** 25000 km at 12 l/100 km, 6 percent and 2.05 per litre. *)
Definition delivery_vans64 : Binary64.Fields :=
  {| Binary64.tec_km_input := 25000%float;
     Binary64.tec_diesel_price := 2.05%float;
     Binary64.tec_consumption := Binary64.Preset 12%float;
     Binary64.tec_custom_consumption := 32%float;
     Binary64.tec_savings_slider := 6%float;
     Binary64.tec_heating_input := 8000%float;
     Binary64.tec_heating_price := 1.35%float;
     Binary64.tec_heating_savings_slider := 7%float |}.

(** The price field holds "abc": [parseFloat] gives NaN. *)
Definition price_abc : Fields := with_diesel_price template NaN.

(** The savings field holds 50. *)
Definition savings_50 : Fields := with_savings template (Num 50).

(** 5000 is typed in the custom vehicle field. *)
Definition vehicles_5000 : Fields := with_custom_vehicles template (Num 5000).

(** 0 is typed in the distance field. *)
Definition km_0 : Fields := with_km template (Num 0).

(** A part of [TRANSLATIONS.de]. *)
Definition de : jsval :=
  VObject (list_to_map
    [ ("header", VObject (list_to_map
         [ ("title", VString "Ersparnis-Rechner");
           ("subtitle", VString "Berechnen Sie, wie viel Sie mit TecBlu sparen können") ]));
      ("tabs", VObject (list_to_map
         [ ("fuel", VString "Treibstoff");
           ("fuelTooltip", VString "Diesel, Benzin, Biodiesel oder HVO");
           ("heating", VString "Heizöl") ]));
      ("currency", VString "CHF") ]).

(** A runtime whose prototypes add nothing. *)
Definition bare_runtime : Runtime :=
  {| inherited := fun _ _ => VUndefined; display := fun _ => "" |}.

(** The heading of the template, and an element whose key is not
    translated. *)
Definition title_element : Localization.element :=
  {| Localization.tagName := "H2"; Localization.classList := [];
     Localization.data_i18n := "header.title"; Localization.data_i18n_tooltip := None;
     Localization.childNodes := [Localization.TextNode "Ersparnis-Rechner"] |}.

Definition untranslated_element : Localization.element :=
  {| Localization.tagName := "P"; Localization.classList := [];
     Localization.data_i18n := "diesel.priceHint.text"; Localization.data_i18n_tooltip := None;
     Localization.childNodes := [Localization.TextNode "Durchschnitt Stand Januar 2026"] |}.



(** The label of the price field of the template, with its tooltip. *)
Definition price_label : Localization.element :=
  {| Localization.tagName := "SPAN"; Localization.classList := ["tec-tooltip"];
     Localization.data_i18n := "diesel.priceLabel";
     Localization.data_i18n_tooltip := Some "diesel.priceTooltip";
     Localization.childNodes :=
       [ Localization.TextNode "Treibstoffpreis";
         Localization.ChildElement ["tec-tooltip-text"] "Diesel, Benzin, Biodiesel oder HVO" ] |}.

(** The same label in English. *)
Definition price_label_en : Localization.element :=
  Localization.with_children price_label
    [ Localization.TextNode "Fuel Price";
      Localization.ChildElement ["tec-tooltip-text"] "Diesel, Petrol, Biodiesel or HVO" ].

End Examples.

(* ===================================================================== *)
(** ** Facts about the runtime                                            *)
(* ===================================================================== *)

Import Calculator.
Local Open Scope Q_scope.

#[export] Instance same_value_equivalence : Equivalence same_value.
Proof.
  split.
  - intros [|x]; simpl; [exact I | reflexivity].
  - intros [|x] [|y]; simpl; auto. intros H. symmetry. exact H.
  - intros [|x] [|y] [|z]; simpl; auto; try contradiction.
    intros H1 H2. rewrite H1. exact H2.
Qed.

Lemma same_Num (x y : Q) : Num x ≡ Num y <-> x == y.
Proof. reflexivity. Qed.

Lemma Qeq_bool_pos (y : Q) : 0 < y -> Qeq_bool y 0 = false.
Proof.
  intros H. destruct (Qeq_bool y 0) eqn:E; [|reflexivity].
  apply Qeq_bool_iff in E. lra.
Qed.

Lemma Qeq_bool_nonzero (y : Q) : ~ y == 0 -> Qeq_bool y 0 = false.
Proof.
  intros H. destruct (Qeq_bool y 0) eqn:E; [|reflexivity].
  apply Qeq_bool_iff in E. contradiction.
Qed.

Lemma truthy_nonzero (q : Q) : ~ q == 0 -> truthy (Num q) = true.
Proof. intros H. unfold truthy. rewrite Qeq_bool_nonzero by assumption. reflexivity. Qed.

Lemma truthy_pos (q : Q) : 0 < q -> truthy (Num q) = true.
Proof. intros H. apply truthy_nonzero. lra. Qed.

Lemma or_else_nonzero (q : Q) (d : jsnum) : ~ q == 0 -> (Num q || d)%js = Num q.
Proof. intros H. unfold or_else. rewrite truthy_nonzero by assumption. reflexivity. Qed.

Lemma or_else_NaN (d : jsnum) : (NaN || d)%js = d.
Proof. reflexivity. Qed.

Lemma or_else_zero (q : Q) (d : jsnum) : q == 0 -> (Num q || d)%js = d.
Proof.
  intros H. unfold or_else, truthy.
  apply Qeq_bool_iff in H. rewrite H. reflexivity.
Qed.

Lemma add_Num (x y : Q) : (Num x + Num y)%js = Num (x + y).
Proof. reflexivity. Qed.

Lemma sub_Num (x y : Q) : (Num x - Num y)%js = Num (x - y).
Proof. reflexivity. Qed.

Lemma mul_Num (x y : Q) : (Num x * Num y)%js = Num (x * y).
Proof. reflexivity. Qed.

Lemma div_Num (x y : Q) : Qeq_bool y 0 = false -> (Num x / Num y)%js = Num (x / y).
Proof. intros H. unfold div. rewrite H. reflexivity. Qed.

Lemma Math_max_Num (x y : Q) : Math_max (Num x) (Num y) = Num (Qmax x y).
Proof. reflexivity. Qed.

Lemma Math_min_Num (x y : Q) : Math_min (Num x) (Num y) = Num (Qmin x y).
Proof. reflexivity. Qed.

Lemma clamp_Num (v lo hi : Q) : clamp (Num v) (Num lo) (Num hi) = Num (Qmin hi (Qmax lo v)).
Proof. reflexivity. Qed.

Lemma clamp_NaN (lo hi : jsnum) : clamp NaN lo hi = NaN.
Proof. destruct lo, hi; reflexivity. Qed.

Lemma Qclamp_id (v lo hi : Q) : lo <= v <= hi -> Qmin hi (Qmax lo v) == v.
Proof.
  intros [H1 H2]. rewrite Q.max_r by assumption. apply Q.min_r. assumption.
Qed.

Lemma Qclamp_above (v lo hi : Q) : lo <= hi -> hi <= v -> Qmin hi (Qmax lo v) == hi.
Proof.
  intros H1 H2. rewrite Q.max_r by lra. apply Q.min_l. assumption.
Qed.

Lemma Qclamp_below (v lo hi : Q) : lo <= hi -> v <= lo -> Qmin hi (Qmax lo v) == lo.
Proof.
  intros H1 H2. rewrite Q.max_l by assumption. apply Q.min_r. assumption.
Qed.

Lemma Qclamp_range (v lo hi : Q) : lo <= hi -> lo <= Qmin hi (Qmax lo v) <= hi.
Proof.
  intros H. split.
  - apply Q.min_glb; [assumption | apply Q.le_max_l].
  - apply Q.le_min_l.
Qed.

(** Pushes the operations of the engine through [Num]; a division needs its
    divisor to be a non-zero literal or a quantity known to be positive. *)
Ltac js_norm :=
  repeat first
    [ rewrite clamp_Num | rewrite mul_Num | rewrite sub_Num | rewrite add_Num
    | rewrite Math_max_Num | rewrite Math_min_Num
    | rewrite div_Num by (reflexivity || (apply Qeq_bool_pos; lra)) ].

(** What the first lines of [calculateDiesel] and [calculateHeating] make of
    a field that already holds a number within its bounds. *)
Lemma reading_in_range (q lo hi : Q) (d : jsnum) :
  0 < lo -> lo <= q <= hi ->
  clamp (Num q || d)%js (Num lo) (Num hi) ≡ Num q.
Proof.
  intros Hlo Hq. rewrite or_else_nonzero by lra.
  rewrite clamp_Num. apply same_Num, Qclamp_id. assumption.
Qed.

(** Whatever a field holds, its reading is a number within the bounds. *)
Lemma reading_within_bounds (raw : jsnum) (d lo hi : Q) :
  lo <= hi ->
  exists q : Q, clamp (raw || Num d)%js (Num lo) (Num hi) = Num q /\ lo <= q <= hi.
Proof.
  intros Hb.
  assert (Hnum : exists y : Q, (raw || Num d)%js = Num y).
  { unfold or_else. destruct raw as [|x]; [eexists; reflexivity|].
    destruct (truthy (Num x)); eexists; reflexivity. }
  destruct Hnum as [y ->]. rewrite clamp_Num.
  eexists. split; [reflexivity | apply Qclamp_range, Hb].
Qed.

Lemma readings_within_bounds (f : Fields) :
  (exists km, diesel_km f = Num km /\ 1000 <= km <= 300000) /\
  (exists price, diesel_price f = Num price /\ 0.5 <= price <= 5) /\
  (tec_consumption f = Custom ->
   exists cons, diesel_cons f = Num cons /\ 1 <= cons <= 150) /\
  (exists pct, diesel_savePct f = Num pct /\ 1 <= pct <= 25) /\
  (exists liters, heating_liters f = Num liters /\ 500 <= liters <= 500000) /\
  (exists price, heating_price f = Num price /\ 0.5 <= price <= 5) /\
  (exists pct, heating_savePct f = Num pct /\ 1 <= pct <= 25).
Proof.
  repeat match goal with |- _ /\ _ => split end;
    try (apply reading_within_bounds; lra).
  intros E. unfold diesel_cons. rewrite E. apply reading_within_bounds. lra.
Qed.

(* ===================================================================== *)
(** ** Facts about binary64                                               *)
(* ===================================================================== *)

(** The comparison of two doubles is that of their sign, exponent and
    mantissa, in this order; it is a total preorder on the doubles other
    than NaN. *)
Lemma SFcompare_antisym (x y : spec_float) :
  SFcompare y x = option_map CompOpp (SFcompare x y).
Proof.
  destruct x as [sx|sx| |sx mx ex], y as [sy|sy| |sy my ey]; simpl;
    try destruct sx; try destruct sy; try reflexivity;
    rewrite (Z.compare_antisym ex ey); destruct (ex ?= ey)%Z; simpl; try reflexivity;
    change Eq with (CompOpp Eq) at 1; rewrite Pos.compare_cont_antisym;
    rewrite ?CompOpp_involutive; reflexivity.
Qed.

Lemma SFcompare_refl (x : spec_float) :
  x <> S754_nan -> SFcompare x x = Some Eq.
Proof.
  destruct x as [s|s| |s m e]; simpl; intros H; try reflexivity; try contradiction.
  - destruct s; reflexivity.
  - rewrite Z.compare_refl, Pos.compare_cont_refl. destruct s; reflexivity.
Qed.

Lemma is_nan_spec (x : float) : is_nan x = true <-> Prim2SF x = S754_nan.
Proof.
  unfold is_nan. rewrite FloatAxioms.eqb_spec. unfold SFeqb. split.
  - intros H. destruct (Prim2SF x) as [s|s| |s m e] eqn:E; try reflexivity;
      rewrite SFcompare_refl in H by discriminate; discriminate.
  - intros ->. reflexivity.
Qed.

Lemma not_nan_spec (x : float) : is_nan x = false <-> Prim2SF x <> S754_nan.
Proof.
  rewrite <- is_nan_spec. destruct (is_nan x); split; congruence.
Qed.

Lemma ltb_not_nan (a b : float) :
  (a <? b)%float = true -> is_nan a = false /\ is_nan b = false.
Proof.
  rewrite ltb_spec. unfold SFltb. rewrite !not_nan_spec.
  destruct (Prim2SF a), (Prim2SF b); simpl; intros H; split; congruence.
Qed.

Lemma leb_not_nan (a b : float) :
  (a <=? b)%float = true -> is_nan a = false /\ is_nan b = false.
Proof.
  rewrite leb_spec. unfold SFleb. rewrite !not_nan_spec.
  destruct (Prim2SF a), (Prim2SF b); simpl; intros H; split; congruence.
Qed.

Lemma leb_refl (a : float) : is_nan a = false -> (a <=? a)%float = true.
Proof.
  rewrite not_nan_spec, leb_spec. intros H. unfold SFleb.
  rewrite (SFcompare_refl _ H). reflexivity.
Qed.


Lemma ltb_leb (a b : float) : (a <? b)%float = true -> (a <=? b)%float = true.
Proof.
  rewrite ltb_spec, leb_spec. unfold SFltb, SFleb.
  destruct (SFcompare (Prim2SF a) (Prim2SF b)) as [[]|]; simpl; congruence.
Qed.

Lemma leb_not_ltb (a b : float) : (a <=? b)%float = true -> (b <? a)%float = false.
Proof.
  rewrite ltb_spec, leb_spec. unfold SFltb, SFleb.
  rewrite (SFcompare_antisym (Prim2SF a) (Prim2SF b)).
  destruct (SFcompare (Prim2SF a) (Prim2SF b)) as [[]|]; simpl; congruence.
Qed.

(** Of two doubles other than NaN, one is below the other or they are
    equal. *)
Lemma not_ltb_leb (a b : float) :
  is_nan a = false -> is_nan b = false -> (a <? b)%float = false -> (b <=? a)%float = true.
Proof.
  rewrite !not_nan_spec, ltb_spec, leb_spec. unfold SFltb, SFleb.
  rewrite (SFcompare_antisym (Prim2SF a) (Prim2SF b)).
  destruct (Prim2SF a), (Prim2SF b); simpl; try congruence;
    repeat match goal with s : bool |- _ => destruct s end; simpl; try congruence;
    match goal with
    | |- context [Z.compare ?x ?y] => destruct (Z.compare x y); simpl; try congruence
    end;
    match goal with
    | |- context [Pos.compare_cont Eq ?x ?y] =>
        destruct (Pos.compare_cont Eq x y); simpl; congruence
    end.
Qed.

Ltac order_cases :=
  repeat match goal with
         | |- context [(?a ?= ?b)%Z] => destruct (Z.compare_spec a b)
         | H : context [(?a ?= ?b)%Z] |- _ => destruct (Z.compare_spec a b)
         | |- context [Pos.compare_cont Eq ?a ?b] =>
             change (Pos.compare_cont Eq a b) with (Pos.compare a b);
             destruct (Pos.compare_spec a b)
         | H : context [Pos.compare_cont Eq ?a ?b] |- _ =>
             change (Pos.compare_cont Eq a b) with (Pos.compare a b) in H;
             destruct (Pos.compare_spec a b)
         end.

Lemma SFltb_leb_trans (x y z : spec_float) :
  SFltb x y = true -> SFleb y z = true -> SFltb x z = true.
Proof.
  unfold SFltb, SFleb.
  destruct x as [sx|sx| |sx mx ex], y as [sy|sy| |sy my ey], z as [sz|sz| |sz mz ez];
    simpl; try destruct sx; try destruct sy; try destruct sz;
    try discriminate; try reflexivity;
    order_cases; simpl; try discriminate; try reflexivity; try lia.
Qed.

Lemma SFleb_ltb_trans (x y z : spec_float) :
  SFleb x y = true -> SFltb y z = true -> SFltb x z = true.
Proof.
  unfold SFltb, SFleb.
  destruct x as [sx|sx| |sx mx ex], y as [sy|sy| |sy my ey], z as [sz|sz| |sz mz ez];
    simpl; try destruct sx; try destruct sy; try destruct sz;
    try discriminate; try reflexivity;
    order_cases; simpl; try discriminate; try reflexivity; try lia.
Qed.

Lemma ltb_leb_trans (a b c : float) :
  (a <? b)%float = true -> (b <=? c)%float = true -> (a <? c)%float = true.
Proof. rewrite !ltb_spec, leb_spec. apply SFltb_leb_trans. Qed.

Lemma leb_ltb_trans (a b c : float) :
  (a <=? b)%float = true -> (b <? c)%float = true -> (a <? c)%float = true.
Proof. rewrite !ltb_spec, leb_spec. apply SFleb_ltb_trans. Qed.



(** [clamp] puts a number between the bounds. *)
Lemma clamp_cases (v lo hi : float) :
  is_nan v = false -> is_nan lo = false -> is_nan hi = false ->
  (Binary64.clamp v lo hi = v /\ (lo <? v)%float = true /\ (v <? hi)%float = true) \/
  (Binary64.clamp v lo hi = lo /\ (lo <? v)%float = false /\ (lo <? hi)%float = true) \/
  (Binary64.clamp v lo hi = hi /\ (Binary64.Math_max lo v <? hi)%float = false).
Proof.
  intros Hv Hlo Hhi. unfold Binary64.clamp, Binary64.Math_min, Binary64.Math_max.
  rewrite Hv, Hlo, Hhi. simpl.
  destruct (lo <? v)%float eqn:E1.
  - rewrite Hv. simpl. destruct (v <? hi)%float eqn:E2; [left | right; right]; auto.
  - rewrite Hlo. simpl. destruct (lo <? hi)%float eqn:E2; [right; left | right; right]; auto.
Qed.

Lemma clamp_within (v lo hi : float) :
  is_nan v = false -> (lo <=? hi)%float = true ->
  Binary64.within lo hi (Binary64.clamp v lo hi) = true.
Proof.
  intros Hv Hb. destruct (leb_not_nan _ _ Hb) as [Hlo Hhi].
  unfold Binary64.within. apply andb_true_iff.
  destruct (clamp_cases v lo hi Hv Hlo Hhi) as [(-> & H1 & H2) | [(-> & H1 & H2) | (-> & H)]].
  - split; apply ltb_leb; assumption.
  - split; [apply leb_refl, Hlo | exact Hb].
  - split; [exact Hb | apply leb_refl, Hhi].
Qed.


(* ===================================================================== *)
(** ** The statements of the specification                                *)
(* ===================================================================== *)

(** C9.  For bounds [min <= max], [clamp] returns a value that is already
    within [min, max] unchanged, and clamping twice is clamping once, for
    every number and for NaN. *)
Theorem clamp_idempotent (min max : Q) (Hbounds : min <= max) :
  (forall v : Q, min <= v <= max -> clamp (Num v) (Num min) (Num max) ≡ Num v) /\
  (forall v : jsnum,
     clamp (clamp v (Num min) (Num max)) (Num min) (Num max)
     ≡ clamp v (Num min) (Num max)).
Proof.
  split.
  - intros v Hv. rewrite clamp_Num. apply same_Num, Qclamp_id, Hv.
  - intros [|v].
    + rewrite !clamp_NaN. reflexivity.
    + rewrite !clamp_Num. apply same_Num, Qclamp_id, Qclamp_range, Hbounds.
Qed.

Lemma clamp_idempotent_witness :
  clamp (Num 7) (Num 1) (Num 25) ≡ Num 7 /\
  clamp (clamp (Num 50) (Num 1) (Num 25)) (Num 1) (Num 25) ≡ clamp (Num 50) (Num 1) (Num 25).
Proof.
  assert (Hb : 1 <= 25) by (unfold Qle; simpl; lia).
  destruct (clamp_idempotent 1 25 Hb) as [Hid Htwice].
  split.
  - apply Hid. split; unfold Qle; simpl; lia.
  - apply Htwice.
Defined.

(** What both engines feed the formulas when the vehicle form holds numbers
    within the bounds: the numbers themselves. *)
Lemma vehicle_readings (vehicles : jsnum) (f : Fields) (v km price cons pct : Q) :
  Spec.vehicle_bounds v km price cons pct ->
  Spec.vehicle_form vehicles f v km price cons pct ->
  diesel_km f ≡ Num km /\ diesel_price f ≡ Num price /\
  diesel_cons f ≡ Num cons /\ diesel_savePct f ≡ Num pct.
Proof.
  intros (Hv & Hkm & Hprice & Hcons & Hpct) (_ & E1 & E2 & E3 & E4).
  unfold diesel_km, diesel_price, diesel_cons, diesel_savePct.
  rewrite E1, E2, E4.
  repeat split; try (apply reading_in_range; lra).
  destruct E3 as [-> | [-> ->]].
  - unfold LIMITS.cons, fst, snd. rewrite clamp_Num. apply same_Num, Qclamp_id. lra.
  - apply reading_in_range; lra.
Qed.


(** C2, as stated, fails for two of the six figures: in binary64 the
    product cost of the example is not the double 5926.4 but the next one
    above it (5926.400000000001), and the net savings are not 11545.6 but
    the next double below (11545.599999999999). *)
Lemma example_cost_is_rounded :
  let r := Binary64.dieselFigures Binary64.initial Examples.template64 in
  (Binary64.Diesel.tecCost r =? 5926.4)%float = false /\
  gt (Binary64.exact (Binary64.Diesel.tecCost r)) (Num 5926.4) = true /\
  (Binary64.Diesel.net r =? 11545.6)%float = false /\
  gt (Num 11545.6) (Binary64.exact (Binary64.Diesel.net r)) = true.
Proof. cbv zeta. repeat split; vm_compute; reflexivity. Qed.

(** C2, amended.  In the state the template loads with (5 vehicles, 80000
    km, 1.95 per litre, 32 l/100 km, 7 percent) [calculateDiesel] computes
    exactly 25600 litres per vehicle, 128000 litres in total, 8960 litres
    saved and gross savings of 17472; the product cost is the double next
    above 5926.4 and the net savings the double next below 11545.6, both
    within 10^-9 of these; and on a host that groups de-CH digits with an
    apostrophe it writes [CHF 11'546.–] as the primary result. *)
Theorem example_vehicle_fleet (host : Host) (Hhost : host "de-CH" = Examples.de_CH) :
  let r := Binary64.dieselFigures Binary64.initial Examples.template64 in
  Binary64.Diesel.litersPerVehicle r = 25600%float /\
  Binary64.Diesel.totalLiters r = 128000%float /\
  Binary64.Diesel.litersSaved r = 8960%float /\
  Binary64.Diesel.gross r = 17472%float /\
  Binary64.Diesel.tecCost r = next_up 5926.4 /\
  Binary64.Diesel.net r = next_down 11545.6 /\
  Binary64.close (Binary64.exact (Binary64.Diesel.tecCost r)) (Num 5926.4) /\
  Binary64.close (Binary64.exact (Binary64.Diesel.net r)) (Num 11545.6) /\
  Binary64.Diesel.tec_primary_result
    (Binary64.calculateDiesel host Binary64.initial Examples.template64)
  = "CHF 11'546.–".
Proof.
  intros r. repeat split; try (vm_compute; reflexivity).
  unfold Binary64.calculateDiesel, Binary64.dieselUpdateUI, Binary64.Diesel.tec_primary_result,
    Binary64.formatCurrency.
  set (v := Binary64.Math_round _).
  assert (Ev : v = 11546%float) by (vm_compute; reflexivity).
  rewrite Ev. unfold Binary64.NumberFormat, NumberFormat.
  replace (Localization.locale_of (Binary64.currentLang Binary64.initial)) with "de-CH"
    by (vm_compute; reflexivity).
  rewrite Hhost. vm_compute. reflexivity.
Qed.

Lemma example_vehicle_fleet_witness :
  Binary64.Diesel.net (Binary64.dieselFigures Binary64.initial Examples.template64)
  = next_down 11545.6 /\
  Binary64.Diesel.tec_primary_result
    (Binary64.calculateDiesel Examples.swiss_host Binary64.initial Examples.template64)
  = "CHF 11'546.–".
Proof.
  pose proof (example_vehicle_fleet Examples.swiss_host eq_refl) as H.
  split; apply H.
Defined.

Lemma heating_readings (f : Fields) (liters price pct : Q) :
  Spec.heating_bounds liters price pct ->
  Spec.heating_form f liters price pct ->
  heating_liters f ≡ Num liters /\ heating_price f ≡ Num price /\
  heating_savePct f ≡ Num pct.
Proof.
  intros (Hl & Hp & Hs) (E1 & E2 & E3).
  unfold heating_liters, heating_price, heating_savePct. rewrite E1, E2, E3.
  repeat split; apply reading_in_range; lra.
Qed.



(** *** Binary64 and exact arithmetic *)

(** On the worked example of the vehicle form the texts written from the
    figures of binary64 are those written from the figures of exact
    arithmetic.  This is not so everywhere: for 5 vehicles, 25000 km at 12
    l/100 km, 6 percent and 2.05 per litre the net savings are 1150.5 in
    exact arithmetic and the double next below in binary64, and the primary
    result is [CHF 1'151.–] in the one and [CHF 1'150.–], which is what the
    code writes, in the other. *)
Example rounding_shows_in_the_texts :
  let o := calculateDiesel Examples.swiss_host initial Examples.template in
  let o64 := Binary64.calculateDiesel Examples.swiss_host Binary64.initial Examples.template64 in
  let vans :=
    {| tec_custom_vehicles := Num 5; tec_km_input := Num 25000; tec_diesel_price := Num 2.05;
       tec_consumption := Preset (Num 12); tec_custom_consumption := Num 32;
       tec_savings_slider := Num 6; tec_heating_input := Num 8000;
       tec_heating_price := Num 1.35; tec_heating_savings_slider := Num 7 |} in
  [ Binary64.Diesel.tec_primary_result o64; Binary64.Diesel.tec_r_diesel o64;
    Binary64.Diesel.tec_r_co2 o64; Binary64.Diesel.tec_r_vehicle o64;
    Binary64.Diesel.tec_r_invest o64; Binary64.Diesel.tec_c_without o64;
    Binary64.Diesel.tec_c_with o64; Binary64.Diesel.tec_cta_val o64 ]
  = [ Diesel.tec_primary_result o; Diesel.tec_r_diesel o; Diesel.tec_r_co2 o;
      Diesel.tec_r_vehicle o; Diesel.tec_r_invest o; Diesel.tec_c_without o;
      Diesel.tec_c_with o; Diesel.tec_cta_val o ] /\
  Diesel.net (dieselFigures initial vans) ≡ Num 1150.5 /\
  Binary64.Diesel.net (Binary64.dieselFigures Binary64.initial Examples.delivery_vans64)
  = next_down 1150.5 /\
  Diesel.tec_primary_result (calculateDiesel Examples.swiss_host initial vans)
  = "CHF 1'151.–" /\
  Binary64.Diesel.tec_primary_result
    (Binary64.calculateDiesel Examples.swiss_host Binary64.initial Examples.delivery_vans64)
  = "CHF 1'150.–".
Proof. cbv zeta. repeat split; vm_compute; reflexivity. Qed.

Lemma below_ceiling_untouched (q : Q) :
  q < 999999999999 -> Spec.untouched_by_ceiling (Num q).
Proof.
  intros H. split; [exact H|].
  split; unfold MAX_OUT; rewrite Math_min_Num;
    apply same_Num, Q.min_l; lra.
Qed.

Lemma Qdiv_le_self (n v : Q) : 0 <= n -> 1 <= v -> n / v <= n.
Proof.
  intros Hn Hv. apply Qle_shift_div_r; [lra | nra].
Qed.

(** The figures of the vehicle mode, for numbers within the bounds. *)
Lemma vehicle_figures_bounded (v k p c s : Q) :
  Spec.vehicle_bounds v k p c s ->
  let lpv := k / 100 * c in
  let tl := lpv * v in
  let ls := tl * (s / 100) in
  let g := ls * p in
  let tc := tl * 0.0463 in
  let n := Qmax 0 (g - tc) in
  (0 <= lpv <= 450000) /\ (0 <= tl <= 450000000) /\ (0 <= ls <= 112500000) /\
  (0 <= g <= 562500000) /\ (0 <= tc <= 20835000) /\ (0 <= n <= 562500000) /\
  (0 <= ls * (2.65 / 1000) <= 298125) /\ (0 <= Qmax 0 (n / v) <= 562500000) /\
  (0 <= tl * p <= 2250000000) /\ (tl * p - n <= 2250000000).
Proof.
  intros (Hv & Hk & Hp & Hc & Hs). cbv zeta.
  change (k / 100) with (k * (1 # 100)).
  change (s / 100) with (s * (1 # 100)).
  change (2.65 / 1000) with (265 # 100000).
  set (lpv := k * (1 # 100) * c).
  set (tl := lpv * v).
  set (ls := tl * (s * (1 # 100))).
  set (g := ls * p).
  set (tc := tl * 0.0463).
  set (n := Qmax 0 (g - tc)).
  assert (Hlpv : 0 <= lpv <= 450000) by (subst lpv; nra).
  assert (Htl : 0 <= tl <= 450000000) by (subst tl; nra).
  assert (Hls : 0 <= ls <= 112500000) by (subst ls; nra).
  assert (Hg : 0 <= g <= 562500000) by (subst g; nra).
  assert (Htc : 0 <= tc <= 20835000) by (subst tc; lra).
  assert (Hn : 0 <= n <= 562500000).
  { subst n. split; [apply Q.le_max_l | apply Q.max_lub; lra]. }
  assert (Hcw : 0 <= tl * p <= 2250000000) by nra.
  repeat split; try lra; try apply Q.le_max_l.
  apply Q.max_lub; [lra|].
  apply Qle_trans with n; [apply Qdiv_le_self; lra | lra].
Qed.

Lemma heating_figures_bounded (l p s : Q) :
  Spec.heating_bounds l p s ->
  let ls := l * (s / 100) in
  let g := ls * p in
  let tc := l * 0.0463 in
  let n := Qmax 0 (g - tc) in
  (0 <= ls <= 125000) /\ (0 <= g <= 625000) /\ (0 <= tc <= 23150) /\
  (0 <= n <= 625000) /\ (0 <= ls * (2.65 / 1000) <= 332) /\
  (0 <= l * p <= 2500000) /\ (l * p - n <= 2500000).
Proof.
  intros (Hl & Hp & Hs). cbv zeta.
  change (s / 100) with (s * (1 # 100)).
  change (2.65 / 1000) with (265 # 100000).
  set (ls := l * (s * (1 # 100))).
  set (g := ls * p).
  set (tc := l * 0.0463).
  set (n := Qmax 0 (g - tc)).
  assert (Hls : 0 <= ls <= 125000) by (subst ls; nra).
  assert (Hg : 0 <= g <= 625000) by (subst g; nra).
  assert (Htc : 0 <= tc <= 23150) by (subst tc; lra).
  assert (Hn : 0 <= n <= 625000).
  { subst n. split; [apply Q.le_max_l | apply Q.max_lub; lra]. }
  assert (Hcw : 0 <= l * p <= 2500000) by nra.
  repeat split; lra.
Qed.

Lemma vehicle_bounds_same (v km price cons pct a b c d : Q) :
  a == km -> b == price -> c == cons -> d == pct ->
  Spec.vehicle_bounds v km price cons pct -> Spec.vehicle_bounds v a b c d.
Proof.
  intros Ha Hb Hc Hd. unfold Spec.vehicle_bounds. rewrite Ha, Hb, Hc, Hd. tauto.
Qed.

Lemma heating_bounds_same (liters price pct a b c : Q) :
  a == liters -> b == price -> c == pct ->
  Spec.heating_bounds liters price pct -> Spec.heating_bounds a b c.
Proof.
  intros Ha Hb Hc. unfold Spec.heating_bounds. rewrite Ha, Hb, Hc. tauto.
Qed.

(** C10.  For inputs within the documented bounds every quantity the two
    modes derive (total litres, litres saved, gross savings, product cost,
    net savings, CO2, savings per vehicle, cost without and with the
    product) is below 999,999,999,999, so the minimum with that ceiling taken
    by the formatting helpers returns the quantity itself. *)
Theorem ceiling_never_reached :
  (forall (st : State) (f : Fields) (v km price cons pct : Q),
     Spec.vehicle_bounds v km price cons pct ->
     Spec.vehicle_form (vehicles st) f v km price cons pct ->
     let r := dieselFigures st f in
     Forall Spec.untouched_by_ceiling
       [ Diesel.totalLiters r; Diesel.litersSaved r; Diesel.gross r; Diesel.tecCost r;
         Diesel.net r; Diesel.co2 r; Diesel.perVehicle r; Diesel.costWithout r;
         Diesel.costWith r ]) /\
  (forall (f : Fields) (liters price pct : Q),
     Spec.heating_bounds liters price pct ->
     Spec.heating_form f liters price pct ->
     let r := heatingFigures f in
     Forall Spec.untouched_by_ceiling
       [ Heating.litersSaved r; Heating.gross r; Heating.tecCost r; Heating.net r;
         Heating.co2 r; Heating.costWithout r; Heating.costWith r ]).
Proof.
  split.
  - intros st f v km price cons pct Hb Hf r.
    destruct (vehicle_readings _ _ _ _ _ _ _ Hb Hf) as (Rkm & Rprice & Rcons & Rpct).
    subst r. unfold dieselFigures.
    destruct Hf as (-> & _).
    destruct (diesel_km f) as [|a]; [contradiction|].
    destruct (diesel_price f) as [|b]; [contradiction|].
    destruct (diesel_cons f) as [|c]; [contradiction|].
    destruct (diesel_savePct f) as [|d]; [contradiction|].
    pose proof (vehicle_bounds_same _ _ _ _ _ _ _ _ _ Rkm Rprice Rcons Rpct Hb) as Hb'.
    pose proof (vehicle_figures_bounded _ _ _ _ _ Hb') as H. cbv zeta in H.
    destruct Hb' as (Hv & _).
    unfold dieselCalculations, Diesel.totalLiters, Diesel.litersSaved, Diesel.gross,
      Diesel.tecCost, Diesel.net, Diesel.co2, Diesel.perVehicle, Diesel.costWithout,
      Diesel.costWith, TEC_COST, CO2_LITER.
    js_norm.
    repeat (apply Forall_cons; split; [apply below_ceiling_untouched; lra|]).
    apply Forall_nil_2.
  - intros f liters price pct Hb Hf r.
    destruct (heating_readings _ _ _ _ Hb Hf) as (Rl & Rp & Rs).
    subst r. unfold heatingFigures.
    destruct (heating_liters f) as [|a]; [contradiction|].
    destruct (heating_price f) as [|b]; [contradiction|].
    destruct (heating_savePct f) as [|c]; [contradiction|].
    pose proof (heating_bounds_same _ _ _ _ _ _ Rl Rp Rs Hb) as Hb'.
    pose proof (heating_figures_bounded _ _ _ Hb') as H. cbv zeta in H.
    unfold heatingCalculations, Heating.litersSaved, Heating.gross, Heating.tecCost,
      Heating.net, Heating.co2, Heating.costWithout, Heating.costWith, TEC_COST, CO2_LITER.
    js_norm.
    repeat (apply Forall_cons; split; [apply below_ceiling_untouched; lra|]).
    apply Forall_nil_2.
Qed.

Lemma ceiling_never_reached_witness :
  let r := dieselFigures initial Examples.template in
  Forall Spec.untouched_by_ceiling
    [ Diesel.totalLiters r; Diesel.litersSaved r; Diesel.gross r; Diesel.tecCost r;
      Diesel.net r; Diesel.co2 r; Diesel.perVehicle r; Diesel.costWithout r;
      Diesel.costWith r ].
Proof.
  destruct ceiling_never_reached as [Hvehicle _].
  apply (Hvehicle initial Examples.template 5 80000 1.95 32 7).
  - unfold Spec.vehicle_bounds, Qle; simpl. lia.
  - unfold Spec.vehicle_form. repeat split; try reflexivity. left. reflexivity.
Defined.


(** A reading [clamp(parseFloat(value) || fallback, lo, hi)] of a number
    other than zero is its nearest bound when it lies outside [lo, hi]. *)
Lemma reading_clamped (raw d : jsnum) (lo hi : Q) :
  lo <= hi ->
  Spec.clamped_to_nearest raw (clamp (raw || d)%js (Num lo) (Num hi)) lo hi.
Proof.
  intros Hb q -> Hq. rewrite or_else_nonzero by assumption. rewrite clamp_Num.
  split; intros H; apply same_Num.
  - apply Qclamp_above; lra.
  - apply Qclamp_below; lra.
Qed.

(** C4, as stated, fails for the vehicle count: 5000 typed in the custom
    vehicle field is the count the formulas use ([calcRawVehicles] stores
    it unclamped), not the bound 1000. *)
Lemma vehicle_count_not_clamped :
  let st := calcRawVehicles initial Examples.vehicles_5000 in
  tec_custom_vehicles Examples.vehicles_5000 = Num 5000 /\
  vehicles st = Num 5000 /\
  Diesel.totalLiters (dieselFigures st Examples.vehicles_5000) ≡ Num (25600 * 5000) /\
  ~ Diesel.totalLiters (dieselFigures st Examples.vehicles_5000) ≡ Num (25600 * 1000).
Proof.
  cbv zeta. repeat split; try (vm_compute; reflexivity).
  vm_compute. discriminate.
Qed.

(** A field that holds 0 is read as its fallback, not as its lower bound:
    0 km gives 80000 km, a price of 0 gives 1.95, 0 percent gives 7. *)
Lemma zero_is_read_as_fallback (f : Fields) :
  (tec_km_input f = Num 0 -> diesel_km f ≡ Num 80000) /\
  (tec_diesel_price f = Num 0 -> diesel_price f ≡ Num 1.95) /\
  (tec_savings_slider f = Num 0 -> diesel_savePct f ≡ Num 7) /\
  (tec_heating_input f = Num 0 -> heating_liters f ≡ Num 8000) /\
  diesel_km Examples.km_0 ≡ Num 80000.
Proof.
  unfold diesel_km, diesel_price, diesel_savePct, heating_liters.
  repeat match goal with |- _ /\ _ => split end;
    try (intros ->); vm_compute; reflexivity.
Qed.

(** C4, amended.  For the distance, the price, the consumption and the
    expected savings of the vehicle form, and for the litres, the price and
    the expected savings of the heating form, a field that holds a number
    other than zero outside its bounds is read as the nearest bound (50
    percent becomes 25); the same holds for the price in [calcDiesel].  The
    vehicle count is stored as typed by [calcRawVehicles] (and by
    [calculateRaw]) and clamped to [1, 1000] only by [clampVehicles]. *)
Theorem readings_clamped_to_nearest_bound (f : Fields) :
  Spec.clamped_to_nearest (tec_km_input f) (diesel_km f) 1000 300000 /\
  Spec.clamped_to_nearest (tec_diesel_price f) (diesel_price f) 0.5 5 /\
  (tec_consumption f = Custom ->
   Spec.clamped_to_nearest (tec_custom_consumption f) (diesel_cons f) 1 150) /\
  (forall parsed, tec_consumption f = Preset parsed ->
   Spec.clamped_to_nearest parsed (diesel_cons f) 1 150) /\
  Spec.clamped_to_nearest (tec_savings_slider f) (diesel_savePct f) 1 25 /\
  Spec.clamped_to_nearest (tec_heating_input f) (heating_liters f) 500 500000 /\
  Spec.clamped_to_nearest (tec_heating_price f) (heating_price f) 0.5 5 /\
  Spec.clamped_to_nearest (tec_heating_savings_slider f) (heating_savePct f) 1 25 /\
  (forall this,
     Spec.clamped_to_nearest (tec_diesel_price f) (TecCalculator.calcDiesel_price this f) 0.5 5) /\
  diesel_savePct Examples.savings_50 ≡ Num 25 /\
  (forall st, vehicles (calcRawVehicles st f) = (tec_custom_vehicles f || Num 1)%js) /\
  (forall this, TecCalculator.vehicles (TecCalculator.calculateRaw this true f)
                = (tec_custom_vehicles f || Num 1)%js) /\
  (forall st, vehicles (clampVehicles st f)
              = clamp (tec_custom_vehicles f || Num 1)%js (Num 1) (Num 1000)).
Proof.
  repeat match goal with |- _ /\ _ => split end;
    try (apply reading_clamped; lra); try reflexivity.
  - intros E. unfold diesel_cons. rewrite E. apply reading_clamped. lra.
  - intros parsed E q -> Hq. unfold diesel_cons. rewrite E.
    unfold LIMITS.cons, fst, snd. rewrite clamp_Num.
    split; intros H; apply same_Num; [apply Qclamp_above | apply Qclamp_below]; lra.
  - intros this. apply reading_clamped. lra.
Qed.

Lemma readings_clamped_to_nearest_bound_witness :
  tec_savings_slider Examples.savings_50 = Num 50 /\
  diesel_savePct Examples.savings_50 ≡ Num 25.
Proof.
  split; [reflexivity|].
  destruct (readings_clamped_to_nearest_bound Examples.savings_50)
    as (_ & _ & _ & _ & Hsavings & _).
  apply (Hsavings 50 eq_refl).
  - unfold Qeq; simpl. discriminate.
  - unfold Qlt; simpl. lia.
Defined.


(** The prices [detectLocale] returns are the entry of its country in the
    table of default prices. *)
Lemma detected_prices_of_country (hostname : string) :
  let l := Locale.detectLocale hostname in
  Locale.defaultPrices !! Locale.country l = Some (Locale.prices l).
Proof.
  unfold Locale.detectLocale. cbv zeta.
  set (tld := List.last _ _). cbn [Locale.country Locale.prices].
  destruct (String.eqb tld "at"); [vm_compute; reflexivity|].
  destruct (String.eqb tld "de"); [vm_compute; reflexivity|].
  destruct (String.eqb tld "fr"); [vm_compute; reflexivity|].
  destruct (String.eqb tld "it"); vm_compute; reflexivity.
Qed.

Lemma detected_diesel_price_within_bounds (hostname : string) :
  exists p : Q,
    Locale.diesel (Locale.prices (Locale.detectLocale hostname)) = Num p /\
    0.5 <= p <= 5.
Proof.
  unfold Locale.detectLocale. cbv zeta.
  set (tld := List.last _ _). cbn [Locale.prices].
  destruct (String.eqb tld "at");
    [eexists; split; [vm_compute; reflexivity | unfold Qle; simpl; lia]|].
  destruct (String.eqb tld "de");
    [eexists; split; [vm_compute; reflexivity | unfold Qle; simpl; lia]|].
  destruct (String.eqb tld "fr");
    [eexists; split; [vm_compute; reflexivity | unfold Qle; simpl; lia]|].
  destruct (String.eqb tld "it");
    eexists; (split; [vm_compute; reflexivity | unfold Qle; simpl; lia]).
Qed.

(** C5, as stated, fails for the bundled widget: on tecblu.it, where the
    default diesel price of the country is 1.80, [calculateDiesel] reads an
    unparseable price as the constant 1.95. *)
Lemma bundled_price_fallback_is_constant :
  Locale.country (Locale.detectLocale "tecblu.it") = "IT" /\
  Locale.diesel (Locale.prices (Locale.detectLocale "tecblu.it")) = Num 1.80 /\
  tec_diesel_price Examples.price_abc = NaN /\
  diesel_price Examples.price_abc ≡ Num 1.95 /\
  ~ diesel_price Examples.price_abc ≡ clamp (Num 1.80) LIMITS.price.1 LIMITS.price.2.
Proof.
  repeat split; try (vm_compute; reflexivity).
  vm_compute. discriminate.
Qed.

(** C5, amended.  When the price field of the vehicle form is unparseable,
    [calcDiesel] of a [TecCalculator] uses the default diesel price of the
    instance clamped to [0.5, 5]: the price that [options.prices] gives or,
    without it, the table entry of the country detected from the host name
    (an override of the country does not change it).  The table entries lie
    within the bounds, so without [options.prices] the price used is the
    entry itself and is not zero.  The bundled [calculateDiesel] uses the
    constant 1.95, the entry of CH. *)
Theorem unparseable_price_fallback
  (hostname : string) (options : TecCalculator.Options) (dataset : TecCalculator.Dataset)
  (f : Fields) (Hprice : tec_diesel_price f = NaN) :
  let detected := Locale.detectLocale hostname in
  let this := TecCalculator.constructor hostname options dataset in
  TecCalculator.calcDiesel_price this f
  = clamp (Locale.diesel (default (Locale.prices detected) (TecCalculator.opt_prices options)))
      (Num 0.5) (Num 5) /\
  Locale.defaultPrices !! Locale.country detected = Some (Locale.prices detected) /\
  (TecCalculator.opt_prices options = None ->
   TecCalculator.calcDiesel_price this f ≡ Locale.diesel (Locale.prices detected) /\
   exists p : Q, Locale.diesel (Locale.prices detected) = Num p /\ 0.5 <= p <= 5) /\
  diesel_price f ≡ Num 1.95 /\
  Locale.diesel Locale.defaultPrices_CH = Num 1.95.
Proof.
  intros detected this.
  split; [|split; [|split; [|split]]].
  - unfold TecCalculator.calcDiesel_price. rewrite Hprice. reflexivity.
  - apply detected_prices_of_country.
  - intros Hnone. unfold TecCalculator.calcDiesel_price. rewrite Hprice.
    subst this. unfold TecCalculator.constructor. cbn [TecCalculator.defaultPrices].
    rewrite Hnone. cbn [default]. fold detected.
    pose proof (detected_diesel_price_within_bounds hostname) as Hcases.
    fold detected in Hcases.
    split; [|exact Hcases].
    destruct Hcases as (p & -> & Hp). rewrite or_else_NaN.
    unfold LIMITS.price, fst, snd. rewrite clamp_Num. apply same_Num, Qclamp_id. lra.
  - unfold diesel_price. rewrite Hprice. vm_compute. reflexivity.
  - reflexivity.
Qed.

Lemma unparseable_price_fallback_witness :
  let this := TecCalculator.constructor "tecblu.it" TecCalculator.no_options
                TecCalculator.no_dataset in
  TecCalculator.calcDiesel_price this Examples.price_abc
  ≡ Locale.diesel (Locale.prices (Locale.detectLocale "tecblu.it")) /\
  Locale.diesel (Locale.prices (Locale.detectLocale "tecblu.it")) = Num 1.80.
Proof.
  pose proof (unparseable_price_fallback "tecblu.it" TecCalculator.no_options
                TecCalculator.no_dataset Examples.price_abc eq_refl) as H.
  cbv zeta in H. destruct H as (_ & _ & H & _).
  split; [apply (H eq_refl) | reflexivity].
Defined.

Lemma endsWith_app (a p : string) : endsWith p (a +:+ p) = true.
Proof.
  induction a as [|c a IH]; simpl.
  - destruct p; simpl; rewrite ?Ascii.eqb_refl, ?String.eqb_refl; reflexivity.
  - rewrite IH. apply orb_true_r.
Qed.

Lemma startsWith_app (p a : string) : startsWith p (p +:+ a) = true.
Proof.
  unfold startsWith. induction p as [|c p IH]; simpl.
  - destruct a; reflexivity.
  - destruct (ascii_dec c c) as [_|Hne]; [exact IH | contradiction].
Qed.

Lemma endsWith_prepend (a p s : string) :
  endsWith p s = true -> endsWith p (a +:+ s) = true.
Proof.
  intros H. induction a as [|c a IH]; simpl; [exact H|].
  rewrite IH. apply orb_true_r.
Qed.

(** The bundled [formatCurrency] writes Swiss style whatever it is given. *)
Lemma formatCurrency_swiss_style (host : Host) (value : jsnum) (lang : string) :
  let out := Localization.formatCurrency host value "CHF" lang in
  startsWith "CHF " out = true /\ endsWith ".–" out = true.
Proof.
  unfold Localization.formatCurrency. cbv zeta. split.
  - apply (startsWith_app "CHF ").
  - do 2 apply endsWith_prepend. apply endsWith_app.
Qed.

(** The country [detectLocale] returns, by the last label of the host. *)
Lemma detected_country_cases (hostname : string) :
  let l := Locale.detectLocale hostname in
  (Locale.country l = "CH" /\ Locale.currency l = "CHF") \/
  (In (Locale.country l) ["AT"; "DE"; "FR"; "IT"] /\ Locale.currency l = "EUR").
Proof.
  unfold Locale.detectLocale. cbv zeta.
  set (tld := List.last _ _). cbn [Locale.country Locale.currency].
  destruct (String.eqb tld "at"); [right; split; [simpl; tauto | reflexivity]|].
  destruct (String.eqb tld "de"); [right; split; [simpl; tauto | reflexivity]|].
  destruct (String.eqb tld "fr"); [right; split; [simpl; tauto | reflexivity]|].
  destruct (String.eqb tld "it"); [right; split; [simpl; tauto | reflexivity]|].
  left. split; reflexivity.
Qed.

(** C6, as stated, fails for the euro: on tecblu.de, where the currency is
    EUR, [fmtCurrency] of a [TecCalculator] puts the euro sign in front of
    the amount, and the bundled [calculateDiesel] writes the amount Swiss
    style; neither output ends with the euro sign. *)
Lemma euro_sign_is_not_trailing :
  let this := TecCalculator.constructor "tecblu.de" TecCalculator.no_options
                TecCalculator.no_dataset in
  Locale.currency (Locale.detectLocale "tecblu.de") = "EUR" /\
  TecCalculator.currency this = "EUR" /\
  TecCalculator.fmtCurrency Examples.swiss_host this (Num 11545.6) = "€ 11'546" /\
  endsWith "€" (TecCalculator.fmtCurrency Examples.swiss_host this (Num 11545.6)) = false /\
  Diesel.tec_primary_result (calculateDiesel Examples.swiss_host initial Examples.template)
  = "CHF 11'546.–" /\
  endsWith "€"
    (Diesel.tec_primary_result (calculateDiesel Examples.swiss_host initial Examples.template))
  = false.
Proof. cbv zeta. repeat split; vm_compute; reflexivity. Qed.

(** C6, amended.  For every host name the currency [detectLocale] returns
    is CHF exactly when its country is CH, and EUR for the other countries
    (AT, DE, FR, IT); a [TecCalculator] built without overrides has that
    currency.  [fmtCurrency] writes a CHF amount Swiss style, [CHF <n>.–],
    and an EUR amount with a leading euro sign, [€ <n>].  The bundled
    [calculateDiesel] and [calculateHeating] write every amount Swiss style,
    whatever the host name; [formatCurrency] of the later [localization.js]
    writes an EUR amount with a trailing euro sign.  The [currency]
    function of [getFormatter], which the constructor stores and nothing
    calls, writes a CHF amount Swiss style and hands every other amount to
    the currency style of [Intl.NumberFormat], where the locale decides the
    place of the euro sign. *)
Theorem currency_conventions (hostname : string) (host : Host) (n : jsnum) :
  let l := Locale.detectLocale hostname in
  let this := TecCalculator.constructor hostname TecCalculator.no_options
                TecCalculator.no_dataset in
  let out := TecCalculator.fmtCurrency host this n in
  (Locale.currency l = "CHF" <-> Locale.country l = "CH") /\
  In (Locale.country l) ["CH"; "AT"; "DE"; "FR"; "IT"] /\
  (Locale.country l <> "CH" -> Locale.currency l = "EUR") /\
  TecCalculator.currency this = Locale.currency l /\
  (Locale.currency l = "CHF" ->
   startsWith "CHF " out = true /\ endsWith ".–" out = true) /\
  (Locale.currency l = "EUR" ->
   out = "€ " +:+ TecCalculator.fmtNum host this (Math_round (Math_min n MAX_OUT)) 0 /\
   startsWith "€ " out = true) /\
  (forall (st : State) (f : Fields),
     Forall (fun s => startsWith "CHF " s = true /\ endsWith ".–" s = true)
       [ Diesel.tec_primary_result (calculateDiesel host st f);
         Diesel.tec_r_vehicle (calculateDiesel host st f);
         Diesel.tec_r_invest (calculateDiesel host st f);
         Diesel.tec_c_without (calculateDiesel host st f);
         Diesel.tec_c_with (calculateDiesel host st f);
         Diesel.tec_cta_val (calculateDiesel host st f);
         Heating.tec_primary_result (calculateHeating host st f);
         Heating.tec_rh_invest (calculateHeating host st f);
         Heating.tec_ch_without (calculateHeating host st f);
         Heating.tec_ch_with (calculateHeating host st f);
         Heating.tec_cta_val (calculateHeating host st f) ]) /\
  (forall lang : string,
     endsWith " €" (CountryLocalization.formatCurrency host n "EUR" lang) = true) /\
  (forall (euro : Locale.CurrencyStyle) (lang country : string),
     let written := Locale.getFormatter_currency host euro lang country n "CHF" in
     startsWith "CHF " written = true /\ endsWith ".–" written = true) /\
  (forall (euro : Locale.CurrencyStyle) (lang country currency : string),
     currency <> "CHF" ->
     Locale.getFormatter_currency host euro lang country n currency
     = euro (Locale.getFormatter_locale lang country) n).
Proof.
  intros l this out.
  assert (Hthis : TecCalculator.currency this = Locale.currency l) by reflexivity.
  pose proof (detected_country_cases hostname) as Hcases. cbv zeta in Hcases. fold l in Hcases.
  repeat match goal with |- _ /\ _ => split end.
  - destruct Hcases as [[Hc Hcur]|[Hc Hcur]]; rewrite Hcur; [tauto|].
    split; [discriminate|]. intros E. rewrite E in Hc.
    simpl in Hc. intuition discriminate.
  - destruct Hcases as [[-> _]|[Hc _]]; simpl in *; tauto.
  - intros Hne. destruct Hcases as [[Hc _]|[_ Hcur]]; [contradiction | exact Hcur].
  - exact Hthis.
  - intros Hchf. subst out. unfold TecCalculator.fmtCurrency.
    rewrite Hthis, Hchf. cbn [String.eqb Ascii.eqb Bool.eqb]. cbv zeta. split.
    + apply (startsWith_app "CHF ").
    + apply endsWith_prepend, endsWith_app.
  - intros Heur. subst out. unfold TecCalculator.fmtCurrency.
    rewrite Hthis, Heur. cbn [String.eqb Ascii.eqb Bool.eqb]. cbv zeta.
    split; [reflexivity | apply (startsWith_app "€ ")].
  - intros st f.
    repeat (apply Forall_cons; split; [apply formatCurrency_swiss_style|]).
    apply Forall_nil_2.
  - intros lang. unfold CountryLocalization.formatCurrency.
    cbn [String.eqb Ascii.eqb Bool.eqb]. cbv zeta. apply endsWith_app.
  - intros euro lang country written. subst written.
    unfold Locale.getFormatter_currency. cbn [String.eqb Ascii.eqb Bool.eqb]. split.
    + apply (startsWith_app "CHF ").
    + apply endsWith_prepend, endsWith_app.
  - intros euro lang country currency Hne. unfold Locale.getFormatter_currency.
    destruct (String.eqb currency "CHF") eqn:E; [|reflexivity].
    apply String.eqb_eq in E. contradiction.
Qed.

(** C7.  For the host name en.tecblu.it and no override, [detectLocale]
    returns the language en, the country IT and the currency EUR, and a
    [TecCalculator] built on it has them; the bundled [detectLanguage] and
    [detectCountry] agree on the language and the country. *)
Theorem english_subdomain_of_italy :
  let l := Locale.detectLocale "en.tecblu.it" in
  let this := TecCalculator.constructor "en.tecblu.it" TecCalculator.no_options
                TecCalculator.no_dataset in
  Locale.lang l = "en" /\ Locale.country l = "IT" /\ Locale.currency l = "EUR" /\
  TecCalculator.lang this = "en" /\ TecCalculator.country this = "IT" /\
  TecCalculator.currency this = "EUR" /\
  Localization.detectLanguage None "en.tecblu.it" = "en" /\
  CountryLocalization.detectCountry None "en.tecblu.it" = "IT".
Proof. cbv zeta. repeat split; vm_compute; reflexivity. Qed.

(** *** The nested lookup *)

Section NestedLookup.
Variable rt : Runtime.




Lemma reduce_app (before after : list string) (current : jsval) :
  Localization.reduce rt (before ++ after) current
  = Localization.reduce rt before current ≫= Localization.reduce rt after.
Proof.
  revert current. induction before as [|key before IH]; intros current; simpl.
  - reflexivity.
  - destruct (Localization.nested_step rt current key) as [next|e]; simpl.
    + apply IH.
    + reflexivity.
Qed.





End NestedLookup.





(** The lookup on a part of the German translations: a key that is there, a
    path with a missing segment in the middle, and the two elements of
    [Examples]. *)
Example lookup_examples :
  Localization.getNestedValue Examples.bare_runtime Examples.de "header.title"
  = Normal (VString "Ersparnis-Rechner") /\
  Localization.getNestedValue Examples.bare_runtime Examples.de "header.missing.title"
  = Normal VUndefined /\
  Localization.getNestedValue Examples.bare_runtime Examples.de "diesel.priceHint.text"
  = Normal VUndefined /\
  Localization.applyTranslations Examples.bare_runtime
    [Examples.title_element; Examples.untranslated_element] Examples.de
  = Normal [Examples.title_element; Examples.untranslated_element].
Proof. repeat split; vm_compute; reflexivity. Qed.

(** *** The worked examples in binary64 *)

(* ===================================================================== *)
(** ** Further properties of the calculation                              *)
(* ===================================================================== *)

(** What [calculateDiesel] feeds its formulas, whatever the fields hold. *)
Lemma form_readings (f : Fields) :
  Page.consumption_chosen f ->
  exists km price cons pct : Q,
    diesel_km f = Num km /\ diesel_price f = Num price /\
    diesel_cons f = Num cons /\ diesel_savePct f = Num pct /\
    1000 <= km <= 300000 /\ 0.5 <= price <= 5 /\ 1 <= cons <= 150 /\ 1 <= pct <= 25.
Proof.
  intros Hc.
  destruct (readings_within_bounds f)
    as ((km & Ekm & Hkm) & (p & Ep & Hp) & Hcustom & (s & Es & Hs) & _).
  assert (Hcons : exists c, diesel_cons f = Num c /\ 1 <= c <= 150).
  { unfold Page.consumption_chosen in Hc. destruct (tec_consumption f) as [|[|c]] eqn:E.
    - apply Hcustom. reflexivity.
    - contradiction.
    - unfold diesel_cons. rewrite E. unfold LIMITS.cons, fst, snd. rewrite clamp_Num.
      eexists. split; [reflexivity | apply Qclamp_range; lra]. }
  destruct Hcons as (c & Ec & Hcb).
  exists km, p, c, s. tauto.
Qed.

Lemma heating_form_readings (f : Fields) :
  exists liters price pct : Q,
    heating_liters f = Num liters /\ heating_price f = Num price /\
    heating_savePct f = Num pct /\
    500 <= liters <= 500000 /\ 0.5 <= price <= 5 /\ 1 <= pct <= 25.
Proof.
  destruct (readings_within_bounds f)
    as (_ & _ & _ & _ & (l & El & Hl) & (p & Ep & Hp) & (s & Es & Hs)).
  exists l, p, s. tauto.
Qed.

(** The figures of the two modes, for numbers. *)
Lemma diesel_figures_of_numbers (km p c s v : Q) :
  0 < v ->
  let lpv := km / 100 * c in
  let tl := lpv * v in
  let ls := tl * (s / 100) in
  let g := ls * p in
  let tc := tl * 0.0463 in
  let n := Qmax 0 (g - tc) in
  dieselCalculations (Num km) (Num p) (Num c) (Num s) (Num v)
  = {| Diesel.litersPerVehicle := Num lpv; Diesel.totalLiters := Num tl;
       Diesel.litersSaved := Num ls; Diesel.gross := Num g; Diesel.tecCost := Num tc;
       Diesel.net := Num n; Diesel.co2 := Num (ls * (2.65 / 1000));
       Diesel.perVehicle := Num (Qmax 0 (n / v));
       Diesel.costWithout := Num (tl * p); Diesel.costWith := Num (tl * p - n) |}.
Proof.
  intros Hv. cbv zeta. unfold dieselCalculations, TEC_COST, CO2_LITER. js_norm. reflexivity.
Qed.

Lemma heating_figures_of_numbers (l p s : Q) :
  let ls := l * (s / 100) in
  let g := ls * p in
  let tc := l * 0.0463 in
  let n := Qmax 0 (g - tc) in
  heatingCalculations (Num l) (Num p) (Num s)
  = {| Heating.liters := Num l; Heating.litersSaved := Num ls; Heating.gross := Num g;
       Heating.tecCost := Num tc; Heating.net := Num n; Heating.co2 := Num (ls * (2.65 / 1000));
       Heating.costWithout := Num (l * p); Heating.costWith := Num (l * p - n) |}.
Proof.
  cbv zeta. unfold heatingCalculations, TEC_COST, CO2_LITER. js_norm. reflexivity.
Qed.

(** X2.  Whatever the fields hold, once [clampVehicles] has run (the
    custom vehicle field lost the focus) the vehicle count is a number in
    [1, 1000] and every figure [calculateDiesel] derives is a number between
    0 and 2,250,000,000; every figure [calculateHeating] derives is a number
    between 0 and 2,500,000.  None is NaN or negative. *)
Theorem figures_are_bounded_numbers :
  (forall (st : State) (f : Fields),
     Page.consumption_chosen f ->
     let st' := clampVehicles st f in
     let r := dieselFigures st' f in
     Page.is_between 1 1000 (vehicles st') /\
     Forall (Page.is_between 0 2250000000)
       [ Diesel.litersPerVehicle r; Diesel.totalLiters r; Diesel.litersSaved r;
         Diesel.gross r; Diesel.tecCost r; Diesel.net r; Diesel.co2 r;
         Diesel.perVehicle r; Diesel.costWithout r; Diesel.costWith r ]) /\
  (forall f : Fields,
     let r := heatingFigures f in
     Forall (Page.is_between 0 2500000)
       [ Heating.liters r; Heating.litersSaved r; Heating.gross r; Heating.tecCost r;
         Heating.net r; Heating.co2 r; Heating.costWithout r; Heating.costWith r ]).
Proof.
  split.
  - intros st f Hc st' r.
    destruct (form_readings f Hc) as (km & p & c & s & Ekm & Ep & Ec & Es & Hkm & Hp & Hcb & Hs).
    destruct (reading_within_bounds (tec_custom_vehicles f) 1 1 1000) as (v & Ev & Hv); [lra|].
    assert (Est : vehicles st' = Num v) by exact Ev.
    split; [rewrite Est; exact Hv|].
    subst r. unfold dieselFigures. rewrite Ekm, Ep, Ec, Es, Est.
    rewrite diesel_figures_of_numbers by lra. cbv zeta.
    cbn [Diesel.litersPerVehicle Diesel.totalLiters Diesel.litersSaved Diesel.gross
         Diesel.tecCost Diesel.net Diesel.co2 Diesel.perVehicle Diesel.costWithout
         Diesel.costWith].
    assert (Hb : Spec.vehicle_bounds v km p c s) by (unfold Spec.vehicle_bounds; tauto).
    pose proof (vehicle_figures_bounded _ _ _ _ _ Hb) as H. cbv zeta in H.
    destruct H as (H1 & H2 & H3 & H4 & H5 & H6 & H7 & H8 & H9 & H10).
    assert (Hcw : 0 <= km / 100 * c * v * p
                       - Qmax 0 (km / 100 * c * v * (s / 100) * p - km / 100 * c * v * 0.0463)).
    { revert H2 H9. change (s / 100) with (s * (1 # 100)).
      generalize (km / 100 * c * v). intros tl H2 H9.
      assert (Qmax 0 (tl * (s * (1 # 100)) * p - tl * 0.0463) <= tl * p)
        by (apply Q.max_lub; nra).
      lra. }
    repeat (apply Forall_cons; split; [simpl; lra|]).
    apply Forall_nil_2.
  - intros f r.
    destruct (heating_form_readings f) as (l & p & s & El & Ep & Es & Hl & Hp & Hs).
    subst r. unfold heatingFigures. rewrite El, Ep, Es.
    rewrite heating_figures_of_numbers. cbv zeta.
    cbn [Heating.liters Heating.litersSaved Heating.gross Heating.tecCost Heating.net
         Heating.co2 Heating.costWithout Heating.costWith].
    assert (Hb : Spec.heating_bounds l p s) by (unfold Spec.heating_bounds; tauto).
    pose proof (heating_figures_bounded _ _ _ Hb) as H. cbv zeta in H.
    destruct H as (H1 & H2 & H3 & H4 & H5 & H6 & H7).
    assert (Hcw : 0 <= l * p - Qmax 0 (l * (s / 100) * p - l * 0.0463)).
    { change (s / 100) with (s * (1 # 100)).
      assert (Qmax 0 (l * (s * (1 # 100)) * p - l * 0.0463) <= l * p)
        by (apply Q.max_lub; nra).
      lra. }
    repeat (apply Forall_cons; split; [simpl; lra|]).
    apply Forall_nil_2.
Qed.

Lemma figures_are_bounded_numbers_witness :
  let st' := clampVehicles initial Examples.vehicles_5000 in
  let r := dieselFigures st' Examples.vehicles_5000 in
  Page.is_between 1 1000 (vehicles st') /\
  Forall (Page.is_between 0 2250000000)
    [ Diesel.litersPerVehicle r; Diesel.totalLiters r; Diesel.litersSaved r;
      Diesel.gross r; Diesel.tecCost r; Diesel.net r; Diesel.co2 r;
      Diesel.perVehicle r; Diesel.costWithout r; Diesel.costWith r ].
Proof.
  destruct figures_are_bounded_numbers as [Hvehicles _].
  apply (Hvehicles initial Examples.vehicles_5000). exact I.
Defined.





(** *** The ceiling and the two formatters *)

(** [Math.min] returns its first argument when that is the smaller one. *)
Lemma Qmin_l_eq (a b : Q) : a <= b -> Qmin a b = a.
Proof.
  intros H. unfold Qmin, GenericMinMax.gmin.
  destruct (a ?= b) eqn:E; try reflexivity.
  apply Qgt_alt in E. lra.
Qed.

(** The text of a number depends on its value only. *)
Lemma format_fixed_same (sym : NumberSymbols) (d : nat) (x y : Q) :
  x == y -> format_fixed sym d x = format_fixed sym d y.
Proof.
  intros E. unfold format_fixed.
  rewrite (Qleb_comp 0 0 (Qeq_refl 0) x y E).
  assert (Efloor : Qfloor (Qabs x * inject_Z (10 ^ Z.of_nat d) + (1 # 2))
                   = Qfloor (Qabs y * inject_Z (10 ^ Z.of_nat d) + (1 # 2)))
    by (rewrite E; reflexivity).
  rewrite Efloor. reflexivity.
Qed.

Lemma NumberFormat_ceiling (host : Host) (locale : string) (d : nat) (q : Q) :
  999999999999 <= q ->
  NumberFormat host locale d (Math_min (Num q) (Num 999999999999))
  = NumberFormat host locale d (Num 999999999999).
Proof.
  intros H. rewrite Math_min_Num. apply format_fixed_same. apply Q.min_r. exact H.
Qed.

Lemma Math_round_same (x y : Q) : x == y -> Math_round (Num x) = Math_round (Num y).
Proof. intros E. unfold Math_round. rewrite E. reflexivity. Qed.

Lemma round_ceiling (q : Q) :
  999999999999 <= q ->
  Math_round (Math_min (Num q) (Num 999999999999)) = Num 999999999999.
Proof.
  intros H. rewrite Math_min_Num.
  rewrite (Math_round_same _ 999999999999) by (apply Q.min_r; exact H).
  reflexivity.
Qed.

(** An amount that was capped and rounded is not above the ceiling. *)
Lemma round_capped (n : jsnum) :
  Math_min (Math_round (Math_min n MAX_OUT)) MAX_OUT = Math_round (Math_min n MAX_OUT).
Proof.
  destruct n as [|q]; [reflexivity|].
  unfold MAX_OUT. rewrite Math_min_Num. unfold Math_round. rewrite Math_min_Num.
  f_equal. apply Qmin_l_eq.
  assert (Hf : (Qfloor (Qmin q 999999999999 + (1 # 2))
                <= Qfloor (999999999999 + (1 # 2)))%Z).
  { apply Qfloor_resp_le.
    assert (Qmin q 999999999999 <= 999999999999) by apply Q.le_min_r. lra. }
  rewrite Zle_Qle in Hf. exact Hf.
Qed.

(** X6.  An amount at or above 999,999,999,999 is written as the ceiling
    itself by every formatter: [formatCurrency] and [formatNumber] of both
    [localization.js], and [fmtCurrency] and [fmtNum] of [TecCalculator]. *)
Theorem ceiling_saturates
  (host : Host) (q : Q) (currency lang : string) (decimals : nat)
  (this : TecCalculator.instance) (Hq : 999999999999 <= q) :
  Localization.formatCurrency host (Num q) currency lang
  = Localization.formatCurrency host (Num 999999999999) currency lang /\
  Localization.formatNumber host (Num q) decimals lang
  = Localization.formatNumber host (Num 999999999999) decimals lang /\
  CountryLocalization.formatCurrency host (Num q) currency lang
  = CountryLocalization.formatCurrency host (Num 999999999999) currency lang /\
  TecCalculator.fmtCurrency host this (Num q)
  = TecCalculator.fmtCurrency host this (Num 999999999999) /\
  TecCalculator.fmtNum host this (Num q) decimals
  = TecCalculator.fmtNum host this (Num 999999999999) decimals.
Proof.
  repeat match goal with |- _ /\ _ => split end.
  - unfold Localization.formatCurrency. rewrite round_ceiling by exact Hq. reflexivity.
  - unfold Localization.formatNumber. rewrite NumberFormat_ceiling by exact Hq. reflexivity.
  - unfold CountryLocalization.formatCurrency. rewrite round_ceiling by exact Hq. reflexivity.
  - unfold TecCalculator.fmtCurrency, MAX_OUT. rewrite round_ceiling by exact Hq. reflexivity.
  - unfold TecCalculator.fmtNum, MAX_OUT. rewrite NumberFormat_ceiling by exact Hq. reflexivity.
Qed.

Lemma ceiling_saturates_witness :
  Localization.formatCurrency Examples.swiss_host (Num 5000000000000) "CHF" "de"
  = Localization.formatCurrency Examples.swiss_host (Num 999999999999) "CHF" "de" /\
  Localization.formatCurrency Examples.swiss_host (Num 999999999999) "CHF" "de"
  = "CHF 999'999'999'999.–".
Proof.
  split.
  - apply (ceiling_saturates Examples.swiss_host 5000000000000 "CHF" "de" 0
             (TecCalculator.constructor "tecblu.ch" TecCalculator.no_options
                TecCalculator.no_dataset)).
    unfold Qle; simpl; lia.
  - vm_compute. reflexivity.
Defined.

(** In German and in francs the class widget formats as the bundle does. *)
Lemma fmtNum_swiss (host : Host) (this : TecCalculator.instance) (n : jsnum) (d : nat) :
  TecCalculator.lang this = "de" ->
  TecCalculator.fmtNum host this n d = Localization.formatNumber host n d "de".
Proof. intros E. unfold TecCalculator.fmtNum. rewrite E. reflexivity. Qed.

Lemma fmtCurrency_swiss (host : Host) (this : TecCalculator.instance) (n : jsnum) :
  TecCalculator.lang this = "de" -> TecCalculator.currency this = "CHF" ->
  TecCalculator.fmtCurrency host this n = Localization.formatCurrency host n "CHF" "de".
Proof.
  intros El Ec. unfold TecCalculator.fmtCurrency, TecCalculator.fmtNum.
  rewrite El, Ec, round_capped. reflexivity.
Qed.

(** X7.  A [TecCalculator] in German and in francs whose default prices
    are those of CH (as built on tecblu.ch without overrides) writes, for
    every content of the form and the same number of vehicles, what the
    bundled widget writes in German: [calcDiesel] agrees with
    [calculateDiesel] and [calcHeating] with [calculateHeating] on every
    text, on the width of the bar and on the link.  The one difference is
    the element [tec-cta-val]: the bundle always writes it, the class
    writes it, with the same text, only when its container holds such an
    element. *)
Theorem widgets_agree_in_swiss_german
  (host : Host) (st : State) (this : TecCalculator.instance) (ctaVal : bool) (f : Fields) :
  currentLang st = "de" ->
  TecCalculator.lang this = "de" ->
  TecCalculator.currency this = "CHF" ->
  TecCalculator.defaultPrices this = Locale.defaultPrices_CH ->
  TecCalculator.vehicles this = vehicles st ->
  let c := TecCalculator.calcDiesel host this ctaVal f in
  let b := calculateDiesel host st f in
  let ch := TecCalculator.calcHeating host this ctaVal f in
  let bh := calculateHeating host st f in
  ([ TecCalculator.DieselElements.tec_primary_result c;
     TecCalculator.DieselElements.tec_r_diesel c;
     TecCalculator.DieselElements.tec_r_co2 c;
     TecCalculator.DieselElements.tec_r_vehicle c;
     TecCalculator.DieselElements.tec_r_invest c;
     TecCalculator.DieselElements.tec_c_without c;
     TecCalculator.DieselElements.tec_c_with c;
     TecCalculator.DieselElements.tec_cta_link c ]
   = [ Diesel.tec_primary_result b; Diesel.tec_r_diesel b; Diesel.tec_r_co2 b;
       Diesel.tec_r_vehicle b; Diesel.tec_r_invest b; Diesel.tec_c_without b;
       Diesel.tec_c_with b; Diesel.tec_cta_link b ] /\
   TecCalculator.DieselElements.tec_bar_with c = Diesel.tec_bar_with b /\
   TecCalculator.DieselElements.tec_cta_val c
   = if ctaVal then Some (Diesel.tec_cta_val b) else None) /\
  ([ TecCalculator.HeatingElements.tec_primary_result ch;
     TecCalculator.HeatingElements.tec_rh_oil ch;
     TecCalculator.HeatingElements.tec_rh_co2 ch;
     TecCalculator.HeatingElements.tec_rh_invest ch;
     TecCalculator.HeatingElements.tec_ch_without ch;
     TecCalculator.HeatingElements.tec_ch_with ch;
     TecCalculator.HeatingElements.tec_cta_link ch ]
   = [ Heating.tec_primary_result bh; Heating.tec_rh_oil bh; Heating.tec_rh_co2 bh;
       Heating.tec_rh_invest bh; Heating.tec_ch_without bh; Heating.tec_ch_with bh;
       Heating.tec_cta_link bh ] /\
   TecCalculator.HeatingElements.tec_bar_h_with ch = Heating.tec_bar_h_with bh /\
   TecCalculator.HeatingElements.tec_cta_val ch
   = if ctaVal then Some (Heating.tec_cta_val bh) else None).
Proof.
  intros Hst El Ec Ep Ev.
  assert (Ed : TecCalculator.calcDieselFigures this f = dieselFigures st f).
  { unfold TecCalculator.calcDieselFigures, dieselFigures, TecCalculator.calcDiesel_price,
      diesel_price. rewrite Ep, Ev. reflexivity. }
  assert (Eh : TecCalculator.calcHeatingFigures this f = heatingFigures f).
  { unfold TecCalculator.calcHeatingFigures, heatingFigures, TecCalculator.calcHeating_price,
      heating_price. rewrite Ep. reflexivity. }
  cbv zeta. split.
  - unfold TecCalculator.calcDiesel, calculateDiesel, dieselUpdateUI. cbv zeta.
    cbn [TecCalculator.DieselElements.tec_primary_result TecCalculator.DieselElements.tec_r_diesel
         TecCalculator.DieselElements.tec_r_co2 TecCalculator.DieselElements.tec_r_vehicle
         TecCalculator.DieselElements.tec_r_invest TecCalculator.DieselElements.tec_c_without
         TecCalculator.DieselElements.tec_c_with TecCalculator.DieselElements.tec_cta_link
         TecCalculator.DieselElements.tec_bar_with TecCalculator.DieselElements.tec_cta_val
         Diesel.tec_primary_result Diesel.tec_r_diesel Diesel.tec_r_co2 Diesel.tec_r_vehicle
         Diesel.tec_r_invest Diesel.tec_c_without Diesel.tec_c_with Diesel.tec_cta_link
         Diesel.tec_bar_with Diesel.tec_cta_val].
    rewrite Ed, Hst, !fmtCurrency_swiss, !fmtNum_swiss by assumption.
    destruct ctaVal; repeat split.
  - unfold TecCalculator.calcHeating, calculateHeating, heatingUpdateUI. cbv zeta.
    cbn [TecCalculator.HeatingElements.tec_primary_result TecCalculator.HeatingElements.tec_rh_oil
         TecCalculator.HeatingElements.tec_rh_co2 TecCalculator.HeatingElements.tec_rh_invest
         TecCalculator.HeatingElements.tec_ch_without TecCalculator.HeatingElements.tec_ch_with
         TecCalculator.HeatingElements.tec_cta_link TecCalculator.HeatingElements.tec_bar_h_with
         TecCalculator.HeatingElements.tec_cta_val
         Heating.tec_primary_result Heating.tec_rh_oil Heating.tec_rh_co2 Heating.tec_rh_invest
         Heating.tec_ch_without Heating.tec_ch_with Heating.tec_cta_link
         Heating.tec_bar_h_with Heating.tec_cta_val].
    rewrite Eh, Hst, !fmtCurrency_swiss, !fmtNum_swiss by assumption.
    destruct ctaVal; repeat split.
Qed.

Lemma widgets_agree_in_swiss_german_witness :
  let this := TecCalculator.constructor "tecblu.ch" TecCalculator.no_options
                TecCalculator.no_dataset in
  TecCalculator.DieselElements.tec_primary_result
    (TecCalculator.calcDiesel Examples.swiss_host this false Examples.template)
  = Diesel.tec_primary_result (calculateDiesel Examples.swiss_host initial Examples.template) /\
  TecCalculator.DieselElements.tec_cta_val
    (TecCalculator.calcDiesel Examples.swiss_host this false Examples.template)
  = None.
Proof.
  pose proof (widgets_agree_in_swiss_german Examples.swiss_host initial
                (TecCalculator.constructor "tecblu.ch" TecCalculator.no_options
                   TecCalculator.no_dataset) false Examples.template
                eq_refl eq_refl eq_refl eq_refl eq_refl) as H.
  cbv zeta in H. destruct H as ((Htexts & _ & Hcta) & _).
  cbv zeta. split; [congruence | exact Hcta].
Defined.

(* ===================================================================== *)
(** ** The handlers of the form                                           *)
(* ===================================================================== *)

(** A number within the limits is read by the calculation as it is. *)
Lemma written_is_read (v : jsnum) (d : jsnum) (lo hi : Q) :
  0 < lo -> Page.is_between lo hi v -> clamp (v || d)%js (Num lo) (Num hi) ≡ v.
Proof.
  intros Hlo Hv. destruct v as [|q]; [contradiction|].
  apply reading_in_range; assumption.
Qed.

Lemma handler_writes_within (raw : jsnum) (d lo hi : Q) :
  lo <= hi -> Page.is_between lo hi (clamp (raw || Num d)%js (Num lo) (Num hi)).
Proof.
  intros Hb. destruct (reading_within_bounds raw d lo hi Hb) as (q & -> & Hq). exact Hq.
Qed.

Lemma building_presets (type : string) (preset : jsnum) :
  setBuilding type = Some preset ->
  preset = Num 3000 \/ preset = Num 8000 \/ preset = Num 50000.
Proof.
  unfold setBuilding, BUILDING_PRESETS. cbn [list_to_map foldr uncurry fst snd].
  destruct (String.eqb type "single") eqn:E1;
    [apply String.eqb_eq in E1; subst type; rewrite lookup_insert_eq; intros [= <-]; tauto|].
  apply String.eqb_neq in E1. rewrite lookup_insert_ne by congruence.
  destruct (String.eqb type "multi") eqn:E2;
    [apply String.eqb_eq in E2; subst type; rewrite lookup_insert_eq; intros [= <-]; tauto|].
  apply String.eqb_neq in E2. rewrite lookup_insert_ne by congruence.
  destruct (String.eqb type "commercial") eqn:E3;
    [apply String.eqb_eq in E3; subst type; rewrite lookup_insert_eq; intros [= <-]; tauto|].
  apply String.eqb_neq in E3. rewrite lookup_insert_ne by congruence.
  rewrite lookup_empty. discriminate.
Qed.

(** X8.  Whatever a field holds, the number that a blur or slider handler
    of the bundle assigns ([clampKm], [syncKm], [syncKmRaw], [clampHeating],
    [syncHeating], [syncHeatingRaw], [clampConsumption], [clampVehicles])
    lies within the limits of the field, and so does each building preset
    of [setBuilding].  For the handlers that assign to the field itself
    ([clampKm], [syncKm], [clampHeating], [syncHeating], [setBuilding], and
    [clampConsumption] when the select is on custom) the calculation that
    follows reads exactly the number that was assigned.  [syncKmRaw] and
    [syncHeatingRaw] move the slider only, which the calculation does not
    read: for them the limits are all that is stated. *)
Theorem handlers_write_what_is_calculated (f : Fields) (parsed : jsnum) :
  (Page.is_between 1000 300000 (clampKm parsed) /\
   diesel_km (set_km_input f (clampKm parsed)) ≡ clampKm parsed) /\
  (Page.is_between 1000 300000 (syncKm parsed) /\
   diesel_km (set_km_input f (syncKm parsed)) ≡ syncKm parsed) /\
  Page.is_between 1000 300000 (syncKmRaw parsed) /\
  (Page.is_between 500 500000 (clampHeating parsed) /\
   heating_liters (set_heating_input f (clampHeating parsed)) ≡ clampHeating parsed) /\
  (Page.is_between 500 500000 (syncHeating parsed) /\
   heating_liters (set_heating_input f (syncHeating parsed)) ≡ syncHeating parsed) /\
  Page.is_between 500 500000 (syncHeatingRaw parsed) /\
  (Page.is_between 1 150 (clampConsumption parsed) /\
   (tec_consumption f = Custom ->
    diesel_cons (set_custom_consumption f (clampConsumption parsed)) ≡ clampConsumption parsed)) /\
  (forall st, Page.is_between 1 1000 (vehicles (clampVehicles st f))) /\
  (forall type preset, setBuilding type = Some preset ->
     Page.is_between 500 500000 preset /\
     heating_liters (set_heating_input f preset) ≡ preset).
Proof.
  repeat match goal with |- _ /\ _ => split end;
    try (apply handler_writes_within; lra);
    try (apply written_is_read; [lra | apply handler_writes_within; lra]).
  - intros E. unfold diesel_cons.
    cbn [set_custom_consumption tec_consumption tec_custom_consumption].
    rewrite E. apply written_is_read; [lra | apply handler_writes_within; lra].
  - intros st. apply handler_writes_within. lra.
  - intros type preset H.
    assert (Hp : Page.is_between 500 500000 preset).
    { destruct (building_presets type preset H) as [-> | [-> | ->]]; simpl; lra. }
    split; [exact Hp | apply written_is_read; [lra | exact Hp]].
Qed.

Lemma handlers_write_what_is_calculated_witness :
  clampKm (Num 750000) ≡ Num 300000 /\
  diesel_km (set_km_input Examples.template (clampKm (Num 750000))) ≡ clampKm (Num 750000).
Proof.
  split; [vm_compute; reflexivity|].
  apply (handlers_write_what_is_calculated Examples.template (Num 750000)).
Defined.

(** X9.  A number field that holds no number is calculated with the
    default of [calculateDiesel] or [calculateHeating] (80000 km, 8000
    litres, 32 l/100 km), but the handlers fill it with its lower limit:
    while typing the slider goes to 1000 km (500 litres), and on blur the
    field becomes 1000 km, 500 litres or 1 l/100 km, which the next
    calculation uses.  For the vehicle count both defaults are 1. *)
Theorem empty_field_defaults (f : Fields) :
  (tec_km_input f = NaN ->
   diesel_km f ≡ Num 80000 /\ syncKmRaw NaN = Num 1000 /\ clampKm NaN = Num 1000 /\
   diesel_km (set_km_input f (clampKm NaN)) ≡ Num 1000) /\
  (tec_heating_input f = NaN ->
   heating_liters f ≡ Num 8000 /\ syncHeatingRaw NaN = Num 500 /\ clampHeating NaN = Num 500 /\
   heating_liters (set_heating_input f (clampHeating NaN)) ≡ Num 500) /\
  (tec_consumption f = Custom -> tec_custom_consumption f = NaN ->
   diesel_cons f ≡ Num 32 /\ clampConsumption NaN = Num 1 /\
   diesel_cons (set_custom_consumption f (clampConsumption NaN)) ≡ Num 1) /\
  (tec_custom_vehicles f = NaN ->
   forall st, vehicles (calcRawVehicles st f) = Num 1 /\ vehicles (clampVehicles st f) = Num 1).
Proof.
  repeat match goal with |- _ /\ _ => split end.
  - intros E. unfold diesel_km. cbn [set_km_input tec_km_input]. rewrite E.
    repeat split; vm_compute; reflexivity.
  - intros E. unfold heating_liters. cbn [set_heating_input tec_heating_input]. rewrite E.
    repeat split; vm_compute; reflexivity.
  - intros Ec E. unfold diesel_cons.
    cbn [set_custom_consumption tec_consumption tec_custom_consumption]. rewrite Ec, E.
    repeat split; vm_compute; reflexivity.
  - intros E st. unfold calcRawVehicles, clampVehicles. rewrite E. split; reflexivity.
Qed.

Lemma empty_field_defaults_witness :
  diesel_km (set_km_input Examples.template NaN) ≡ Num 80000 /\
  diesel_km (set_km_input (set_km_input Examples.template NaN) (clampKm NaN)) ≡ Num 1000.
Proof.
  destruct (empty_field_defaults (set_km_input Examples.template NaN)) as (Hkm & _).
  destruct (Hkm eq_refl) as (H1 & _ & _ & H2).
  split; [exact H1 | exact H2].
Defined.

(** [NaN + x] is NaN. *)
Lemma add_nan (a b : float) : is_nan a = true -> is_nan (a + b)%float = true.
Proof.
  rewrite !is_nan_spec, add_spec. intros ->. reflexivity.
Qed.

(** X10.  [adjustPrice] adds the step to the price in the field in
    binary64, clamps the sum to [0.5, 5] and writes it with two decimals:
    the sum itself when it lies between the limits, 5.00 when it is at or
    above the upper limit, 0.50 when it is at or below the lower one.  When
    the field holds no number it writes NaN: no default is put in its
    place.  From 1.95 a step up gives 2.00 and a step down 1.90; from 2.675
    a step up gives 2.72, the sum in binary64 being just below 2.725. *)
Theorem price_buttons_stay_within_limits (parsed delta : float) :
  let sum := (parsed + delta)%float in
  let written := Binary64.clamp sum 0.5 5 in
  Binary64.adjustPrice parsed delta = Binary64.toFixed 2 written /\
  (is_nan parsed = true -> is_nan sum = true) /\
  (is_nan sum = true -> Binary64.adjustPrice parsed delta = "NaN") /\
  (is_nan sum = false -> Binary64.within 0.5 5 written = true) /\
  ((0.5 <? sum)%float = true -> (sum <? 5)%float = true -> written = sum) /\
  ((5 <=? sum)%float = true -> Binary64.adjustPrice parsed delta = "5.00") /\
  ((sum <=? 0.5)%float = true -> Binary64.adjustPrice parsed delta = "0.50") /\
  Binary64.adjustPrice 1.95 0.05 = "2.00" /\
  Binary64.adjustPrice 1.95 (-0.05) = "1.90" /\
  Binary64.adjustPrice 2.675 0.05 = "2.72".
Proof.
  intros sum written.
  split; [reflexivity|]. split; [apply add_nan|].
  split; [|split; [|split; [|split; [|split; [|repeat split; vm_compute; reflexivity]]]]].
  - intros H. unfold Binary64.adjustPrice. fold sum.
    unfold Binary64.clamp, Binary64.Math_max. rewrite H, orb_true_r. vm_compute. reflexivity.
  - intros H. apply clamp_within; [exact H | reflexivity].
  - intros H1 H2. destruct (ltb_not_nan _ _ H1) as [_ Hs].
    subst written. unfold Binary64.clamp, Binary64.Math_max, Binary64.Math_min.
    rewrite Hs, H1. simpl. rewrite Hs, H2. reflexivity.
  - intros H. destruct (leb_not_nan _ _ H) as [_ Hs].
    assert (H1 : (0.5 <? sum)%float = true)
      by (apply (ltb_leb_trans 0.5 5 sum); [reflexivity | exact H]).
    unfold Binary64.adjustPrice. fold sum.
    unfold Binary64.clamp, Binary64.Math_max, Binary64.Math_min.
    rewrite Hs, H1. simpl. rewrite Hs, (leb_not_ltb _ _ H). vm_compute. reflexivity.
  - intros H. destruct (leb_not_nan _ _ H) as [Hs _].
    unfold Binary64.adjustPrice. fold sum.
    unfold Binary64.clamp, Binary64.Math_max, Binary64.Math_min.
    rewrite Hs, (leb_not_ltb _ _ H). simpl. vm_compute. reflexivity.
Qed.

(* ===================================================================== *)
(** ** Languages, countries and host names                                *)
(* ===================================================================== *)

Ltac host_case h :=
  match goal with
  | |- context [String.eqb h ?name] =>
      let E := fresh "E" in
      destruct (String.eqb h name) eqn:E;
      [apply String.eqb_eq in E; subst h | ]
  end.

(** [URL_PATTERNS] matches twelve host names. *)
Lemma language_of_documented_host (hostname lang : string) :
  Localization.language_of_hostname hostname = Some lang ->
  In (hostname, lang) Page.documented_hosts.
Proof.
  unfold Localization.language_of_hostname, Localization.URL_PATTERNS, Localization.test.
  cbn [find existsb snd fst].
  repeat (host_case hostname;
          [cbn; intros H; injection H as <-; unfold Page.documented_hosts; simpl; tauto|]).
  cbn. discriminate.
Qed.

Lemma documented_language_supported (hostname lang : string) :
  Localization.language_of_hostname hostname = Some lang ->
  Localization.supported lang = true.
Proof.
  intros H. apply language_of_documented_host in H.
  unfold Page.documented_hosts in H. simpl in H.
  repeat (destruct H as [H | H]; [injection H as _ <-; reflexivity|]).
  contradiction.
Qed.

(** X11.  [detectLanguage] always returns one of de, en, fr and it.  A
    [lang] parameter that is one of the four wins over the host name; any
    other one is ignored; a host name that matches no pattern gives de. *)
Theorem detected_language_is_supported (langParam : option string) (hostname : string) :
  Localization.supported (Localization.detectLanguage langParam hostname) = true /\
  (forall lang, langParam = Some lang -> Localization.supported lang = true ->
     Localization.detectLanguage langParam hostname = lang) /\
  (forall lang, langParam = Some lang -> Localization.supported lang = false ->
     Localization.detectLanguage langParam hostname
     = Localization.detectLanguage None hostname) /\
  (Localization.language_of_hostname hostname = None ->
   Localization.detectLanguage None hostname = "de").
Proof.
  assert (Hhost : Localization.supported (Localization.detectLanguage None hostname) = true).
  { unfold Localization.detectLanguage.
    destruct (Localization.language_of_hostname hostname) as [l|] eqn:E; [|reflexivity].
    apply (documented_language_supported hostname l E). }
  repeat match goal with |- _ /\ _ => split end.
  - destruct langParam as [l|]; [|exact Hhost].
    unfold Localization.detectLanguage.
    destruct (negb (String.eqb l "") && Localization.supported l) eqn:E.
    + apply andb_true_iff in E. apply E.
    + exact Hhost.
  - intros lang -> Hs. unfold Localization.detectLanguage. rewrite Hs.
    destruct (String.eqb lang "") eqn:E; [|reflexivity].
    apply String.eqb_eq in E. subst lang. discriminate.
  - intros lang -> Hs. unfold Localization.detectLanguage. rewrite Hs, andb_false_r.
    reflexivity.
  - intros E. unfold Localization.detectLanguage. rewrite E. reflexivity.
Qed.

(** X12.  On every host name that [URL_PATTERNS] matches, the two locale
    modules agree: [detectLocale] returns the language of [detectLanguage]
    and the country of [detectCountry], the currency of that country in
    [COUNTRY_CONFIG] is the currency [detectLocale] returns, and
    [getFormatter] knows the locale made of the two, so that it does not
    fall back to de-CH. *)
Theorem locale_modules_agree (hostname lang : string)
  (Hdocumented : Localization.language_of_hostname hostname = Some lang) :
  let l := Locale.detectLocale hostname in
  Localization.detectLanguage None hostname = lang /\
  Locale.lang l = lang /\
  CountryLocalization.detectCountry None hostname = Locale.country l /\
  (exists cfg, CountryLocalization.COUNTRY_CONFIG !! Locale.country l = Some cfg /\
               CountryLocalization.currency cfg = Locale.currency l) /\
  Locale.localeMap !! (Locale.lang l +:+ "-" +:+ Locale.country l)
  = Some (Locale.lang l +:+ "-" +:+ Locale.country l) /\
  Locale.getFormatter_locale (Locale.lang l) (Locale.country l)
  = Locale.lang l +:+ "-" +:+ Locale.country l.
Proof.
  apply language_of_documented_host in Hdocumented.
  unfold Page.documented_hosts in Hdocumented. simpl in Hdocumented.
  repeat (destruct Hdocumented as [H | Hdocumented];
          [injection H as <- <-; cbv zeta;
           repeat match goal with |- _ /\ _ => split end;
           try (vm_compute; reflexivity);
           eexists; split; vm_compute; reflexivity|]).
  contradiction.
Qed.

Lemma locale_modules_agree_witness :
  let l := Locale.detectLocale "fr.tecblu.ch" in
  Localization.detectLanguage None "fr.tecblu.ch" = "fr" /\
  Locale.lang l = "fr" /\
  CountryLocalization.detectCountry None "fr.tecblu.ch" = Locale.country l /\
  Locale.getFormatter_locale (Locale.lang l) (Locale.country l) = "fr-CH".
Proof.
  pose proof (locale_modules_agree "fr.tecblu.ch" "fr" eq_refl) as H.
  cbv zeta in H. destruct H as (H1 & H2 & H3 & _ & _ & H4).
  cbv zeta. split; [exact H1 | split; [exact H2 | split; [exact H3 | exact H4]]].
Defined.

(** *** The labels of a host name *)

Lemma split_nonempty (sep : ascii) (s : string) :
  exists p ps, split sep s = p :: ps.
Proof.
  induction s as [|c s (p & ps & IH)]; simpl.
  - eexists _, _. reflexivity.
  - rewrite IH. destruct (Ascii.eqb c sep); eexists _, _; reflexivity.
Qed.

Lemma includes_dot_cons (c : ascii) (s : string) :
  includes "." (String c s) = Ascii.eqb c "." || includes "." s.
Proof.
  change (includes "." (String c s)) with (String.prefix "." (String c s) || includes "." s).
  f_equal.
  change (String.prefix "." (String c s))
    with (if ascii_dec "."%char c then String.prefix "" s else false).
  destruct (ascii_dec "."%char c) as [<-|Hne].
  - destruct s; reflexivity.
  - symmetry. apply Ascii.eqb_neq. congruence.
Qed.

(** A text with a dot has at least two parts. *)
Lemma split_includes (s : string) :
  includes "." s = true -> (2 <= length (split "." s))%nat.
Proof.
  induction s as [|c s IH].
  - discriminate.
  - rewrite includes_dot_cons. cbn [split].
    destruct (split_nonempty "." s) as (p & ps & H).
    destruct (Ascii.eqb c ".") eqn:E.
    + intros _. rewrite H. simpl. lia.
    + cbn [orb]. intros Hi. specialize (IH Hi). rewrite H in IH |- *. simpl in *. lia.
Qed.

Lemma lower_ascii_dot (c : ascii) :
  Ascii.eqb c "." = true -> Ascii.eqb (lower_ascii c) "." = true.
Proof. intros E. apply Ascii.eqb_eq in E. subst c. reflexivity. Qed.

Lemma includes_dot_lower (s : string) :
  includes "." s = true -> includes "." (toLowerCase s) = true.
Proof.
  induction s as [|c s IH]; [discriminate|].
  cbn [toLowerCase]. rewrite !includes_dot_cons.
  intros H. apply orb_true_iff in H. apply orb_true_iff.
  destruct H as [H | H]; [left; apply lower_ascii_dot, H | right; apply IH, H].
Qed.

Lemma toLowerCase_app (a b : string) :
  toLowerCase (a +:+ b) = toLowerCase a +:+ toLowerCase b.
Proof.
  induction a as [|c a IH]; [reflexivity|].
  change (String c a +:+ b) with (String c (a +:+ b)).
  cbn [toLowerCase]. rewrite IH. reflexivity.
Qed.

(** The first label of a host name is its text before the first dot. *)
Lemma split_first_label (a rest : string) :
  includes "." a = false ->
  split "." (a +:+ "." +:+ rest) = a :: split "." rest.
Proof.
  induction a as [|c a IH].
  - intros _. cbn [split]. change (EmptyString +:+ "." +:+ rest) with (String "." rest).
    cbn [split]. rewrite Ascii.eqb_refl. reflexivity.
  - rewrite includes_dot_cons. intros H. apply orb_false_iff in H. destruct H as [Hc Ha].
    change (String c a +:+ "." +:+ rest) with (String c (a +:+ "." +:+ rest)).
    cbn [split]. rewrite Hc, (IH Ha). reflexivity.
Qed.

(** X13.  On a host name made of the label en, fr or it, a dot and a
    rest that has a dot itself (a domain with its top-level domain),
    [detectLocale] returns that label as the language, whatever the
    top-level domain, and the country, the currency and the default prices
    it returns for the rest alone. *)
Theorem language_subdomain_decides
  (sub rest : string) (Hsub : In sub ["en"; "fr"; "it"])
  (Hrest : includes "." rest = true) :
  let l := Locale.detectLocale (sub +:+ "." +:+ rest) in
  let domain := Locale.detectLocale rest in
  Locale.lang l = sub /\
  Locale.country l = Locale.country domain /\
  Locale.currency l = Locale.currency domain /\
  Locale.prices l = Locale.prices domain.
Proof.
  cbv zeta.
  pose proof (split_includes _ (includes_dot_lower rest Hrest)) as Hlen.
  assert (Hlabel : toLowerCase sub = sub /\ includes "." sub = false
                   /\ existsb (String.eqb sub) ["en"; "fr"; "it"] = true).
  { simpl in Hsub. destruct Hsub as [<- | [<- | [<- | []]]]; repeat split; reflexivity. }
  destruct Hlabel as (Hlow & Hdot & Hlang).
  assert (Hparts : split "." (toLowerCase (sub +:+ "." +:+ rest))
                   = sub :: split "." (toLowerCase rest)).
  { rewrite !toLowerCase_app, Hlow. apply split_first_label, Hdot. }
  unfold Locale.detectLocale. cbv zeta. rewrite Hparts.
  destruct (split "." (toLowerCase rest)) as [|p [|p' ps]] eqn:E; simpl in Hlen; try lia.
  change (List.last (sub :: p :: p' :: ps) "") with (List.last (p :: p' :: ps) "").
  cbn [length head Nat.ltb Nat.leb].
  set (tld := List.last (p :: p' :: ps) "").
  rewrite Hlang. cbn [Locale.lang Locale.country Locale.currency Locale.prices].
  repeat split.
Qed.

Lemma language_subdomain_decides_witness :
  let l := Locale.detectLocale "en.tecblu.it" in
  Locale.lang l = "en" /\
  Locale.country l = Locale.country (Locale.detectLocale "tecblu.it") /\
  Locale.country (Locale.detectLocale "tecblu.it") = "IT".
Proof.
  assert (Hsub : In "en" ["en"; "fr"; "it"]) by (simpl; tauto).
  pose proof (language_subdomain_decides "en" "tecblu.it" Hsub eq_refl) as H.
  cbv zeta in H. destruct H as (H1 & H2 & _).
  cbv zeta. split; [exact H1 | split; [exact H2 | reflexivity]].
Defined.

(** X14.  [detectCountry] always returns a country that [COUNTRY_CONFIG]
    holds.  A [country] parameter made of ASCII characters that names one,
    in upper or lower case, wins and is returned in upper case; any other
    parameter made of ASCII characters is ignored; the host name gives DE,
    AT, FR, IT or, when it holds none of the four domains, CH. *)
Theorem detected_country_is_configured (countryParam : option string) (hostname : string) :
  is_Some (CountryLocalization.COUNTRY_CONFIG
             !! CountryLocalization.detectCountry countryParam hostname) /\
  (forall c, countryParam = Some c -> ascii_only c = true ->
     is_Some (CountryLocalization.COUNTRY_CONFIG !! CountryLocalization.toUpperCase c) ->
     CountryLocalization.detectCountry countryParam hostname
     = CountryLocalization.toUpperCase c) /\
  (forall c, countryParam = Some c -> ascii_only c = true ->
     CountryLocalization.COUNTRY_CONFIG !! CountryLocalization.toUpperCase c = None ->
     CountryLocalization.detectCountry countryParam hostname
     = CountryLocalization.detectCountry None hostname) /\
  In (CountryLocalization.detectCountry None hostname) ["DE"; "AT"; "FR"; "IT"; "CH"].
Proof.
  assert (Hhost : In (CountryLocalization.detectCountry None hostname)
                    ["DE"; "AT"; "FR"; "IT"; "CH"]).
  { unfold CountryLocalization.detectCountry.
    repeat match goal with
           | |- context [if ?b then _ else _] => destruct b; [simpl; tauto|]
           end.
    simpl; tauto. }
  assert (Hcfg : is_Some (CountryLocalization.COUNTRY_CONFIG
                            !! CountryLocalization.detectCountry None hostname)).
  { revert Hhost. generalize (CountryLocalization.detectCountry None hostname).
    intros c Hhost. simpl in Hhost.
    repeat (destruct Hhost as [<- | Hhost];
            [apply (bool_decide_unpack _); vm_compute; exact I|]).
    contradiction. }
  repeat match goal with |- _ /\ _ => split end.
  - destruct countryParam as [c|]; [|exact Hcfg].
    unfold CountryLocalization.detectCountry.
    destruct (negb (String.eqb c "")
              && bool_decide (is_Some (CountryLocalization.COUNTRY_CONFIG
                                         !! CountryLocalization.toUpperCase c))) eqn:E.
    + apply andb_true_iff in E. destruct E as [_ E]. apply bool_decide_eq_true in E. exact E.
    + exact Hcfg.
  - intros c -> _ Hc. unfold CountryLocalization.detectCountry.
    rewrite (bool_decide_eq_true_2 _ Hc).
    destruct (String.eqb c "") eqn:E; [|reflexivity].
    apply String.eqb_eq in E. subst c. destruct Hc as [x Hx]. vm_compute in Hx. discriminate.
  - intros c -> _ Hc. unfold CountryLocalization.detectCountry.
    rewrite bool_decide_eq_false_2, andb_false_r; [reflexivity|].
    rewrite Hc. intros [x Hx]. discriminate.
  - exact Hhost.
Qed.

(** *** The quote page *)

Lemma optional_get_total (rt : Runtime) (v : jsval) (key : string) :
  exists x, optional_get rt v key = Normal x.
Proof. destruct v; simpl; eexists; reflexivity. Qed.

Lemma quoteUrl_total (rt : Runtime) (translations : jsval) (lang fallback : string) :
  fallback <> "" ->
  Page.quote_page rt translations lang fallback
    (CountryLocalization.quoteUrl rt translations lang fallback).
Proof.
  intros Hne. unfold Page.quote_page, CountryLocalization.quoteUrl.
  destruct (optional_get_total rt translations lang) as [a ->]. simpl.
  destruct (optional_get_total rt a "cta") as [b ->]. simpl.
  destruct (optional_get_total rt b "quoteUrl") as [c ->]. simpl.
  eexists. split; [reflexivity|]. split.
  - unfold or_value. destruct (ToBoolean c) eqn:E; [exact E|]. simpl.
    destruct (String.eqb fallback "") eqn:Ef; [|reflexivity].
    apply String.eqb_eq in Ef. contradiction.
  - intros configured H. injection H as <-. reflexivity.
Qed.

(** X15.  [getQuoteUrl] never throws, whatever [translations] is (also
    undefined or null), and never returns an absent value.  The host name
    decides the language: en.tecblu.de, en.tecblu.fr, en.tecblu.it and
    en.tecblu.at get the English page, tecblu.fr the French one, tecblu.it
    the Italian one and every other host (also en.tecblu.ch) the German
    one; the page is the [cta.quoteUrl] of that language when
    [translations] holds one that is not falsy, and else the path the code
    has for the language. *)
Theorem quote_url_never_fails (rt : Runtime) (hostname : string) (translations : jsval) :
  let result := CountryLocalization.getQuoteUrl rt hostname translations in
  (exists url : jsval, result = Normal url /\ ToBoolean url = true) /\
  (In hostname ["en.tecblu.de"; "en.tecblu.fr"; "en.tecblu.it"; "en.tecblu.at"] ->
   Page.quote_page rt translations "en" "/get-a-quote" result) /\
  (hostname = "tecblu.fr" ->
   Page.quote_page rt translations "fr" "/demande-de-devis" result) /\
  (hostname = "tecblu.it" ->
   Page.quote_page rt translations "it" "/richiedi-preventivo" result) /\
  (~ In hostname ["en.tecblu.de"; "en.tecblu.fr"; "en.tecblu.it"; "en.tecblu.at";
                  "tecblu.fr"; "tecblu.it"] ->
   Page.quote_page rt translations "de" "/offerte-einholen" result).
Proof.
  cbv zeta.
  pose proof (quoteUrl_total rt translations "en" "/get-a-quote" ltac:(discriminate)) as Hen.
  pose proof (quoteUrl_total rt translations "fr" "/demande-de-devis" ltac:(discriminate)) as Hfr.
  pose proof (quoteUrl_total rt translations "it" "/richiedi-preventivo" ltac:(discriminate))
    as Hit.
  pose proof (quoteUrl_total rt translations "de" "/offerte-einholen" ltac:(discriminate)) as Hde.
  assert (Hsome : forall lang path result,
             Page.quote_page rt translations lang path result ->
             exists url : jsval, result = Normal url /\ ToBoolean url = true).
  { intros lang path result (url & E & Ht & _). exists url. split; assumption. }
  unfold CountryLocalization.getQuoteUrl.
  destruct (existsb (String.eqb hostname)
              ["en.tecblu.de"; "en.tecblu.fr"; "en.tecblu.it"; "en.tecblu.at"]) eqn:Een.
  { apply existsb_exists in Een. destruct Een as (h & Hin & Eh).
    apply String.eqb_eq in Eh. subst h.
    split; [apply (Hsome _ _ _ Hen)|]. split; [intros _; exact Hen|].
    split; [intros ->; simpl in Hin; intuition discriminate|].
    split; [intros ->; simpl in Hin; intuition discriminate|].
    intros Hnot. exfalso. apply Hnot. simpl in Hin |- *. tauto. }
  assert (Hnoten : ~ In hostname
                     ["en.tecblu.de"; "en.tecblu.fr"; "en.tecblu.it"; "en.tecblu.at"]).
  { intros Hin. apply not_true_iff_false in Een. apply Een, existsb_exists.
    exists hostname. split; [exact Hin | apply String.eqb_refl]. }
  destruct (String.eqb hostname "tecblu.fr") eqn:Efr.
  { apply String.eqb_eq in Efr. subst hostname.
    split; [apply (Hsome _ _ _ Hfr)|]. split; [intros Hin; contradiction|].
    split; [intros _; exact Hfr|]. split; [discriminate|].
    intros Hnot. exfalso. apply Hnot. simpl. tauto. }
  apply String.eqb_neq in Efr.
  destruct (String.eqb hostname "tecblu.it") eqn:Eit.
  { apply String.eqb_eq in Eit. subst hostname.
    split; [apply (Hsome _ _ _ Hit)|]. split; [intros Hin; contradiction|].
    split; [discriminate|]. split; [intros _; exact Hit|].
    intros Hnot. exfalso. apply Hnot. simpl. tauto. }
  apply String.eqb_neq in Eit.
  split; [apply (Hsome _ _ _ Hde)|]. split; [intros Hin; contradiction|].
  split; [intros E; contradiction|]. split; [intros E; contradiction|].
  intros _. exact Hde.
Qed.

(** X16.  In the constructor of [TecCalculator] the overrides are
    independent of one another: a country given as an option or as a data
    attribute becomes the country of the instance, but the currency stays
    the one detected from the host name unless a currency is given too,
    and the default prices stay those of the country of the host name
    unless prices are given; a currency given as an option becomes the
    currency whatever the country. *)
Theorem overrides_are_independent
  (hostname : string) (options : TecCalculator.Options) (dataset : TecCalculator.Dataset) :
  let detected := Locale.detectLocale hostname in
  let this := TecCalculator.constructor hostname options dataset in
  (forall c, c <> "" ->
     TecCalculator.opt_country options = Some c \/
     (TecCalculator.opt_country options = None /\
      TecCalculator.data_country dataset = Some c) ->
     TecCalculator.country this = c) /\
  (TecCalculator.opt_currency options = None ->
   TecCalculator.data_currency dataset = None ->
   TecCalculator.currency this = Locale.currency detected) /\
  (TecCalculator.opt_prices options = None ->
   TecCalculator.defaultPrices this = Locale.prices detected) /\
  (forall c, c <> "" -> TecCalculator.opt_currency options = Some c ->
     TecCalculator.currency this = c).
Proof.
  cbv zeta. unfold TecCalculator.constructor.
  cbn [TecCalculator.country TecCalculator.currency TecCalculator.defaultPrices].
  repeat match goal with |- _ /\ _ => split end.
  - intros c Hc [E | [E1 E2]].
    + rewrite E. unfold TecCalculator.or_string.
      destruct (String.eqb c "") eqn:Ec; [apply String.eqb_eq in Ec; contradiction|].
      reflexivity.
    + rewrite E1, E2. unfold TecCalculator.or_string.
      destruct (String.eqb c "") eqn:Ec; [apply String.eqb_eq in Ec; contradiction|].
      reflexivity.
  - intros E1 E2. rewrite E1, E2. reflexivity.
  - intros E. rewrite E. reflexivity.
  - intros c Hc E. rewrite E. unfold TecCalculator.or_string.
    destruct (String.eqb c "") eqn:Ec; [apply String.eqb_eq in Ec; contradiction|].
    reflexivity.
Qed.

Lemma overrides_are_independent_witness :
  let this :=
    TecCalculator.constructor "tecblu.ch"
      {| TecCalculator.opt_lang := None; TecCalculator.opt_country := Some "DE";
         TecCalculator.opt_currency := None; TecCalculator.opt_prices := None |}
      TecCalculator.no_dataset in
  TecCalculator.country this = "DE" /\
  TecCalculator.currency this = "CHF" /\
  Locale.diesel (TecCalculator.defaultPrices this) = Num 1.95.
Proof.
  pose proof (overrides_are_independent "tecblu.ch"
                {| TecCalculator.opt_lang := None; TecCalculator.opt_country := Some "DE";
                   TecCalculator.opt_currency := None; TecCalculator.opt_prices := None |}
                TecCalculator.no_dataset) as H.
  cbv zeta in H. destruct H as (H1 & H2 & H3 & _).
  cbv zeta. split; [apply (H1 "DE"); [discriminate | left; reflexivity]|].
  split; [rewrite (H2 eq_refl eq_refl) | rewrite (H3 eq_refl)]; reflexivity.
Defined.

(* ===================================================================== *)
(** ** Paths of the lookup                                                *)
(* ===================================================================== *)
(** Splitting a joined path gives the segments of its two parts. *)
Lemma split_join (a b : string) :
  split "." (a +:+ "." +:+ b) = split "." a ++ split "." b.
Proof.
  induction a as [|c a IH].
  - change (EmptyString +:+ "." +:+ b) with (String "." b).
    cbn [split]. rewrite Ascii.eqb_refl. reflexivity.
  - change (String c a +:+ "." +:+ b) with (String c (a +:+ "." +:+ b)).
    cbn [split]. rewrite IH.
    destruct (split_nonempty "." a) as (p & ps & ->).
    destruct (Ascii.eqb c "."); reflexivity.
Qed.
(** A key without a dot is one segment. *)
Lemma split_one_segment (key : string) :
  includes "." key = false -> split "." key = [key].
Proof.
  induction key as [|c key IH]; [reflexivity|].
  rewrite includes_dot_cons. intros H. apply orb_false_iff in H. destruct H as [Hc Hk].
  cbn [split]. rewrite Hc, (IH Hk). reflexivity.
Qed.
(** X17.  [getNestedValue] follows a path part by part: the lookup of
    [before.after] is the lookup of [after] in what the lookup of [before]
    finds.  A value stored under a key without a dot is found again under
    that key, and a path that starts with that key continues inside the
    stored value. *)
Theorem lookup_follows_the_path (rt : Runtime) :
  (forall (obj : jsval) (before after : string),
     Localization.getNestedValue rt obj (before +:+ "." +:+ after)
     = Localization.getNestedValue rt obj before
         ≫= (fun found => Localization.getNestedValue rt found after)) /\
  (forall (props : gmap string jsval) (key : string) (v : jsval),
     includes "." key = false ->
     Localization.getNestedValue rt (VObject (<[key := v]> props)) key = Normal v) /\
  (forall (props : gmap string jsval) (key path : string) (inner : jsval),
     includes "." key = false ->
     Localization.getNestedValue rt (VObject (<[key := inner]> props)) (key +:+ "." +:+ path)
     = Localization.getNestedValue rt inner path).
Proof.
  assert (Hstore : forall (props : gmap string jsval) (key : string) (v : jsval),
             includes "." key = false ->
             Localization.getNestedValue rt (VObject (<[key := v]> props)) key = Normal v).
  { intros props key v Hkey. unfold Localization.getNestedValue.
    rewrite (split_one_segment key Hkey). cbn [Localization.reduce].
    unfold Localization.nested_step. cbn [ToBoolean get_property].
    rewrite lookup_insert_eq. simpl. destruct v; reflexivity. }
  split; [|split].
  - intros obj before after. unfold Localization.getNestedValue.
    rewrite split_join. apply reduce_app.
  - exact Hstore.
  - intros props key path inner Hkey.
    unfold Localization.getNestedValue. rewrite split_join, reduce_app.
    fold (Localization.getNestedValue rt (VObject (<[key := inner]> props)) key).
    rewrite (Hstore props key inner Hkey). reflexivity.
Qed.

(* ===================================================================== *)
(** ** The translated page                                                *)
(* ===================================================================== *)

Section TranslatedPage.
Import Localization Page.

(** *** The child nodes of a tooltip element *)
Lemma set_first_text_twice (text : string) (children : list node) :
  set_first_text text (set_first_text text children) = set_first_text text children.
Proof.
  induction children as [|[t|classes t] rest IH]; simpl; [reflexivity | reflexivity |].
  rewrite IH. reflexivity.
Qed.

Lemma set_first_text_has_text (text : string) (children : list node) :
  existsb is_text (set_first_text text children) = existsb is_text children.
Proof.
  induction children as [|[t|classes t] rest IH]; simpl; [reflexivity | reflexivity | exact IH].
Qed.

Lemma set_first_text_has_span (text : string) (children : list node) :
  existsb is_tooltip_span (set_first_text text children) = existsb is_tooltip_span children.
Proof.
  induction children as [|[t|classes t] rest IH]; simpl; [reflexivity | reflexivity |].
  rewrite IH. reflexivity.
Qed.

Lemma insert_before_span_has_text (text : string) (children : list node) :
  existsb is_tooltip_span children = true ->
  existsb is_text (insert_before_span text children) = true.
Proof.
  induction children as [|n rest IH]; simpl; [discriminate|].
  destruct (is_tooltip_span n) eqn:E; simpl.
  - reflexivity.
  - intros H. rewrite (IH H). apply orb_true_r.
Qed.

Lemma insert_before_span_has_span (text : string) (children : list node) :
  existsb is_tooltip_span (insert_before_span text children)
  = existsb is_tooltip_span children.
Proof.
  induction children as [|n rest IH]; simpl; [reflexivity|].
  destruct (is_tooltip_span n) eqn:E; simpl; rewrite ?E; simpl; [reflexivity | exact IH].
Qed.

(** The text inserted before the span is the first text of the element
    when it had none. *)
Lemma set_first_text_inserted (text : string) (children : list node) :
  existsb is_text children = false ->
  set_first_text text (insert_before_span text children) = insert_before_span text children.
Proof.
  induction children as [|n rest IH]; simpl; [reflexivity|].
  intros H. apply orb_false_iff in H. destruct H as [Hn Hrest].
  destruct (is_tooltip_span n) eqn:E; simpl; [reflexivity|].
  destruct n as [t|classes t]; [discriminate|]. rewrite (IH Hrest). reflexivity.
Qed.

Lemma set_span_text_twice (text : string) (children : list node) :
  set_span_text text (set_span_text text children) = set_span_text text children.
Proof.
  induction children as [|[t|classes t] rest IH]; simpl; [reflexivity | rewrite IH; reflexivity |].
  destruct (contains "tec-tooltip-text" classes) eqn:E; simpl; rewrite E; [reflexivity|].
  rewrite IH. reflexivity.
Qed.

Lemma set_span_text_has_text (text : string) (children : list node) :
  existsb is_text (set_span_text text children) = existsb is_text children.
Proof.
  induction children as [|[t|classes t] rest IH]; simpl; [reflexivity | reflexivity |].
  destruct (contains "tec-tooltip-text" classes); simpl; [reflexivity | exact IH].
Qed.

Lemma set_span_text_has_span (text : string) (children : list node) :
  existsb is_tooltip_span (set_span_text text children) = existsb is_tooltip_span children.
Proof.
  induction children as [|[t|classes t] rest IH]; simpl; [reflexivity | exact IH |].
  destruct (contains "tec-tooltip-text" classes) eqn:E; simpl; rewrite ?E; simpl;
    [reflexivity | exact IH].
Qed.

Lemma set_first_text_set_span_text (text tip : string) (children : list node) :
  set_first_text text (set_span_text tip children)
  = set_span_text tip (set_first_text text children).
Proof.
  induction children as [|[t|classes t] rest IH]; simpl; [reflexivity | reflexivity |].
  destruct (contains "tec-tooltip-text" classes) eqn:E; simpl; rewrite ?E;
    [reflexivity | rewrite IH; reflexivity].
Qed.

Lemma with_main_text_has_text (text : string) (children : list node) :
  existsb is_text (with_main_text text children) = true.
Proof.
  unfold with_main_text. destruct (existsb is_text children) eqn:Ht.
  - rewrite set_first_text_has_text. exact Ht.
  - destruct (existsb is_tooltip_span children) eqn:Hs; [|reflexivity].
    apply insert_before_span_has_text, Hs.
Qed.

Lemma with_main_text_has_span (text : string) (children : list node) :
  existsb is_tooltip_span (with_main_text text children) = existsb is_tooltip_span children.
Proof.
  unfold with_main_text. destruct (existsb is_text children) eqn:Ht.
  - apply set_first_text_has_span.
  - destruct (existsb is_tooltip_span children) eqn:Hs; [|reflexivity].
    rewrite insert_before_span_has_span. exact Hs.
Qed.

Lemma set_first_text_main (text : string) (children : list node) :
  set_first_text text (with_main_text text children) = with_main_text text children.
Proof.
  unfold with_main_text. destruct (existsb is_text children) eqn:Ht.
  - apply set_first_text_twice.
  - destruct (existsb is_tooltip_span children) eqn:Hs; [|reflexivity].
    apply set_first_text_inserted, Ht.
Qed.

(** *** One element *)

Section Translation.
Variable rt : Runtime.
Variable translations : jsval.

(** What [translate_element] does to a tooltip element whose translation is
    [text]. *)
Lemma translate_tooltip (el : element) (tr : jsval) :
  getNestedValue rt translations (data_i18n el) = Normal tr ->
  ToBoolean tr = true ->
  String.eqb (tagName el) "OPTION" = false ->
  contains "tec-tooltip" (classList el) = true ->
  translate_element rt translations el
  = let c1 := with_main_text (ToString rt tr) (childNodes el) in
    if existsb is_tooltip_span (childNodes el) && truthy_attribute (data_i18n_tooltip el) then
      tip ← getNestedValue rt translations (default "" (data_i18n_tooltip el));
      if ToBoolean tip
      then Normal (with_children el (set_span_text (ToString rt tip) c1))
      else Normal (with_children el c1)
    else Normal (with_children el c1).
Proof.
  intros L Htr Htag Hcls. unfold translate_element. rewrite L. simpl.
  rewrite Htr, Htag, Hcls. unfold with_main_text.
  destruct (existsb is_text (childNodes el)); [reflexivity|].
  destruct (existsb is_tooltip_span (childNodes el)); reflexivity.
Qed.

(** What [translate_element] does to any other element with a
    translation. *)
Lemma translate_plain (el : element) (tr : jsval) :
  getNestedValue rt translations (data_i18n el) = Normal tr ->
  ToBoolean tr = true ->
  String.eqb (tagName el) "OPTION" = true \/ contains "tec-tooltip" (classList el) = false ->
  translate_element rt translations el = Normal (set_textContent el (ToString rt tr)).
Proof.
  intros L Htr H. unfold translate_element. rewrite L. simpl. rewrite Htr.
  destruct (String.eqb (tagName el) "OPTION"); [reflexivity|].
  destruct H as [H | H]; [discriminate | rewrite H; reflexivity].
Qed.

Lemma translate_element_twice (el el' : element) :
  translate_element rt translations el = Normal el' ->
  translate_element rt translations el' = Normal el'.
Proof.
  destruct (getNestedValue rt translations (data_i18n el)) as [tr|e] eqn:L.
  2:{ unfold translate_element. rewrite L. discriminate. }
  destruct (ToBoolean tr) eqn:Htr.
  2:{ unfold translate_element at 1. rewrite L. simpl. rewrite Htr.
      intros [= <-]. unfold translate_element. rewrite L. simpl. rewrite Htr. reflexivity. }
  destruct (String.eqb (tagName el) "OPTION") eqn:Htag.
  { unfold translate_element at 1. rewrite L. simpl. rewrite Htr, Htag.
    intros [= <-]. unfold translate_element.
    cbn [set_textContent data_i18n tagName]. rewrite L. simpl. rewrite Htr, Htag. reflexivity. }
  destruct (contains "tec-tooltip" (classList el)) eqn:Hcls.
  2:{ unfold translate_element at 1. rewrite L. simpl. rewrite Htr, Htag, Hcls.
      intros [= <-]. unfold translate_element.
      cbn [set_textContent data_i18n tagName classList]. rewrite L. simpl.
      rewrite Htr, Htag, Hcls. reflexivity. }
  rewrite (translate_tooltip el tr L Htr Htag Hcls). cbv zeta.
  set (c1 := with_main_text (ToString rt tr) (childNodes el)).
  assert (Hmain : forall text c,
             existsb is_text c = true -> with_main_text text c = set_first_text text c).
  { intros text c Hc. unfold with_main_text. rewrite Hc. reflexivity. }
  destruct (existsb is_tooltip_span (childNodes el) && truthy_attribute (data_i18n_tooltip el))
    eqn:Htip.
  - destruct (getNestedValue rt translations (default "" (data_i18n_tooltip el)))
      as [tip|e] eqn:Ltip; [|discriminate]. simpl.
    destruct (ToBoolean tip) eqn:Htt.
    + intros [= <-].
      rewrite (translate_tooltip (with_children el (set_span_text (ToString rt tip) c1)) tr);
        try assumption.
      cbv zeta. cbn [with_children childNodes data_i18n_tooltip].
      rewrite set_span_text_has_span. subst c1. rewrite with_main_text_has_span, Htip, Ltip.
      simpl. rewrite Htt.
      rewrite (Hmain _ (set_span_text (ToString rt tip) (with_main_text (ToString rt tr) (childNodes el))))
        by (rewrite set_span_text_has_text; apply with_main_text_has_text).
      rewrite set_first_text_set_span_text, set_first_text_main, set_span_text_twice.
      reflexivity.
    + intros [= <-].
      rewrite (translate_tooltip (with_children el c1) tr); try assumption.
      cbv zeta. cbn [with_children childNodes data_i18n_tooltip].
      subst c1. rewrite with_main_text_has_span, Htip, Ltip. simpl. rewrite Htt.
      rewrite (Hmain _ (with_main_text (ToString rt tr) (childNodes el))) by apply with_main_text_has_text.
      rewrite set_first_text_main. reflexivity.
  - intros [= <-].
    rewrite (translate_tooltip (with_children el c1) tr); try assumption.
    cbv zeta. cbn [with_children childNodes data_i18n_tooltip].
    subst c1. rewrite with_main_text_has_span, Htip.
    rewrite (Hmain _ (with_main_text (ToString rt tr) (childNodes el))) by apply with_main_text_has_text.
    rewrite set_first_text_main. reflexivity.
Qed.

End Translation.

(** X18.  Applying the same translations a second time changes nothing:
    when [applyTranslations] has run over the elements of a page without
    throwing, a second run with the same table leaves every element, its
    text, its tooltip and its other children as the first run left them. *)
Theorem translating_twice_changes_nothing
  (rt : Runtime) (translations : jsval) (elements translated : list element) :
  applyTranslations rt elements translations = Normal translated ->
  applyTranslations rt translated translations = Normal translated.
Proof.
  revert translated. induction elements as [|el rest IH]; intros translated.
  - intros [= <-]. reflexivity.
  - cbn [applyTranslations].
    destruct (translate_element rt translations el) as [el'|e] eqn:E; [|discriminate]. simpl.
    destruct (applyTranslations rt rest translations) as [rest'|e] eqn:Erest; [|discriminate].
    simpl. intros [= <-]. cbn [applyTranslations].
    rewrite (translate_element_twice rt translations el el' E). simpl.
    rewrite (IH rest' eq_refl). reflexivity.
Qed.

(** X19.  [applyTranslations] changes only the children of an element:
    tag, classes and both keys stay.  An element of class [tec-tooltip]
    that is no OPTION keeps its tooltip span when it has one (and gets
    none when it has none); every other element for which a text is found
    ends with that text as its only child. *)
Theorem translation_keeps_the_tooltip
  (rt : Runtime) (translations : jsval) (el el' : element) :
  translate_element rt translations el = Normal el' ->
  (tagName el' = tagName el /\ classList el' = classList el /\
   data_i18n el' = data_i18n el /\ data_i18n_tooltip el' = data_i18n_tooltip el) /\
  (String.eqb (tagName el) "OPTION" = false ->
   contains "tec-tooltip" (classList el) = true ->
   existsb is_tooltip_span (childNodes el') = existsb is_tooltip_span (childNodes el)) /\
  (forall tr, getNestedValue rt translations (data_i18n el) = Normal tr ->
     ToBoolean tr = true ->
     String.eqb (tagName el) "OPTION" = true \/ contains "tec-tooltip" (classList el) = false ->
     childNodes el' = [TextNode (ToString rt tr)]).
Proof.
  intros H.
  destruct (getNestedValue rt translations (data_i18n el)) as [tr|e] eqn:L.
  2:{ unfold translate_element in H. rewrite L in H. discriminate. }
  destruct (ToBoolean tr) eqn:Htr.
  2:{ unfold translate_element in H. rewrite L in H. simpl in H. rewrite Htr in H.
      injection H as <-. split; [tauto|]. split; [reflexivity|].
      intros tr' [= <-]. congruence. }
  destruct (String.eqb (tagName el) "OPTION") eqn:Htag.
  { rewrite (translate_plain rt translations el tr L Htr) in H by (left; exact Htag).
    injection H as <-. split; [repeat split|]. split; [discriminate|].
    intros tr' [= <-] _ _. reflexivity. }
  destruct (contains "tec-tooltip" (classList el)) eqn:Hcls.
  2:{ rewrite (translate_plain rt translations el tr L Htr) in H by (right; exact Hcls).
      injection H as <-. split; [repeat split|]. split; [discriminate|].
      intros tr' [= <-] _ _. reflexivity. }
  rewrite (translate_tooltip rt translations el tr L Htr Htag Hcls) in H. cbv zeta in H.
  assert (Hdone : forall children,
             existsb is_tooltip_span children = existsb is_tooltip_span (childNodes el) ->
             Normal (with_children el children) = Normal el' ->
             (tagName el' = tagName el /\ classList el' = classList el /\
              data_i18n el' = data_i18n el /\ data_i18n_tooltip el' = data_i18n_tooltip el) /\
             (false = false -> true = true ->
              existsb is_tooltip_span (childNodes el') = existsb is_tooltip_span (childNodes el)) /\
             (forall tr0, Normal tr = Normal tr0 -> ToBoolean tr0 = true ->
                false = true \/ true = false -> childNodes el' = [TextNode (ToString rt tr0)])).
  { intros children Hspan [= <-]. split; [repeat split|]. split; [intros _ _; exact Hspan|].
    intros tr0 _ _ [E | E]; discriminate. }
  destruct (existsb is_tooltip_span (childNodes el) && truthy_attribute (data_i18n_tooltip el)).
  - destruct (getNestedValue rt translations (default "" (data_i18n_tooltip el))) as [tip|e];
      [|discriminate]. simpl in H.
    destruct (ToBoolean tip).
    + apply (Hdone _ ltac:(rewrite set_span_text_has_span; apply with_main_text_has_span) H).
    + apply (Hdone _ (with_main_text_has_span _ _) H).
  - apply (Hdone _ (with_main_text_has_span _ _) H).
Qed.

Lemma translating_twice_changes_nothing_witness :
  applyTranslations Examples.bare_runtime [Examples.price_label] Assets.en
  = Normal [Examples.price_label_en] /\
  applyTranslations Examples.bare_runtime [Examples.price_label_en] Assets.en
  = Normal [Examples.price_label_en].
Proof.
  assert (H : applyTranslations Examples.bare_runtime [Examples.price_label] Assets.en
              = Normal [Examples.price_label_en]) by (vm_compute; reflexivity).
  split; [exact H|].
  apply (translating_twice_changes_nothing
           Examples.bare_runtime Assets.en [Examples.price_label] [Examples.price_label_en] H).
Defined.

Lemma translation_keeps_the_tooltip_witness :
  translate_element Examples.bare_runtime Assets.en Examples.price_label
  = Normal Examples.price_label_en /\
  data_i18n_tooltip Examples.price_label_en = Some "diesel.priceTooltip" /\
  existsb is_tooltip_span (childNodes Examples.price_label_en) = true.
Proof.
  assert (H : translate_element Examples.bare_runtime Assets.en Examples.price_label
              = Normal Examples.price_label_en) by (vm_compute; reflexivity).
  destruct (translation_keeps_the_tooltip
              Examples.bare_runtime Assets.en Examples.price_label Examples.price_label_en H)
    as ((_ & _ & _ & Htip) & Hspan & _).
  split; [exact H|]. split; [exact Htip|].
  rewrite (Hspan eq_refl eq_refl). reflexivity.
Defined.

(** *** The bundled tables *)

Lemma own_lookup_sound (rt : Runtime) (keys : list string) (current v : jsval) :
  own_lookup keys current = Some v -> reduce rt keys current = Normal v.
Proof.
  revert current. induction keys as [|key rest IH]; intros current; simpl.
  - intros [= <-]. reflexivity.
  - destruct current as [| | | | |props|]; try discriminate.
    destruct (props !! key) as [x|] eqn:E; [|discriminate].
    destruct (is_undefined x) eqn:Hx; [discriminate|].
    intros H. unfold nested_step. cbn [ToBoolean get_property]. rewrite E. simpl.
    rewrite Hx. simpl. apply IH, H.
Qed.

Lemma own_text_sound (rt : Runtime) (translations : jsval) (key : string) :
  own_text translations key = true -> has_text rt translations key.
Proof.
  unfold own_text, has_text, getNestedValue.
  destruct (own_lookup (split "." key) translations) as [[| | | |text| |]|] eqn:E;
    try discriminate.
  intros H. exists text. split; [apply own_lookup_sound, E|].
  intros ->. discriminate.
Qed.

Lemma own_translation_sound (rt : Runtime) (translations : jsval) (el : element) :
  own_translation translations el = true -> is_translated rt translations el.
Proof.
  unfold own_translation, is_translated. intros H. apply andb_true_iff in H.
  destruct H as [H1 H2]. split; [apply own_text_sound, H1|].
  intros key E. rewrite E in H2. apply own_text_sound, H2.
Qed.

(** [toggleAdvanced] reads own properties as the lookup does. *)
Lemma own_lookup_toggle (rt : Runtime) (translations v : jsval) (type label : string) :
  own_lookup [type; label] translations = Some v ->
  get_property rt translations type ≫= (fun section => get_property rt section label)
  = Normal v /\ ToBoolean translations = true.
Proof.
  simpl. destruct translations as [| | | | |props|]; try discriminate.
  destruct (props !! type) as [x|] eqn:E; [|discriminate].
  destruct (is_undefined x) eqn:Hx; [discriminate|].
  destruct x as [| | | | |inner|]; try discriminate.
  destruct (inner !! label) as [y|] eqn:E'; [|discriminate].
  destruct (is_undefined y); [discriminate|]. intros [= <-].
  cbn [get_property]. rewrite E. simpl. rewrite E'. split; reflexivity.
Qed.

Lemma own_toggle_labels_sound (rt : Runtime) (translations : jsval) (type : string) :
  type = "diesel" \/ type = "heating" ->
  own_toggle_labels translations type = true -> toggle_labels rt translations type.
Proof.
  intros Htype. unfold own_toggle_labels.
  destruct (own_lookup [type; "advancedToggleClose"] translations)
    as [[| | | |close| |]|] eqn:Eclose; try discriminate.
  destruct (own_lookup [type; "advancedToggle"] translations)
    as [[| | | |open| |]|] eqn:Eopen; try discriminate.
  intros H. apply andb_true_iff in H. destruct H as [Hclose Hopen].
  destruct (own_lookup_toggle rt _ _ _ _ Eclose) as [Rclose Ht].
  destruct (own_lookup_toggle rt _ _ _ _ Eopen) as [Ropen _].
  assert (Hkey : (if String.eqb type "diesel" then "diesel" else "heating") = type)
    by (destruct Htype as [-> | ->]; reflexivity).
  split.
  - exists close. unfold toggleAdvanced. rewrite Ht. cbv zeta. rewrite Hkey.
    split; [exact Rclose|]. intros ->. discriminate.
  - exists open. unfold toggleAdvanced. rewrite Ht. cbv zeta. rewrite Hkey.
    split; [exact Ropen|]. split; [intros ->; discriminate|].
    unfold getNestedValue.
    assert (Hsplit : split "." (type +:+ ".advancedToggle") = [type; "advancedToggle"])
      by (destruct Htype as [-> | ->]; reflexivity).
    rewrite Hsplit. apply own_lookup_sound, Eopen.
Qed.

(** X20.  The bundled tables are complete: for each of the four supported
    languages [TRANSLATIONS] holds a table in which every [data-i18n] key
    and every [data-i18n-tooltip] key of the template finds a text that is
    not empty, so that [applyTranslations] leaves no element of the
    template in German on a page of another language.  The key [currency]
    is the text CHF in all four tables. *)
Theorem bundled_translations_are_complete (rt : Runtime) :
  Forall (fun lang =>
            exists translations,
              Assets.TRANSLATIONS !! lang = Some translations /\
              Forall (is_translated rt translations) Assets.translatable /\
              getNestedValue rt translations "currency" = Normal (VString "CHF"))
    SUPPORTED_LANGS.
Proof.
  assert (Hall : forall translations,
             forallb (own_translation translations) Assets.translatable = true ->
             Forall (is_translated rt translations) Assets.translatable).
  { intros translations. generalize Assets.translatable.
    induction l as [|el l IH]; intros H; [apply Forall_nil_2|].
    cbn [forallb] in H. apply andb_true_iff in H. destruct H as [Hel Hl].
    apply Forall_cons. split; [apply own_translation_sound, Hel | apply IH, Hl]. }
  assert (Hlang : forall lang translations,
             Assets.TRANSLATIONS !! lang = Some translations ->
             forallb (own_translation translations) Assets.translatable = true ->
             own_lookup ["currency"] translations = Some (VString "CHF") ->
             exists translations,
               Assets.TRANSLATIONS !! lang = Some translations /\
               Forall (is_translated rt translations) Assets.translatable /\
               getNestedValue rt translations "currency" = Normal (VString "CHF")).
  { intros lang translations Hl Ht Hc. exists translations.
    split; [exact Hl|]. split; [apply Hall, Ht | apply (own_lookup_sound rt ["currency"]), Hc]. }
  unfold SUPPORTED_LANGS.
  apply Forall_cons. split; [apply (Hlang "de" Assets.de); [reflexivity | vm_compute; reflexivity ..]|].
  apply Forall_cons. split; [apply (Hlang "en" Assets.en); [reflexivity | vm_compute; reflexivity ..]|].
  apply Forall_cons. split; [apply (Hlang "fr" Assets.fr); [reflexivity | vm_compute; reflexivity ..]|].
  apply Forall_cons. split; [apply (Hlang "it" Assets.it); [reflexivity | vm_compute; reflexivity ..]|].
  apply Forall_nil_2.
Qed.

(** X21.  [toggleAdvanced] writes the German texts when the wrapper holds
    no translations.  With each of the four bundled tables it finds a text
    that is not empty for the open and for the closed panel of both forms,
    and the text for the closed panel is the one [applyTranslations] wrote
    on the toggle.  With a table that lacks the section of the form it
    throws a TypeError. *)
Theorem advanced_toggle_labels (rt : Runtime) :
  (forall type show,
     toggleAdvanced rt VUndefined type show
     = Normal (VString (if show then "− Weniger anzeigen" else "+ Erweiterte Einstellungen"))) /\
  Forall (fun lang =>
            exists translations,
              Assets.TRANSLATIONS !! lang = Some translations /\
              toggle_labels rt translations "diesel" /\
              toggle_labels rt translations "heating")
    SUPPORTED_LANGS /\
  (forall (props : gmap string jsval) (type : string) (show : bool),
     let key := if String.eqb type "diesel" then "diesel" else "heating" in
     props !! key = None -> inherited rt (VObject props) key = VUndefined ->
     toggleAdvanced rt (VObject props) type show = Throw "TypeError").
Proof.
  split; [reflexivity|]. split.
  - assert (Hlang : forall lang translations,
               Assets.TRANSLATIONS !! lang = Some translations ->
               own_toggle_labels translations "diesel" = true ->
               own_toggle_labels translations "heating" = true ->
               exists translations,
                 Assets.TRANSLATIONS !! lang = Some translations /\
                 toggle_labels rt translations "diesel" /\
                 toggle_labels rt translations "heating").
    { intros lang translations Hl Hd Hh. exists translations. split; [exact Hl|].
      split; apply own_toggle_labels_sound; auto. }
    unfold SUPPORTED_LANGS.
    apply Forall_cons. split;
      [apply (Hlang "de" Assets.de); [reflexivity | vm_compute; reflexivity ..]|].
    apply Forall_cons. split;
      [apply (Hlang "en" Assets.en); [reflexivity | vm_compute; reflexivity ..]|].
    apply Forall_cons. split;
      [apply (Hlang "fr" Assets.fr); [reflexivity | vm_compute; reflexivity ..]|].
    apply Forall_cons. split;
      [apply (Hlang "it" Assets.it); [reflexivity | vm_compute; reflexivity ..]|].
    apply Forall_nil_2.
  - intros props type show key Hown Hrt. unfold toggleAdvanced. cbn [ToBoolean]. cbv zeta.
    fold key. cbn [get_property]. rewrite Hown, Hrt. reflexivity.
Qed.

End TranslatedPage.

(* ===================================================================== *)
(** ** The assets as string literals                                      *)
(* ===================================================================== *)

Lemma append_assoc (a b c : string) : (a +:+ b) +:+ c = a +:+ (b +:+ c).
Proof.
  induction a as [|x a IH]; [reflexivity|].
  change (String x ((a +:+ b) +:+ c) = String x (a +:+ (b +:+ c))).
  rewrite IH. reflexivity.
Qed.

Lemma replace_all_app (c : ascii) (by_ a b : string) :
  replace_all c by_ (a +:+ b) = replace_all c by_ a +:+ replace_all c by_ b.
Proof.
  induction a as [|x a IH]; [reflexivity|].
  change (String x a +:+ b) with (String x (a +:+ b)).
  cbn [replace_all]. rewrite IH. destruct (Ascii.eqb x c).
  - symmetry. apply append_assoc.
  - reflexivity.
Qed.

(** What [escapeJS] writes for one character. *)
Lemma escapeJS_cons (a : ascii) (s : string) :
  Build.escapeJS (String a s) = Build.escapeJS (String a EmptyString) +:+ Build.escapeJS s.
Proof.
  change (String a s) with (String a EmptyString +:+ s).
  unfold Build.escapeJS. rewrite !replace_all_app. reflexivity.
Qed.

Lemma escapeJS_char (a : ascii) :
  Build.escapeJS (String a EmptyString)
  = if Ascii.eqb a Build.backslash then "\\"
    else if Ascii.eqb a Build.quote then "\'"
    else if Ascii.eqb a Build.doublequote then String Build.backslash (String Build.doublequote EmptyString)
    else if Ascii.eqb a Build.LF then "\n"
    else if Ascii.eqb a Build.CR then "\r"
    else String a EmptyString.
Proof.
  destruct (Ascii.eqb a Build.backslash) eqn:E1;
    [apply Ascii.eqb_eq in E1; subst a; reflexivity|].
  destruct (Ascii.eqb a Build.quote) eqn:E2;
    [apply Ascii.eqb_eq in E2; subst a; reflexivity|].
  destruct (Ascii.eqb a Build.doublequote) eqn:E3;
    [apply Ascii.eqb_eq in E3; subst a; reflexivity|].
  destruct (Ascii.eqb a Build.LF) eqn:E4;
    [apply Ascii.eqb_eq in E4; subst a; reflexivity|].
  destruct (Ascii.eqb a Build.CR) eqn:E5;
    [apply Ascii.eqb_eq in E5; subst a; reflexivity|].
  unfold Build.escapeJS. cbn [replace_all]. rewrite E1. cbn [replace_all]. rewrite E2.
  cbn [replace_all]. rewrite E3. cbn [replace_all]. rewrite E4. cbn [replace_all]. rewrite E5.
  reflexivity.
Qed.

Lemma literal_value_escape (q e c : ascii) (t v : string) :
  Build.escaped e = Some c ->
  Build.literal_value q t = Some v ->
  Build.literal_value q (String Build.backslash (String e t)) = Some (String c v).
Proof.
  intros He Ht. cbn [Build.literal_value]. rewrite Ascii.eqb_refl, He, Ht. reflexivity.
Qed.

Lemma literal_value_escaped (q a : ascii) (t v : string) :
  q = Build.quote \/ q = Build.doublequote ->
  Build.literal_value q t = Some v ->
  Build.literal_value q (Build.escapeJS (String a EmptyString) +:+ t) = Some (String a v).
Proof.
  intros Hq Ht. rewrite escapeJS_char.
  destruct (Ascii.eqb a Build.backslash) eqn:E1;
    [apply Ascii.eqb_eq in E1; subst a;
     apply (literal_value_escape q Build.backslash); [reflexivity | exact Ht]|].
  destruct (Ascii.eqb a Build.quote) eqn:E2;
    [apply Ascii.eqb_eq in E2; subst a;
     apply (literal_value_escape q Build.quote); [reflexivity | exact Ht]|].
  destruct (Ascii.eqb a Build.doublequote) eqn:E3;
    [apply Ascii.eqb_eq in E3; subst a;
     apply (literal_value_escape q Build.doublequote); [reflexivity | exact Ht]|].
  destruct (Ascii.eqb a Build.LF) eqn:E4;
    [apply Ascii.eqb_eq in E4; subst a;
     apply (literal_value_escape q "n"); [reflexivity | exact Ht]|].
  destruct (Ascii.eqb a Build.CR) eqn:E5;
    [apply Ascii.eqb_eq in E5; subst a;
     apply (literal_value_escape q "r"); [reflexivity | exact Ht]|].
  change (String a EmptyString +:+ t) with (String a t).
  cbn [Build.literal_value]. rewrite E1, E4, E5, Ht.
  destruct Hq as [-> | ->]; [rewrite E2 | rewrite E3]; reflexivity.
Qed.

(** X22.  What [escapeJS] returns is the body of a string literal whose
    value is the text it was given, between single quotes (as [build.js]
    writes CSS_CONTENT and HTML_CONTENT) as well as between double quotes:
    no quote, backslash or line break of the text ends or changes the
    literal.  Hence two different texts are never escaped to the same
    text. *)
Theorem escapeJS_is_a_literal (str : string) :
  Build.literal_value Build.quote (Build.escapeJS str) = Some str /\
  Build.literal_value Build.doublequote (Build.escapeJS str) = Some str /\
  (forall other, Build.escapeJS other = Build.escapeJS str -> other = str).
Proof.
  assert (H : forall q s, q = Build.quote \/ q = Build.doublequote ->
                          Build.literal_value q (Build.escapeJS s) = Some s).
  { intros q s Hq. induction s as [|a s IH]; [reflexivity|].
    rewrite escapeJS_cons. apply literal_value_escaped; assumption. }
  split; [apply H; left; reflexivity|].
  split; [apply H; right; reflexivity|].
  intros other E.
  pose proof (H Build.quote other (or_introl eq_refl)) as Ho.
  rewrite E, (H Build.quote str (or_introl eq_refl)) in Ho. congruence.
Qed.

Example escapeJS_examples :
  Build.escapeJS "a{content:'\'}" = "a{content:\'\\\'}" /\
  Build.escapeJS (String "a" (String Build.LF (String "b" EmptyString))) = "a\nb".
Proof. split; vm_compute; reflexivity. Qed.

(* ===================================================================== *)
(** ** The handlers of the two widgets                                    *)
(* ===================================================================== *)

